(** * Vision Transformer example script: model and verified properties

    Source: examples/vision/image_classification_with_vision_transformer.py

    The script is a client of a numeric framework.  The functions the script
    defines itself ([mlp], [Patches.call], [PatchEncoder.call],
    [create_vit_classifier], [run_experiment]) and its module-level constants
    are translated line by line.  The framework operations they call
    ([tf.image.extract_patches], [tf.reshape], broadcasting [+], the layers'
    shape rules, [fit] and the [ModelCheckpoint] callback) are modelled after
    the framework's documented behaviour for the arguments the script passes;
    every such definition says so in its comment.

    Tensors are a shape together with a row-major buffer.  Scalars are an
    abstract type: no claim below depends on floating-point arithmetic. *)

From Stdlib Require Import List Arith PeanoNat Lia Bool ZArith QArith Qround.
From Stdlib Require String.
Import ListNotations.
Import String.StringSyntax.

Set Warnings "-register-all".
Local Open Scope nat_scope.

Set Implicit Arguments.

(** ** Option as the error monad: [None] is a framework-raised error. *)

Definition obind {X Y : Type} (m : option X) (k : X -> option Y) : option Y :=
  match m with
  | Some x => k x
  | None => None
  end.

Notation "'let?' x ':=' m 'in' k" := (obind m (fun x => k))
  (at level 10, x name, m at level 100, k at level 200).

(** ** Hyperparameters (the module-level constants of the script) *)

Record hyperparameters := {
  num_classes : nat;
  input_shape : list nat;
  learning_rate : Q;
  weight_decay : Q;
  batch_size : nat;
  num_epochs : nat;
  patch_size : nat;
  projection_dims : nat;
  num_heads : nat;
  transfomer_layers : nat;
  mlp_head_units : list nat
}.

(** [image_size = input_shape[0]] *)
Definition image_size (cfg : hyperparameters) : nat := nth 0 (input_shape cfg) 0.

(** [num_patches = (image_size // patch_size) ** 2]
    (Python raises on a zero [patch_size]; here the quotient is then 0.) *)
Definition num_patches (cfg : hyperparameters) : nat :=
  (image_size cfg / patch_size cfg) ^ 2.

(** [transformer_units = [projection_dims * 2, projection_dims]] *)
Definition transformer_units (cfg : hyperparameters) : list nat :=
  [projection_dims cfg * 2; projection_dims cfg].

(** The values the script assigns. *)
Definition script_config : hyperparameters := {|
  num_classes := 100;
  input_shape := [32; 32; 3];
  learning_rate := 1 # 1000;
  weight_decay := 1 # 10000;
  batch_size := 256;
  num_epochs := 100;
  patch_size := 4;
  projection_dims := 64;
  num_heads := 4;
  transfomer_layers := 8;
  mlp_head_units := [2048; 1024]
|}.

(** The same configuration for images of 30 x 30 pixels, a size the patch
    size does not divide. *)
Definition config_30 : hyperparameters := {|
  num_classes := 100;
  input_shape := [30; 30; 3];
  learning_rate := 1 # 1000;
  weight_decay := 1 # 10000;
  batch_size := 256;
  num_epochs := 100;
  patch_size := 4;
  projection_dims := 64;
  num_heads := 4;
  transfomer_layers := 8;
  mlp_head_units := [2048; 1024]
|}.

(** ** Tensors *)

Definition numel (s : list nat) : nat := fold_right Nat.mul 1 s.

Section Tensors.

Variable A : Type.

Record Tensor := mkTensor { shape : list nat; data : list A }.

(** A tensor is well formed when its buffer holds one scalar per index. *)
Definition wf_tensor (t : Tensor) : Prop :=
  length (data t) = numel (shape t).

(** The [len] scalars stored from flat offset [off]. *)
Definition slice (off len : nat) (l : list A) : list A :=
  firstn len (skipn off l).

(** Framework: output extent of a sliding window without padding
    ("VALID"): [(input - ksize + stride) / stride] with truncating
    division, an error when that is negative. *)
Definition valid_output_size (input_size ksize stride : nat) : option nat :=
  if (ksize =? 0) || (stride =? 0) then None
  else if input_size + 2 * stride <=? ksize then None
  else Some ((input_size + stride - ksize) / stride).

Inductive padding := VALID.

(** Framework: [tf.image.extract_patches] on a [batch, rows, cols, depth]
    tensor, for "VALID" padding and dilation rates 1, which is what the
    script asks for (other rates are outside the model and give [None]).
    Output cell [(b, i, j)] holds the window whose top-left corner is
    [(i * stride_rows, j * stride_cols)], its pixels in row-major order, each
    pixel with all its channels.  Windows that would cross the border do not
    exist in this mode: nothing is padded. *)
Definition extract_patches (images : Tensor) (sizes strides rates : list nat)
    (p : padding) : option Tensor :=
  match shape images, sizes, strides, rates with
  | [b; h; w; c], [1; kr; kc; 1], [1; sr; sc; 1], [1; 1; 1; 1] =>
      let? oh := valid_output_size h kr sr in
      let? ow := valid_output_size w kc sc in
      Some {| shape := [b; oh; ow; kr * kc * c];
              data :=
                flat_map (fun n =>
                flat_map (fun i =>
                flat_map (fun j =>
                flat_map (fun di =>
                flat_map (fun dj =>
                  slice (((n * h + (i * sr + di)) * w + (j * sc + dj)) * c) c
                        (data images))
                (seq 0 kc)) (seq 0 kr)) (seq 0 ow)) (seq 0 oh)) (seq 0 b) |}
  | _, _, _, _ => None
  end.

(** Helpers for [reshape]: product of the extents that are given, number of
    those that are not, and the target with the missing extent filled in. *)
Definition known_product (target : list (option nat)) : nat :=
  fold_right (fun d acc => match d with Some n => n * acc | None => acc end)
             1 target.

Definition count_unknown (target : list (option nat)) : nat :=
  length (filter (fun d => match d with None => true | Some _ => false end)
                 target).

Definition resolve (missing : nat) (target : list (option nat)) : list nat :=
  map (fun d => match d with Some n => n | None => missing end) target.

(** Framework: [tf.reshape].  A target entry [None] is the script's [-1].
    The buffer is kept; with one [-1] that extent is the quotient of the
    element count by the product of the given extents, which must divide it.
    An inference next to a zero extent is left out of the model (result
    [None]). *)
Definition reshape (t : Tensor) (target : list (option nat)) : option Tensor :=
  let n := numel (shape t) in
  let p := known_product target in
  match count_unknown target with
  | 0 => if p =? n then Some {| shape := resolve 0 target; data := data t |}
         else None
  | 1 => if p =? 0 then None
         else if n mod p =? 0
              then Some {| shape := resolve (n / p) target; data := data t |}
              else None
  | _ => None
  end.

(** *** [Patches.call] *)

Definition Patches_call (self_patch_size : nat) (images : Tensor)
    : option Tensor :=
  (* batch_size = tf.shape(images)[0] *)
  let? batch_size := hd_error (shape images) in
  let? patches :=
    extract_patches images
      [1; self_patch_size; self_patch_size; 1]
      [1; self_patch_size; self_patch_size; 1]
      [1; 1; 1; 1]
      VALID in
  (* patch_dims = patches.shape[-1] *)
  let patch_dims := last (shape patches) 0 in
  reshape patches [Some batch_size; None; Some patch_dims].

(** Patch [i] of image [b] in a [batch, patches, patch_dims] tensor. *)
Definition patch_at (t : Tensor) (b i : nat) : list A :=
  match shape t with
  | [_; n; d] => slice ((b * n + i) * d) d (data t)
  | _ => []
  end.


(** *** Scalar arithmetic, left abstract *)

Variable zero : A.
Variable add mul : A -> A -> A.

Definition get (t : Tensor) (k : nat) : A := nth k (data t) zero.

(** Entry [(b, i, j)] of a rank-3 tensor and entry [(i, j)] of a rank-2 one,
    from the row-major layout. *)
Definition get3 (t : Tensor) (b i j : nat) : A :=
  match shape t with
  | [_; n; d] => get t ((b * n + i) * d + j)
  | _ => zero
  end.

Definition get2 (t : Tensor) (i j : nat) : A :=
  match shape t with
  | [_; d] => get t (i * d + j)
  | _ => zero
  end.

(** Framework: [tf.range(start, limit, delta)] on naturals. *)
Definition tf_range (start limit delta : nat) : option (list nat) :=
  if delta =? 0 then None
  else Some (map (fun k => start + k * delta)
                 (seq 0 ((limit - start + delta - 1) / delta))).

(** Framework: the weights of a built [layers.Dense] and its call without
    activation: every vector along the last axis is multiplied by the
    kernel and the bias is added.  Inputs of rank below 2 are rejected. *)
Record DenseWeights := { kernel : Tensor; bias : Tensor }.

Definition dot (xs ys : list A) : A :=
  fold_right add zero (map (fun p => mul (fst p) (snd p)) (combine xs ys)).

Definition kernel_column (w : DenseWeights) (din units u : nat) : list A :=
  map (fun k => get (kernel w) (k * units + u)) (seq 0 din).

Definition Dense_call (w : DenseWeights) (x : Tensor) : option Tensor :=
  match rev (shape x), shape (kernel w), shape (bias w) with
  | d :: l :: lead, [din; units], [ub] =>
      if (d =? din) && (units =? ub) then
        Some {| shape := rev (l :: lead) ++ [units];
                data :=
                  flat_map (fun r =>
                    map (fun u =>
                           add (dot (slice (r * d) d (data x))
                                    (kernel_column w din units u))
                               (get (bias w) u))
                        (seq 0 units))
                    (seq 0 (numel (l :: lead))) |}
      else None
  | _, _, _ => None
  end.

(** Framework: [layers.Embedding] called on a vector of indices: row
    [positions[i]] of the table becomes row [i] of the output.  An index
    outside the table is an error. *)
Definition Embedding_call (table : Tensor) (positions : list nat)
    : option Tensor :=
  match shape table with
  | [input_dim; output_dim] =>
      if forallb (fun i => i <? input_dim) positions then
        Some {| shape := [length positions; output_dim];
                data := flat_map (fun i => slice (i * output_dim) output_dim
                                                 (data table))
                                 positions |}
      else None
  | _ => None
  end.

(** Framework: shape of an elementwise operation under broadcasting.
    Shapes are aligned at their last axis; two extents agree when they are
    equal or one of them is 1. *)
Definition broadcast_dim (a b : nat) : option nat :=
  if a =? b then Some a
  else if a =? 1 then Some b
  else if b =? 1 then Some a
  else None.

Fixpoint broadcast_rev (r1 r2 : list nat) : option (list nat) :=
  match r1, r2 with
  | [], r => Some r
  | r, [] => Some r
  | a :: r1', b :: r2' =>
      let? d := broadcast_dim a b in
      let? rest := broadcast_rev r1' r2' in
      Some (d :: rest)
  end.

Definition broadcast_shape (s1 s2 : list nat) : option (list nat) :=
  option_map (@rev nat) (broadcast_rev (rev s1) (rev s2)).

(** Flat position in an operand of shape [src] of the entry that lands at
    flat position [k] of the broadcast result of shape [out] (both shapes
    given last axis first): an axis of extent 1 is read at index 0. *)
Fixpoint source_index_rev (src out : list nat) (k : nat) : nat :=
  match src, out with
  | d :: ds, o :: os =>
      (if d =? 1 then 0 else k mod o) + d * source_index_rev ds os (k / o)
  | _, _ => 0
  end.

Definition source_index (src out : list nat) (k : nat) : nat :=
  source_index_rev (rev src) (rev out) k.

(** Framework: [x + y] on tensors. *)
Definition tf_add (x y : Tensor) : option Tensor :=
  let? s := broadcast_shape (shape x) (shape y) in
  Some {| shape := s;
          data := map (fun k => add (get x (source_index (shape x) s k))
                                    (get y (source_index (shape y) s k)))
                      (seq 0 (numel s)) |}.

(** *** [PatchEncoder] *)

(** The attributes [__init__] sets: [num_patches], the [projection] layer
    and the [position_embedding] layer, the layers given by their weights. *)
Record PatchEncoder := {
  self_num_patches : nat;
  projection : DenseWeights;
  position_embedding : Tensor
}.

(** The weight shapes that [PatchEncoder(num_patches, projection_dims)]
    has once built on patches of [patch_dims] scalars. *)
Definition PatchEncoder_built (self : PatchEncoder)
    (n_patches proj_dims patch_dims : nat) : Prop :=
  self_num_patches self = n_patches /\
  shape (kernel (projection self)) = [patch_dims; proj_dims] /\
  shape (bias (projection self)) = [proj_dims] /\
  shape (position_embedding self) = [n_patches; proj_dims] /\
  wf_tensor (position_embedding self).

(** The second operand of the sum in [call], on its own:
    [self.position_embedding(positions)] with
    [positions = tf.range(start=0, limit=self.num_patches, delta=1)]. *)
Definition positional_offsets (self : PatchEncoder) : option Tensor :=
  let? positions := tf_range 0 (self_num_patches self) 1 in
  Embedding_call (position_embedding self) positions.

Definition PatchEncoder_call (self : PatchEncoder) (patch : Tensor)
    : option Tensor :=
  let? positions := tf_range 0 (self_num_patches self) 1 in
  (* encoded = self.projection(patch) + self.position_embedding(positions) *)
  let? projected := Dense_call (projection self) patch in
  let? offsets := Embedding_call (position_embedding self) positions in
  tf_add projected offsets.

End Tensors.

Arguments mkTensor {A}.

(** ** The model graph built by the functional API *)

Local Open Scope string_scope.

(** [tf.nn.gelu], the only activation the script names. *)
Inductive activation := gelu.

(** The layer constructors the script uses, with the arguments it gives. *)
Inductive layer :=
| InputLayer (shape : list nat)
| Normalization
| RandomFlip (mode : String.string)
| RandomRotation (factor : Q)
| RandomZoom (height_factor width_factor : Q)
| Sequential (layers : list layer) (name : String.string)
| Patches (patch_size : nat)
| PatchEncoderLayer (num_patches projection_dims : nat)
| LayerNormalization (epsilon : Q)
| MultiHeadAttention (num_heads key_dim : nat) (dropout : Q)
| Add
| Dense (units : nat) (activation : option activation)
| Dropout (rate : Q)
| Flatten.

(** The module-level [data_augmentation] object. *)
Definition data_augmentation : layer :=
  Sequential
    [ Normalization;
      RandomFlip "horizontal";
      RandomRotation (2 # 100);
      RandomZoom (2 # 10) (2 # 10) ]
    "data_augmentation".

(** *** Shapes of layer outputs

    A symbolic tensor carries the shape it has when the model runs on a batch
    of a given size.  The two layers the script defines get their output shape
    by running their [call] on a tensor without data, as the framework does
    when such a layer is applied to a symbolic input.

    The framework itself leaves the batch axis, and behind [Patches] the
    patch axis, unknown while the graph is built, and compares them only when
    data is run.  With every extent fixed in advance the two moments are
    taken together here: a shape error below is an error of building the
    model or of running it on a batch of that size. *)

Definition symbolic (s : list nat) : Tensor unit := mkTensor s [].

Definition Patches_shape (patch_size : nat) (s : list nat) : option (list nat) :=
  let? t := Patches_call patch_size (symbolic s) in Some (shape t).

(** [PatchEncoder.__init__] followed by the first call on an input of shape
    [s]: the projection's kernel is created for the input's last axis. *)
Definition PatchEncoder_init_symbolic (num_patches projection_dims : nat)
    (s : list nat) : PatchEncoder unit :=
  {| self_num_patches := num_patches;
     projection := {| kernel := symbolic [last s 0; projection_dims];
                      bias := symbolic [projection_dims] |};
     position_embedding := symbolic [num_patches; projection_dims] |}.

Definition PatchEncoder_shape (num_patches projection_dims : nat)
    (s : list nat) : option (list nat) :=
  let? t := PatchEncoder_call tt (fun _ _ => tt) (fun _ _ => tt)
              (PatchEncoder_init_symbolic num_patches projection_dims s)
              (symbolic s) in
  Some (shape t).

(** Framework: a merge layer needs at least two inputs and broadcasts them. *)
Fixpoint merge_shapes (acc : list nat) (rest : list (list nat))
    : option (list nat) :=
  match rest with
  | [] => Some acc
  | s :: rest' => let? acc' := broadcast_shape acc s in merge_shapes acc' rest'
  end.

(** Framework: output shape of each layer for given input shapes.
    Preprocessing, normalization and dropout keep the shape; [Dense] replaces
    the last extent of an input of rank at least 2; attention on
    [batch, sequence, features] inputs returns the query's shape; [Flatten]
    keeps the batch axis and multiplies the others.  Only shapes are
    compared: that the framework wants [num_heads], [key_dim] and unit counts
    positive is not checked. *)
Fixpoint compute_output_shape (l : layer) (inputs : list (list nat))
    : option (list nat) :=
  match l, inputs with
  | InputLayer _, _ => None
  | Normalization, [s] => Some s
  | RandomFlip _, [s] => Some s
  | RandomRotation _, [s] => Some s
  | RandomZoom _ _, [s] => Some s
  | Sequential ls _, [s] =>
      fold_left (fun acc l' => let? s' := acc in compute_output_shape l' [s'])
                ls (Some s)
  | Patches p, [s] => Patches_shape p s
  | PatchEncoderLayer n d, [s] => PatchEncoder_shape n d s
  | LayerNormalization _, [s] => Some s
  | MultiHeadAttention _ _ _, [[b; t; dq]; [b'; _; _]] =>
      if b =? b' then Some [b; t; dq] else None
  | Add, s1 :: s2 :: rest => merge_shapes s1 (s2 :: rest)
  | Dense units _, [s] =>
      match rev s with
      | _ :: l :: lead => Some (rev (l :: lead) ++ [units])
      | _ => None
      end
  | Dropout _, [s] => Some s
  | Flatten, [b :: rest] => Some [b; numel rest]
  | _, _ => None
  end.

(** *** Graph construction

    Creating a layer and calling it on symbolic tensors adds one node to the
    graph; the node's position is the identity of the result tensor.  A call
    whose shapes do not fit raises, which aborts the construction. *)

Record KerasTensor := { tensor_id : nat; tensor_shape : list nat }.

Record node := { node_layer : layer; node_inputs : list nat }.

Definition graph := list node.

(** Computations that thread a state and may raise. *)
Definition StateErr (S X : Type) : Type := S -> option (X * S).

Definition ret {S X : Type} (x : X) : StateErr S X := fun s => Some (x, s).

Definition bind {S X Y : Type} (m : StateErr S X) (k : X -> StateErr S Y)
    : StateErr S Y :=
  fun s => match m s with
           | Some (x, s') => k x s'
           | None => None
           end.

Notation "x <- m ;; k" := (bind m (fun x => k))
  (at level 61, m at next level, right associativity).

Definition Build (X : Type) : Type := StateErr graph X.

(** [layers.Input(shape=...)]: the batch axis comes first.  The script
    leaves it open; [batch] is the size of the batch the model is then run
    on. *)
Definition Input (batch : nat) (shape : list nat) : Build KerasTensor :=
  fun g => Some ({| tensor_id := length g; tensor_shape := batch :: shape |},
                 g ++ [{| node_layer := InputLayer shape; node_inputs := [] |}]).

(** [some_layer(inputs)] *)
Definition call (l : layer) (inputs : list KerasTensor) : Build KerasTensor :=
  fun g =>
    let? s := compute_output_shape l (map tensor_shape inputs) in
    Some ({| tensor_id := length g; tensor_shape := s |},
          g ++ [{| node_layer := l; node_inputs := map tensor_id inputs |}]).

(** [mlp]: a [Dense] with GELU followed by a [Dropout], per entry of
    [hidden_units], in order. *)
Fixpoint mlp (x : KerasTensor) (hidden_units : list nat) (dropout_rate : Q)
    : Build KerasTensor :=
  match hidden_units with
  | [] => ret x
  | units :: rest =>
      x <- call (Dense units (Some gelu)) [x] ;;
      x <- call (Dropout dropout_rate) [x] ;;
      mlp x rest dropout_rate
  end.

(** The body of the loop of [create_vit_classifier]. *)
Definition transformer_block (cfg : hyperparameters)
    (encoded_patches : KerasTensor) : Build KerasTensor :=
  (* Layer normalization 1. *)
  x1 <- call (LayerNormalization (1 # 1000000)) [encoded_patches] ;;
  (* Create a multi-head attention layer. *)
  attention_output <-
    call (MultiHeadAttention (num_heads cfg) (projection_dims cfg) (1 # 10))
         [x1; x1] ;;
  (* Skip connection 1. *)
  x2 <- call Add [attention_output; encoded_patches] ;;
  (* Layer normalization 2. *)
  x3 <- call (LayerNormalization (1 # 1000000)) [x2] ;;
  (* MLP. *)
  x3 <- mlp x3 (transformer_units cfg) (1 # 10) ;;
  (* Skip connection 2. *)
  call Add [x3; x2].

(** [for _ in range(n): encoded_patches = body(encoded_patches)] *)
Fixpoint transformer_stack (cfg : hyperparameters) (n : nat)
    (encoded_patches : KerasTensor) : Build KerasTensor :=
  match n with
  | O => ret encoded_patches
  | S n' =>
      encoded_patches <- transformer_block cfg encoded_patches ;;
      transformer_stack cfg n' encoded_patches
  end.

(** The part of [create_vit_classifier] after the loop, up to [logits]. *)
Definition classification_head (cfg : hyperparameters)
    (encoded_patches : KerasTensor) : Build KerasTensor :=
  representation <- call (LayerNormalization (1 # 1000000)) [encoded_patches] ;;
  representation <- call Flatten [representation] ;;
  representation <- call (Dropout (1 # 2)) [representation] ;;
  (* Create MLP. *)
  features <- mlp representation (mlp_head_units cfg) (1 # 2) ;;
  (* Create outputs. *)
  call (Dense (num_classes cfg) None) [features].

Record Model := {
  model_inputs : KerasTensor;
  model_outputs : KerasTensor;
  model_layers : graph
}.

(** [create_vit_classifier], for a model that will run on [batch] images:
    the graph, with the shapes its tensors have on such a batch; [None] if
    the model cannot be built or cannot be run on such a batch. *)
Definition create_vit_classifier (cfg : hyperparameters) (batch : nat)
    : option Model :=
  let build :=
    inputs <- Input batch (input_shape cfg) ;;
    (* Augment data. *)
    augmented <- call data_augmentation [inputs] ;;
    (* Create patches. *)
    patches <- call (Patches (patch_size cfg)) [augmented] ;;
    (* Encode patches. *)
    encoded_patches <-
      call (PatchEncoderLayer (num_patches cfg) (projection_dims cfg))
           [patches] ;;
    (* Create multiple layers of the Transformer block. *)
    encoded_patches <-
      transformer_stack cfg (transfomer_layers cfg) encoded_patches ;;
    logits <- classification_head cfg encoded_patches ;;
    ret (inputs, logits)
  in
  match build [] with
  | Some ((inputs, logits), g) =>
      Some {| model_inputs := inputs; model_outputs := logits;
              model_layers := g |}
  | None => None
  end.

(** *** The architecture as the specification words it

    The nodes a block, an MLP and the head are expected to add, given the
    identity [input] of the tensor they start from and the identity [first] of
    the first node they create.  These are compared below with what
    [create_vit_classifier] builds. *)

Fixpoint expected_mlp_nodes (input first : nat) (hidden_units : list nat)
    (rate : Q) : list node :=
  match hidden_units with
  | [] => []
  | units :: rest =>
      {| node_layer := Dense units (Some gelu); node_inputs := [input] |} ::
      {| node_layer := Dropout rate; node_inputs := [first] |} ::
      expected_mlp_nodes (first + 1) (first + 2) rest rate
  end.

(** Identity of the tensor an MLP returns. *)
Definition expected_mlp_output (input first : nat) (hidden_units : list nat)
    : nat :=
  match hidden_units with
  | [] => input
  | _ :: _ => first + 2 * length hidden_units - 1
  end.

(** Pre-normalization block: normalize, attend, add the block input;
    normalize, feed forward (two dense layers with GELU, each followed by
    dropout), add the input of the second half. *)
Definition prenorm_block_nodes (cfg : hyperparameters) (input first : nat)
    : list node :=
  [ {| node_layer := LayerNormalization (1 # 1000000);
       node_inputs := [input] |};
    {| node_layer := MultiHeadAttention (num_heads cfg) (projection_dims cfg)
                                        (1 # 10);
       node_inputs := [first; first] |};
    {| node_layer := Add; node_inputs := [first + 1; input] |};
    {| node_layer := LayerNormalization (1 # 1000000);
       node_inputs := [first + 2] |};
    {| node_layer := Dense (projection_dims cfg * 2) (Some gelu);
       node_inputs := [first + 3] |};
    {| node_layer := Dropout (1 # 10); node_inputs := [first + 4] |};
    {| node_layer := Dense (projection_dims cfg) (Some gelu);
       node_inputs := [first + 5] |};
    {| node_layer := Dropout (1 # 10); node_inputs := [first + 6] |};
    {| node_layer := Add; node_inputs := [first + 7; first + 2] |} ].

(** [n] such blocks in a row, each fed by the one before. *)
Fixpoint prenorm_stack_nodes (cfg : hyperparameters) (n input first : nat)
    : list node :=
  match n with
  | O => []
  | S n' =>
      prenorm_block_nodes cfg input first ++
      prenorm_stack_nodes cfg n' (first + 8) (first + 9)
  end.

(** Head: normalize, flatten, dropout, MLP, linear layer to the classes. *)
Definition head_nodes (cfg : hyperparameters) (input first : nat) : list node :=
  [ {| node_layer := LayerNormalization (1 # 1000000);
       node_inputs := [input] |};
    {| node_layer := Flatten; node_inputs := [first] |};
    {| node_layer := Dropout (1 # 2); node_inputs := [first + 1] |} ] ++
  expected_mlp_nodes (first + 2) (first + 3) (mlp_head_units cfg) (1 # 2) ++
  [ {| node_layer := Dense (num_classes cfg) None;
       node_inputs := [expected_mlp_output (first + 2) (first + 3)
                                           (mlp_head_units cfg)] |} ].

(** The four nodes before the first block. *)
Definition stem_nodes (cfg : hyperparameters) : list node :=
  [ {| node_layer := InputLayer (input_shape cfg); node_inputs := [] |};
    {| node_layer := data_augmentation; node_inputs := [0] |};
    {| node_layer := Patches (patch_size cfg); node_inputs := [1] |};
    {| node_layer := PatchEncoderLayer (num_patches cfg) (projection_dims cfg);
       node_inputs := [2] |} ].

(** ** Compiling, training and evaluating *)

Inductive optimizer := AdamW (learning_rate weight_decay : Q).

Inductive loss := SparseCategoricalCrossentropy (from_logits : bool).

Inductive metric :=
| SparseCategoricalAccuracy (name : String.string)
| SparseTopKCategoricalAccuracy (k : nat) (name : String.string).

Definition metric_name (m : metric) : String.string :=
  match m with
  | SparseCategoricalAccuracy name => name
  | SparseTopKCategoricalAccuracy _ name => name
  end.

(** The arguments of [model.compile]. *)
Record compile_args := {
  compile_optimizer : optimizer;
  compile_loss : loss;
  compile_metrics : list metric
}.

(** The [logs] dictionary of one epoch, in insertion order. *)
Definition logs := list (String.string * Q).

(** [logs.get(key)] *)
Fixpoint logs_get (l : logs) (key : String.string) : option Q :=
  match l with
  | [] => None
  | (k, v) :: l' => if String.eqb k key then Some v else logs_get l' key
  end.

Definition Qltb (x y : Q) : bool := negb (Qle_bool y x).

(** [sub in s] on strings. *)
Fixpoint contains (sub s : String.string) : bool :=
  String.prefix sub s ||
  match s with
  | String.EmptyString => false
  | String.String _ s' => contains sub s'
  end.

(** Framework: the state of a [keras.callbacks.ModelCheckpoint] with the
    default mode and saving frequency.  [best = None] is the initial infinite
    bound, which every measured value beats. *)
Record ModelCheckpoint := {
  filepath : String.string;
  monitor : String.string;
  save_best_only : bool;
  best : option Q
}.

(** Framework: in the default mode a monitored quantity whose name contains
    "acc" (or starts with "fmeasure") is to be maximised, any other one
    minimised. *)
Definition monitor_op (cb : ModelCheckpoint) (current : Q) (b : Q) : bool :=
  if contains "acc" (monitor cb) || String.prefix "fmeasure" (monitor cb)
  then Qltb b current
  else Qltb current b.

Definition improves (cb : ModelCheckpoint) (current : Q) : bool :=
  match best cb with
  | None => true
  | Some b => monitor_op cb current b
  end.

Section Training.

(** Inputs, labels and model parameters; one epoch of optimisation and the
    evaluation of the loss ([None]) or of a metric on data are the
    framework's and stay abstract. *)
Variables X Y Params : Type.
Variable train_epoch :
  compile_args -> nat -> nat -> Params -> list X -> list Y ->
  Params * (option metric -> Q).
Variable measure : compile_args -> option metric -> Params -> list X -> list Y -> Q.

(** What the run does to the outside and to the data it is given. *)
Inductive event :=
| EvCompile (c : compile_args)
| EvTrain (epoch : nat) (x : list X) (y : list Y)
| EvValidate (epoch : nat) (x : list X) (y : list Y)
| EvSave (epoch : nat) (path : String.string)
| EvLoad (path : String.string)
| EvEvaluate (x : list X) (y : list Y)
| EvPrint (text : String.string) (value : Q).

(** The model's current parameters, the files on disk and the events so
    far. *)
Record state := {
  weights : Params;
  files : String.string -> option Params;
  trace : list event
}.

Definition Run (R : Type) : Type := StateErr state R.

Definition emit (e : event) : Run unit :=
  fun st => Some (tt, {| weights := weights st; files := files st;
                         trace := trace st ++ [e] |}).

(** [model.compile(...)] *)
Definition compile (o : optimizer) (l : loss) (ms : list metric)
    : Run compile_args :=
  let c := {| compile_optimizer := o; compile_loss := l;
              compile_metrics := ms |} in
  _ <- emit (EvCompile c) ;;
  ret c.

(** Framework: the names and values reported for loss and metrics. *)
Definition named_values (c : compile_args) (value : option metric -> Q) : logs :=
  ("loss", value None) ::
  map (fun m => (metric_name m, value (Some m))) (compile_metrics c).

(** Framework: saving the model to a path replaces what was there. *)
Definition save (epoch : nat) (path : String.string) : Run unit :=
  fun st => Some (tt, {| weights := weights st;
                         files := fun q => if String.eqb q path
                                           then Some (weights st)
                                           else files st q;
                         trace := trace st ++ [EvSave epoch path] |}).

(** Framework: [ModelCheckpoint.on_epoch_end].  With [save_best_only] the
    model is saved only if the monitored value is present in the logs and
    beats [best], which is then updated; otherwise it is saved always. *)
Definition on_epoch_end (cb : ModelCheckpoint) (epoch : nat) (lg : logs)
    : Run ModelCheckpoint :=
  if save_best_only cb then
    match logs_get lg (monitor cb) with
    | None => ret cb
    | Some current =>
        if improves cb current then
          _ <- save epoch (filepath cb) ;;
          ret {| filepath := filepath cb; monitor := monitor cb;
                 save_best_only := save_best_only cb;
                 best := Some current |}
        else ret cb
    end
  else
    _ <- save epoch (filepath cb) ;;
    ret cb.

Fixpoint callbacks_on_epoch_end (cbs : list ModelCheckpoint) (epoch : nat)
    (lg : logs) : Run (list ModelCheckpoint) :=
  match cbs with
  | [] => ret []
  | cb :: rest =>
      cb' <- on_epoch_end cb epoch lg ;;
      rest' <- callbacks_on_epoch_end rest epoch lg ;;
      ret (cb' :: rest')
  end.

(** Framework: the split made for [validation_split]: the last fraction of
    the samples, in their given order, is set apart; an empty part on either
    side is an error. *)
Definition split_at (n : nat) (validation_split : Q) : nat :=
  Z.to_nat (Qfloor (inject_Z (Z.of_nat n) * (1 - validation_split))).

Definition train_validation_split (x : list X) (y : list Y)
    (validation_split : Q)
    : option ((list X * list Y) * (list X * list Y)) :=
  let k := split_at (length x) validation_split in
  if (k =? 0) || (k =? length x) then None
  else Some ((firstn k x, firstn k y), (skipn k x, skipn k y)).

(** One epoch: optimise on the training part, measure on the validation
    part when there is one, then run the callbacks. *)
Definition run_epoch (c : compile_args) (batch_size epoch : nat)
    (train : list X * list Y) (val : option (list X * list Y))
    (cbs : list ModelCheckpoint) : Run (logs * list ModelCheckpoint) :=
  train_logs <-
    (fun st =>
       let (p, running) :=
         train_epoch c batch_size epoch (weights st) (fst train) (snd train) in
       Some (named_values c running,
             {| weights := p; files := files st;
                trace := trace st ++ [EvTrain epoch (fst train) (snd train)] |})) ;;
  val_logs <-
    match val with
    | None => ret []
    | Some (vx, vy) =>
        fun st =>
          Some (map (fun kv => (String.append "val_" (fst kv), snd kv))
                    (named_values c (fun m => measure c m (weights st) vx vy)),
                {| weights := weights st; files := files st;
                   trace := trace st ++ [EvValidate epoch vx vy] |})
    end ;;
  let epoch_logs := train_logs ++ val_logs in
  cbs' <- callbacks_on_epoch_end cbs epoch epoch_logs ;;
  ret (epoch_logs, cbs').

Fixpoint fit_loop (c : compile_args) (batch_size : nat)
    (train : list X * list Y) (val : option (list X * list Y))
    (remaining epoch : nat) (cbs : list ModelCheckpoint)
    (history : list logs) : Run (list logs) :=
  match remaining with
  | O => ret history
  | S remaining' =>
      r <- run_epoch c batch_size epoch train val cbs ;;
      fit_loop c batch_size train val remaining' (S epoch) (snd r)
               (history ++ [fst r])
  end.

(** Framework: [model.fit(x, y, batch_size, epochs, validation_split,
    callbacks)]; the result is the per-epoch logs. *)
Definition fit (c : compile_args) (x : list X) (y : list Y)
    (batch_size epochs : nat) (validation_split : Q)
    (callbacks : list ModelCheckpoint) : Run (list logs) :=
  if Qeq_bool validation_split 0 then
    fit_loop c batch_size (x, y) None epochs 0 callbacks []
  else
    match train_validation_split x y validation_split with
    | None => fun _ => None
    | Some (train, val) =>
        fit_loop c batch_size train (Some val) epochs 0 callbacks []
    end.

(** Framework: [model.load_weights(path)]; a missing file is an error. *)
Definition load_weights (path : String.string) : Run unit :=
  fun st =>
    match files st path with
    | Some p => Some (tt, {| weights := p; files := files st;
                             trace := trace st ++ [EvLoad path] |})
    | None => None
    end.

(** Framework: [model.evaluate(x, y)]: the loss, then the metrics. *)
Definition evaluate (c : compile_args) (x : list X) (y : list Y)
    : Run (list Q) :=
  fun st =>
    Some (map snd (named_values c (fun m => measure c m (weights st) x y)),
          {| weights := weights st; files := files st;
             trace := trace st ++ [EvEvaluate x y] |}).

(** [print(f"...")]: the text before the number and 100 times the value
    (the rounding to two decimals is not modelled). *)
Definition print_percent (text : String.string) (value : Q) : Run unit :=
  emit (EvPrint text (value * 100)).

(** *** [run_experiment]
    The model argument is the state the computation runs in; the data sets
    are the script's globals. *)
Definition run_experiment (cfg : hyperparameters)
    (x_train : list X) (y_train : list Y) (x_test : list X) (y_test : list Y)
    : Run (list logs) :=
  let optimizer := AdamW (learning_rate cfg) (weight_decay cfg) in
  c <- compile optimizer
         (SparseCategoricalCrossentropy true)
         [ SparseCategoricalAccuracy "accuracy";
           SparseTopKCategoricalAccuracy 5 "top-5-accuracy" ] ;;
  let checkpoint_filepath := "/tmp/checkpoint" in
  let checkpoint_callback :=
    {| filepath := checkpoint_filepath; monitor := "val_accuracy";
       save_best_only := true; best := None |} in
  history <- fit c x_train y_train (batch_size cfg) (num_epochs cfg)
                 (15 # 100) [checkpoint_callback] ;;
  _ <- load_weights checkpoint_filepath ;;
  r <- evaluate c x_test y_test ;;
  match r with
  | [_; accuracy; top_5_accuracy] =>
      _ <- print_percent "Test accuracy: " accuracy ;;
      _ <- print_percent "Test top 5 accuracy: " top_5_accuracy ;;
      ret history
  | _ => fun _ => None
  end.

(** *** Vocabulary for the claims about a run *)

(** The arguments [run_experiment] compiles the model with. *)
Definition script_compile_args (cfg : hyperparameters) : compile_args :=
  {| compile_optimizer := AdamW (learning_rate cfg) (weight_decay cfg);
     compile_loss := SparseCategoricalCrossentropy true;
     compile_metrics := [ SparseCategoricalAccuracy "accuracy";
                          SparseTopKCategoricalAccuracy 5 "top-5-accuracy" ] |}.

(** The validation accuracy logged for epoch [e]. *)
Definition val_accuracy_at (history : list logs) (e : nat) : option Q :=
  logs_get (nth e history []) "val_accuracy".

(** Epoch [e] improved on every earlier epoch. *)
Definition new_best (history : list logs) (e : nat) : Prop :=
  exists v,
    val_accuracy_at history e = Some v /\
    forall e' v', e' < e -> val_accuracy_at history e' = Some v' ->
                  (v' < v)%Q.

(** The events of the training loop. *)
Definition fit_event (ev : event) : Prop :=
  match ev with
  | EvTrain _ _ _ | EvValidate _ _ _ | EvSave _ _ => True
  | _ => False
  end.

(** What a checkpoint callback remembers as [best], in terms of the
    history so far. *)
Definition best_tracks (cb : ModelCheckpoint) (history : list logs) : Prop :=
  match best cb with
  | None => history = []
  | Some b =>
      (exists e, e < length history /\ val_accuracy_at history e = Some b) /\
      (forall e v, e < length history ->
                   val_accuracy_at history e = Some v -> (v <= b)%Q)
  end.

(** The callback after it has seen the value [v]. *)
Definition updated_callback (cb : ModelCheckpoint) (v : Q) : ModelCheckpoint :=
  if improves cb v
  then {| filepath := filepath cb; monitor := monitor cb;
          save_best_only := save_best_only cb; best := Some v |}
  else cb.

(** Counting the reads of a checkpoint and the evaluations in a trace. *)
Definition is_load (ev : event) : bool :=
  match ev with EvLoad _ => true | _ => false end.

Definition is_evaluate (ev : event) : bool :=
  match ev with EvEvaluate _ _ => true | _ => false end.

Definition count_events (f : event -> bool) (tr : list event) : nat :=
  length (filter f tr).

(** Every epoch logged, as "val_accuracy", the accuracy of some parameters
    on the data [vx], [vy]. *)
Definition validated_on (c : compile_args) (vx : list X) (vy : list Y)
    (history : list logs) : Prop :=
  forall e, e < length history ->
    exists p,
      val_accuracy_at history e
        = Some (measure c (Some (SparseCategoricalAccuracy "accuracy"))
                        p vx vy).

End Training.

(** ** Small concrete instances *)

(** An encoder for two patches of three scalars, projected to two. *)
Definition example_encoder : PatchEncoder nat :=
  {| self_num_patches := 2;
     projection := {| kernel := mkTensor [3; 2] [1; 0; 0; 1; 1; 1];
                      bias := mkTensor [2] [100; 200] |};
     position_embedding := mkTensor [2; 2] [1000; 2000; 3000; 4000] |}.

Definition example_patches_a : Tensor nat :=
  mkTensor [2; 2; 3] [1; 2; 3; 4; 5; 6; 7; 8; 9; 10; 11; 12].

Definition example_patches_b : Tensor nat :=
  mkTensor [1; 2; 3] [9; 9; 9; 0; 0; 0].

(** A training procedure on numbers: the parameters count the epochs run,
    and the accuracy after [p] epochs is read off a fixed table. *)
Definition example_train_epoch (c : compile_args) (bs epoch : nat) (p : nat)
    (x y : list nat) : nat * (option metric -> Q) :=
  (S p, fun _ => 0%Q).

Definition example_measure (c : compile_args) (m : option metric) (p : nat)
    (x y : list nat) : Q :=
  match m with
  | Some (SparseCategoricalAccuracy _) =>
      inject_Z (Z.of_nat (nth p [0; 3; 5; 4; 5; 7; 1] 0))
  | _ => 0%Q
  end.

Definition example_state : state nat nat nat :=
  {| weights := 0; files := fun _ => None; trace := [] |}.

(** The script's configuration with three epochs. *)
Definition config_3_epochs : hyperparameters := {|
  num_classes := 100;
  input_shape := [32; 32; 3];
  learning_rate := 1 # 1000;
  weight_decay := 1 # 10000;
  batch_size := 256;
  num_epochs := 3;
  patch_size := 4;
  projection_dims := 64;
  num_heads := 4;
  transfomer_layers := 8;
  mlp_head_units := [2048; 1024]
|}.

(** ** The patch display of the script, and further vocabulary *)

Section Display.

Variable A : Type.
Variable zero : A.

(** Entry [(b, r, c, ch)] of a rank-4 tensor, from the row-major layout. *)
Definition get4 (t : Tensor A) (b r c ch : nat) : A :=
  match shape t with
  | [_; h; w; d] => get zero t (((b * h + r) * w + c) * d + ch)
  | _ => zero
  end.

(** [[image]]: one image passed as a one-element list is a batch of one. *)
Definition batch_of_one (image : Tensor A) : Tensor A :=
  mkTensor (1 :: shape image) (data image).

(** Framework: the sub-tensors along the first axis, which is what indexing
    by an integer and iterating over a tensor go through; a tensor without
    axes cannot be iterated. *)
Definition unstack (t : Tensor A) : option (list (Tensor A)) :=
  match shape t with
  | [] => None
  | n :: rest =>
      Some (map (fun k => mkTensor rest
                            (slice (k * numel rest) (numel rest) (data t)))
                (seq 0 n))
  end.

(** Framework: [plt.subplot(nrows, ncols, index)]; the index counts the cells
    from 1 and one outside the grid is an error. *)
Definition subplot (nrows ncols index : nat) : option (nat * nat * nat) :=
  if (1 <=? index) && (index <=? nrows * ncols)
  then Some (nrows, ncols, index)
  else None.

(** Running a fallible step over a list, stopping at the first error. *)
Fixpoint for_each {U V : Type} (f : U -> option V) (l : list U)
    : option (list V) :=
  match l with
  | [] => Some []
  | u :: rest =>
      let? v := f u in
      let? vs := for_each f rest in
      Some (v :: vs)
  end.

(** The display of the patches of a sample image (the script's lines from
    [patches = Patches(patch_size)([image])] to the end of the loop): the
    cells drawn, each with the image shown in it.  [int(np.sqrt(k))] is the
    integer square root. *)
Definition display_patches (patch_size : nat) (image : Tensor A)
    : option (list ((nat * nat * nat) * Tensor A)) :=
  let? patches := Patches_call patch_size (batch_of_one image) in
  (* n = int(np.sqrt(patches.shape[1])) *)
  let? count := nth_error (shape patches) 1 in
  let n := Nat.sqrt count in
  (* for i, patch in enumerate(patches[0]): *)
  let? per_image := unstack patches in
  let? first := nth_error per_image 0 in
  let? items := unstack first in
  for_each
    (fun ip =>
       let i := fst ip in
       let patch := snd ip in
       let? ax := subplot n n (i + 1) in
       let? patch_img :=
         reshape patch [Some patch_size; Some patch_size; Some 3] in
       Some (ax, patch_img))
    (combine (seq 0 (length items)) items).

End Display.

(** A graph in which every node reads only from nodes created before it. *)
Definition topological (g : graph) : Prop :=
  forall i nd, nth_error g i = Some nd ->
               Forall (fun j => j < i) (node_inputs nd).

(** Nodes placed from position [base] on, each with at least one input and
    reading only from positions before its own. *)
Definition reads_back (base : nat) (nodes : list node) : Prop :=
  forall k nd, nth_error nodes k = Some nd ->
               node_inputs nd <> [] /\
               Forall (fun j => j < base + k) (node_inputs nd).

(** What a [ModelCheckpoint] that maximises its quantity holds as [best]
    before epoch [e], when [v e'] is the value measured in epoch [e']. *)
Fixpoint running_best (v : nat -> Q) (e : nat) : option Q :=
  match e with
  | O => None
  | S e' =>
      match running_best v e' with
      | None => Some (v e')
      | Some b => if Qltb b (v e') then Some (v e') else Some b
      end
  end.

(** Whether epoch [e] beats it. *)
Definition saves_at (v : nat -> Q) (e : nat) : bool :=
  match running_best v e with
  | None => true
  | Some b => Qltb b (v e)
  end.

(** The last epoch below [n] that did. *)
Fixpoint last_save (v : nat -> Q) (n : nat) : option nat :=
  match n with
  | O => None
  | S n' => if saves_at v n' then Some n' else last_save v n'
  end.

Section TrainingCourse.

Variables X Y Params : Type.
Variable train_epoch :
  compile_args -> nat -> nat -> Params -> list X -> list Y ->
  Params * (option metric -> Q).
Variable measure :
  compile_args -> option metric -> Params -> list X -> list Y -> Q.

(** The parameters after [e] epochs of training from [p0] on the data
    [tx], [ty]. *)
Fixpoint weights_after (c : compile_args) (bs : nat) (tx : list X)
    (ty : list Y) (p0 : Params) (e : nat) : Params :=
  match e with
  | O => p0
  | S e' => fst (train_epoch c bs e' (weights_after c bs tx ty p0 e') tx ty)
  end.

(** The accuracy on the data [vx], [vy] of the parameters reached at the end
    of epoch [e]. *)
Definition val_accuracy_after (c : compile_args) (bs : nat) (tx : list X)
    (ty : list Y) (vx : list X) (vy : list Y) (p0 : Params) (e : nat) : Q :=
  measure c (Some (SparseCategoricalAccuracy "accuracy"))
          (weights_after c bs tx ty p0 (S e)) vx vy.

(** The events of epoch [e] when [v] gives the validation accuracy of each
    epoch: training, validation, and a save if the epoch beats all earlier
    ones. *)
Definition epoch_events (path : String.string) (tx : list X) (ty : list Y)
    (vx : list X) (vy : list Y) (v : nat -> Q) (e : nat) : list (event X Y) :=
  [EvTrain e tx ty; EvValidate e vx vy] ++
  (if saves_at v e then [EvSave X Y e path] else []).

End TrainingCourse.

(** The keys of one epoch's logs in a run of the script. *)
Definition epoch_keys : list String.string :=
  [ "loss"; "accuracy"; "top-5-accuracy";
    "val_loss"; "val_accuracy"; "val_top-5-accuracy" ].

(** A 4 x 4 image with three channels and one with a single channel. *)
Definition example_image_rgb : Tensor nat := mkTensor [4; 4; 3] (seq 0 48).

Definition example_image_gray : Tensor nat := mkTensor [4; 4; 1] (seq 0 16).

(** A batch of one 4 x 4 image with one channel, and its 2 x 2 patches. *)
Definition example_images : Tensor nat := mkTensor [1; 4; 4; 1] (seq 0 16).

Definition example_images_patches : Tensor nat :=
  mkTensor [1; 4; 4] [0; 1; 4; 5; 2; 3; 6; 7; 8; 9; 12; 13; 10; 11; 14; 15].

(** The encodings of the two example inputs. *)
Definition example_encoded_a : Tensor nat :=
  mkTensor [2; 2; 2] [1104; 2205; 3110; 4211; 1116; 2217; 3122; 4223].

Definition example_encoded_b : Tensor nat :=
  mkTensor [1; 2; 2] [1118; 2218; 3100; 4200].

(** The script's configuration for images of 32 x 64 pixels. *)
Definition config_non_square : hyperparameters := {|
  num_classes := 100;
  input_shape := [32; 64; 3];
  learning_rate := 1 # 1000;
  weight_decay := 1 # 10000;
  batch_size := 256;
  num_epochs := 100;
  patch_size := 4;
  projection_dims := 64;
  num_heads := 4;
  transfomer_layers := 8;
  mlp_head_units := [2048; 1024]
|}.

(** An encoder with the weight shapes of
    [PatchEncoder(num_patches, projection_dims)] under [config_non_square]
    (64 positions, patches of 4 * 4 * 3 scalars, width 64), and one image of
    32 x 64 pixels. *)
Definition example_encoder_non_square : PatchEncoder nat :=
  {| self_num_patches := 64;
     projection := {| kernel := mkTensor [48; 64] (repeat 1 3072);
                      bias := mkTensor [64] (repeat 0 64) |};
     position_embedding := mkTensor [64; 64] (seq 0 4096) |}.

Definition example_images_non_square : Tensor nat :=
  mkTensor [1; 32; 64; 3] (seq 0 (32 * 64 * 3)).

(** The script's configuration with no epoch at all. *)
Definition config_0_epochs : hyperparameters := {|
  num_classes := 100;
  input_shape := [32; 32; 3];
  learning_rate := 1 # 1000;
  weight_decay := 1 # 10000;
  batch_size := 256;
  num_epochs := 0;
  patch_size := 4;
  projection_dims := 64;
  num_heads := 4;
  transfomer_layers := 8;
  mlp_head_units := [2048; 1024]
|}.

(** A state in which an earlier run has left a checkpoint. *)
Definition example_state_with_checkpoint : state nat nat nat :=
  {| weights := 0;
     files := fun q => if String.eqb q "/tmp/checkpoint" then Some 42 else None;
     trace := [] |}.

(** * Properties *)

Local Open Scope nat_scope.
Unset Implicit Arguments.

(** ** Lists and arithmetic *)

Lemma length_flat_map_const {U V : Type} (f : U -> list V) (l : list U) (n : nat) :
  (forall x, In x l -> length (f x) = n) ->
  length (flat_map f l) = length l * n.
Proof.
  induction l as [|x l IH]; intros Hf; simpl.
  - reflexivity.
  - rewrite length_app, Hf by (left; reflexivity).
    rewrite IH by (intros y Hy; apply Hf; right; exact Hy).
    reflexivity.
Qed.

Lemma slice_length {V : Type} (off len : nat) (l : list V) :
  off + len <= length l -> length (slice off len l) = len.
Proof.
  intros H. unfold slice. rewrite length_firstn, length_skipn. lia.
Qed.

Lemma nth_map_seq {V : Type} (f : nat -> V) (n k : nat) (d : V) :
  k < n -> nth k (map f (seq 0 n)) d = f k.
Proof.
  intros H.
  rewrite (nth_indep _ d (f 0)) by (rewrite length_map, length_seq; exact H).
  rewrite map_nth, seq_nth by exact H. reflexivity.
Qed.

Lemma offset_in_buffer (b h w c n r k : nat) :
  n < b -> r < h -> k < w ->
  ((n * h + r) * w + k) * c + c <= b * (h * (w * (c * 1))).
Proof.
  intros Hn Hr Hk.
  assert (H1 : n * h + r + 1 <= b * h) by nia.
  assert (H2 : (n * h + r) * w + k + 1 <= b * h * w) by nia.
  nia.
Qed.

(** ** Patch extraction *)

Lemma valid_output_size_same (h p : nat) :
  0 < p -> valid_output_size h p p = Some (h / p).
Proof.
  intros Hp. unfold valid_output_size.
  destruct (Nat.eqb_spec p 0) as [->|_]; [lia|]. cbn [orb].
  destruct (Nat.leb_spec (h + 2 * p) p) as [Hle|_]; [lia|].
  f_equal. replace (h + p - p) with h by lia. reflexivity.
Qed.

Lemma valid_window_inside (h k s o i d : nat) :
  valid_output_size h k s = Some o -> i < o -> d < k -> i * s + d < h.
Proof.
  unfold valid_output_size. intros H Hi Hd.
  destruct ((k =? 0) || (s =? 0)) eqn:E; [discriminate|].
  apply orb_false_elim in E. destruct E as [_ Es].
  apply Nat.eqb_neq in Es.
  destruct (h + 2 * s <=? k); [discriminate|].
  injection H as <-.
  pose proof (Nat.Div0.mul_div_le (h + s - k) s) as Hq.
  destruct (Nat.le_gt_cases k (h + s)) as [Hk|Hk].
  - nia.
  - replace (h + s - k) with 0 in Hi by lia.
    rewrite Nat.Div0.div_0_l in Hi. lia.
Qed.

Section PatchFacts.

Variable A : Type.

(** The buffer [extract_patches] fills holds one scalar per output index. *)
Lemma extract_patches_wf (images patches : Tensor A) (kr kc sr sc : nat) :
  wf_tensor images ->
  extract_patches images [1; kr; kc; 1] [1; sr; sc; 1] [1; 1; 1; 1] VALID
    = Some patches ->
  wf_tensor patches.
Proof.
  unfold wf_tensor, extract_patches. intros Hwf H.
  destruct (shape images) as [|b [|h [|w [|c [|? ?]]]]] eqn:Es;
    try discriminate.
  destruct (valid_output_size h kr sr) as [oh|] eqn:Eh; [|discriminate].
  destruct (valid_output_size w kc sc) as [ow|] eqn:Ew; [|discriminate].
  simpl in H. injection H as <-. simpl shape. simpl data.
  rewrite (length_flat_map_const _ _ (oh * (ow * (kr * kc * c * 1)))).
  { rewrite length_seq. reflexivity. }
  intros n Hn. apply in_seq in Hn.
  rewrite (length_flat_map_const _ _ (ow * (kr * kc * c * 1))).
  { rewrite length_seq. reflexivity. }
  intros i Hi. apply in_seq in Hi.
  rewrite (length_flat_map_const _ _ (kr * kc * c * 1)).
  { rewrite length_seq. reflexivity. }
  intros j Hj. apply in_seq in Hj.
  rewrite (length_flat_map_const _ _ (kc * c)).
  { rewrite length_seq. lia. }
  intros di Hdi. apply in_seq in Hdi.
  rewrite (length_flat_map_const _ _ c).
  { rewrite length_seq. reflexivity. }
  intros dj Hdj. apply in_seq in Hdj.
  apply slice_length. rewrite Hwf. simpl.
  apply offset_in_buffer.
  - lia.
  - apply (valid_window_inside h kr sr oh i di Eh); lia.
  - apply (valid_window_inside w kc sc ow j dj Ew); lia.
Qed.

(** What [Patches.call] returns on a batch of [b] images of [h] rows, [w]
    columns and [c] channels: [(h / p) * (w / p)] patches per image, each
    of [p * p * c] scalars, whether or not [p] divides [h] and [w]. *)
Lemma Patches_call_shape (p b h w c : nat) (images : Tensor A) :
  0 < p -> 0 < b -> 0 < c ->
  shape images = [b; h; w; c] ->
  exists patches,
    Patches_call p images = Some patches /\
    shape patches = [b; (h / p) * (w / p); p * p * c] /\
    extract_patches images [1; p; p; 1] [1; p; p; 1] [1; 1; 1; 1] VALID
      = Some (mkTensor [b; h / p; w / p; p * p * c] (data patches)).
Proof.
  intros Hp Hb Hc Es.
  unfold Patches_call, extract_patches. rewrite Es. simpl hd_error.
  rewrite !valid_output_size_same by exact Hp.
  cbn [obind shape last]. unfold reshape.
  cbn [count_unknown filter length known_product fold_right shape numel data].
  assert (Hd : 0 < p * p * c) by nia.
  destruct (Nat.eqb_spec (b * (p * p * c * 1)) 0) as [E0|_]; [nia|].
  replace (b * (h / p * (w / p * (p * p * c * 1))))
    with ((h / p) * (w / p) * (b * (p * p * c * 1))) by lia.
  rewrite Nat.Div0.mod_mul, Nat.div_mul by nia.
  cbn [Nat.eqb resolve map].
  eexists. split; [reflexivity|]. split; reflexivity.
Qed.

Lemma Patches_call_wf (p : nat) (images patches : Tensor A) :
  wf_tensor images ->
  Patches_call p images = Some patches ->
  wf_tensor patches.
Proof.
  unfold Patches_call. intros Hwf H.
  destruct (hd_error (shape images)) as [b|]; [|discriminate].
  cbn [obind] in H.
  destruct (extract_patches images _ _ _ VALID) as [t|] eqn:Et;
    [|discriminate].
  cbn [obind] in H.
  pose proof (extract_patches_wf images t p p p p Hwf Et) as Ht.
  unfold reshape in H.
  cbn [count_unknown filter length known_product fold_right] in H.
  destruct (_ =? 0) eqn:E0 in H; [discriminate|].
  destruct (_ mod _ =? 0) eqn:Em in H; [|discriminate].
  injection H as <-. unfold wf_tensor. cbn [data shape resolve map numel fold_right].
  apply Nat.eqb_eq in Em. apply Nat.eqb_neq in E0.
  unfold wf_tensor in Ht. rewrite Ht.
  set (n := numel (shape t)) in *. set (d := last (shape t) 0) in *.
  apply Nat.Div0.div_exact in Em. lia.
Qed.

End PatchFacts.

Section PatchClaims.

Variable A : Type.

Lemma patch_at_length (patches : Tensor A) (b n d i k : nat) :
  wf_tensor patches -> shape patches = [b; n; d] ->
  i < b -> k < n ->
  length (patch_at patches i k) = d.
Proof.
  unfold wf_tensor, patch_at. intros Hwf Es Hi Hk. rewrite Es in *.
  apply slice_length. rewrite Hwf. cbn [numel fold_right].
  assert (i * n + k + 1 <= b * n) by nia. nia.
Qed.

(** C2.  On a batch of [B] images of size [S] x [S] with [C] channels, with
    a patch size [P] that divides [S], [Patches.call] returns for every
    image exactly [(S / P)^2] patches, every one a vector of [P^2 * C]
    scalars; the patches hold as many scalars as the images. *)
Theorem Patches_call_patch_grid (P S C B : nat) (images : Tensor A) :
  0 < P -> 0 < B -> 0 < C ->
  S mod P = 0 ->
  shape images = [B; S; S; C] ->
  wf_tensor images ->
  exists patches,
    Patches_call P images = Some patches /\
    shape patches = [B; (S / P) ^ 2; P ^ 2 * C] /\
    wf_tensor patches /\
    (forall b i, b < B -> i < (S / P) ^ 2 ->
                 length (patch_at patches b i) = P ^ 2 * C) /\
    length (data patches) = length (data images).
Proof.
  intros HP HB HC Hdiv Es Hwf.
  destruct (Patches_call_shape A P B S S C images HP HB HC Es)
    as (patches & Hcall & Hshape & _).
  pose proof (Patches_call_wf A P images patches Hwf Hcall) as Hwf'.
  assert (Hs : shape patches = [B; (S / P) ^ 2; P ^ 2 * C]).
  { rewrite Hshape. cbn [Nat.pow]. rewrite !Nat.mul_1_r. reflexivity. }
  exists patches. repeat split; try assumption.
  - intros b i Hb Hi.
    apply (patch_at_length patches B ((S / P) ^ 2) (P ^ 2 * C) b i);
      assumption.
  - unfold wf_tensor in *. rewrite Hwf', Hwf, Hs, Es.
    cbn [numel fold_right Nat.pow].
    apply Nat.Div0.div_exact in Hdiv.
    set (q := S / P) in *. clearbody q. rewrite Hdiv. ring.
Qed.

End PatchClaims.

Lemma Patches_call_patch_grid_witness :
  exists patches,
    Patches_call 2 (mkTensor [1; 4; 4; 1] (seq 0 16)) = Some patches /\
    shape patches = [1; (4 / 2) ^ 2; 2 ^ 2 * 1] /\
    wf_tensor patches /\
    (forall b i, b < 1 -> i < (4 / 2) ^ 2 ->
                 length (patch_at patches b i) = 2 ^ 2 * 1) /\
    length (data patches) = length (seq 0 16).
Proof.
  apply (Patches_call_patch_grid nat 2 4 1 1 (mkTensor [1; 4; 4; 1] (seq 0 16)));
    [lia | lia | lia | reflexivity | reflexivity | reflexivity].
Defined.

(** C1, as the claim has it, fails: a 5 x 5 image with patch size 2 is not
    rejected but cut down to the four patches of its upper-left 4 x 4 corner
    (row 4 and column 4, the scalars 4, 9, 14, 19 and 20 to 24, are gone), and
    the model for 30 x 30 images with patch size 4 is built without any
    complaint, for 49 patches. *)
Lemma Patches_call_silently_truncates :
  5 mod 2 <> 0 /\
  Patches_call 2 (mkTensor [1; 5; 5; 1] (seq 0 25))
    = Some (mkTensor [1; 4; 4]
              [0; 1; 5; 6; 2; 3; 7; 8; 10; 11; 15; 16; 12; 13; 17; 18]) /\
  30 mod 4 <> 0 /\
  num_patches config_30 = 49 /\
  option_map (fun m => tensor_shape (model_outputs m))
             (create_vit_classifier config_30 1) = Some [1; 100].
Proof.
  repeat split; try discriminate; vm_compute; reflexivity.
Qed.

(** ** Patch encoding *)

Lemma firstn_plus {V : Type} (a b : nat) (l : list V) :
  firstn (a + b) l = firstn a l ++ firstn b (skipn a l).
Proof.
  revert l. induction a as [|a IH]; intros l; simpl.
  - reflexivity.
  - destruct l as [|x l]; simpl.
    + rewrite firstn_nil. reflexivity.
    + rewrite IH. reflexivity.
Qed.

(** Reading the rows [0 .. n-1] of a table one after the other reads its
    first [n * d] scalars. *)
Lemma flat_map_rows {V : Type} (d n : nat) (l : list V) :
  flat_map (fun i => slice (i * d) d l) (seq 0 n) = firstn (n * d) l.
Proof.
  induction n as [|n IH].
  - reflexivity.
  - rewrite seq_S, flat_map_app, IH. simpl flat_map. rewrite app_nil_r.
    replace (S n * d) with (n * d + d) by lia.
    rewrite firstn_plus. reflexivity.
Qed.

Lemma tf_range_from_zero (n : nat) : tf_range 0 n 1 = Some (seq 0 n).
Proof.
  unfold tf_range. cbn [Nat.eqb]. f_equal.
  replace ((n - 0 + 1 - 1) / 1) with n by (rewrite Nat.div_1_r; lia).
  rewrite <- (map_id (seq 0 n)) at 2.
  apply map_ext. intros k. lia.
Qed.

Lemma forallb_seq_below (n : nat) :
  forallb (fun i => i <? n) (seq 0 n) = true.
Proof.
  apply forallb_forall. intros i Hi. apply in_seq in Hi.
  apply Nat.ltb_lt. lia.
Qed.

Lemma broadcast_dim_same (a : nat) : broadcast_dim a a = Some a.
Proof. unfold broadcast_dim. rewrite Nat.eqb_refl. reflexivity. Qed.

Lemma broadcast_shape_batch (b n d : nat) :
  broadcast_shape [b; n; d] [n; d] = Some [b; n; d].
Proof.
  unfold broadcast_shape. cbn [rev app broadcast_rev].
  rewrite !broadcast_dim_same. reflexivity.
Qed.

Lemma broadcast_shape_same3 (b n d : nat) :
  broadcast_shape [b; n; d] [b; n; d] = Some [b; n; d].
Proof.
  unfold broadcast_shape. cbn [rev app broadcast_rev].
  rewrite !broadcast_dim_same. reflexivity.
Qed.

Lemma axis_index (d x : nat) : (if d =? 1 then 0 else x mod d) = x mod d.
Proof.
  destruct (Nat.eqb_spec d 1) as [->|_]; [|reflexivity].
  rewrite Nat.mod_1_r. reflexivity.
Qed.

Lemma unravel3 (n d b i j : nat) :
  i < n -> j < d ->
  ((b * n + i) * d + j) mod d = j /\
  ((b * n + i) * d + j) / d = b * n + i /\
  (b * n + i) mod n = i /\
  (b * n + i) / n = b.
Proof.
  intros Hi Hj.
  assert (E1 : (b * n + i) * d + j = j + (b * n + i) * d) by lia.
  assert (E2 : b * n + i = i + b * n) by lia.
  repeat split.
  - rewrite E1, Nat.Div0.mod_add. apply Nat.mod_small. exact Hj.
  - rewrite E1, Nat.div_add by lia. rewrite Nat.div_small by exact Hj. lia.
  - rewrite E2, Nat.Div0.mod_add. apply Nat.mod_small. exact Hi.
  - rewrite E2, Nat.div_add by lia. rewrite Nat.div_small by exact Hi. lia.
Qed.

(** Where the operands of [projected + offsets] are read for the result
    entry [(b, i, j)]: the projection at [(b, i, j)], the offsets at
    [(i, j)], whatever [b]. *)
Lemma source_index_full (bt n d b i j : nat) :
  b < bt -> i < n -> j < d ->
  source_index [bt; n; d] [bt; n; d] ((b * n + i) * d + j)
    = (b * n + i) * d + j.
Proof.
  intros Hb Hi Hj. unfold source_index. cbn [rev app source_index_rev].
  rewrite !axis_index.
  destruct (unravel3 n d b i j Hi Hj) as (E1 & E2 & E3 & E4).
  rewrite E1, E2, E3, E4, (Nat.mod_small b bt) by exact Hb. lia.
Qed.

Lemma source_index_offsets (bt n d b i j : nat) :
  i < n -> j < d ->
  source_index [n; d] [bt; n; d] ((b * n + i) * d + j) = i * d + j.
Proof.
  intros Hi Hj. unfold source_index. cbn [rev app source_index_rev].
  rewrite !axis_index.
  destruct (unravel3 n d b i j Hi Hj) as (E1 & E2 & E3 & E4).
  rewrite E1, E2, E3. lia.
Qed.

Section PatchEncoderFacts.

Variable A : Type.
Variable zero : A.
Variable add mul : A -> A -> A.

Lemma Dense_call_rank3 (w : DenseWeights A) (x : Tensor A) (b n din units : nat) :
  shape x = [b; n; din] ->
  shape (kernel w) = [din; units] ->
  shape (bias w) = [units] ->
  exists y, Dense_call zero add mul w x = Some y /\ shape y = [b; n; units].
Proof.
  intros Ex Ek Eb. unfold Dense_call. rewrite Ex, Ek, Eb.
  cbn [rev app]. rewrite !Nat.eqb_refl. cbn [andb].
  eexists. split; reflexivity.
Qed.

Lemma positional_offsets_table (self : PatchEncoder A) (n d din : nat) :
  PatchEncoder_built self n d din ->
  positional_offsets self
    = Some (mkTensor [n; d] (data (position_embedding self))).
Proof.
  intros (Hn & _ & _ & Et & Hwf).
  unfold positional_offsets. rewrite Hn, tf_range_from_zero. cbn [obind].
  unfold Embedding_call. rewrite Et, forallb_seq_below, length_seq.
  rewrite flat_map_rows.
  unfold wf_tensor in Hwf. rewrite Et in Hwf. cbn [numel fold_right] in Hwf.
  rewrite firstn_all2 by lia. reflexivity.
Qed.

(** One run of [PatchEncoder.call]: entry [(b, i, j)] of the result is the
    projection's entry [(b, i, j)] plus entry [(i, j)] of the embedding
    table. *)
Lemma PatchEncoder_call_entries (self : PatchEncoder A) (patch : Tensor A)
    (bt n d din : nat) :
  PatchEncoder_built self n d din ->
  shape patch = [bt; n; din] ->
  exists projected encoded,
    Dense_call zero add mul (projection self) patch = Some projected /\
    PatchEncoder_call zero add mul self patch = Some encoded /\
    shape projected = [bt; n; d] /\
    shape encoded = [bt; n; d] /\
    forall b i j, b < bt -> i < n -> j < d ->
      get3 zero encoded b i j
        = add (get3 zero projected b i j)
              (get2 zero (position_embedding self) i j).
Proof.
  intros Hbuilt Ep.
  pose proof (positional_offsets_table self n d din Hbuilt) as Hoff.
  destruct Hbuilt as (Hn & Ek & Eb & Et & Hwf).
  destruct (Dense_call_rank3 (projection self) patch bt n din d Ep Ek Eb)
    as (projected & Hd & Es).
  unfold PatchEncoder_call. unfold positional_offsets in Hoff.
  rewrite Hn, tf_range_from_zero in *. cbn [obind] in *.
  rewrite Hd. cbn [obind]. rewrite Hoff. cbn [obind].
  unfold tf_add. cbn [shape]. rewrite Es, broadcast_shape_batch. cbn [obind].
  eexists. eexists. split; [reflexivity|]. split; [reflexivity|].
  split; [exact Es|]. split; [reflexivity|].
  intros b i j Hb Hi Hj.
  unfold get3, get2. cbn [shape]. rewrite Es, Et.
  unfold get at 1. cbn [data].
  rewrite nth_map_seq.
  - rewrite source_index_full, source_index_offsets by assumption.
    reflexivity.
  - cbn [numel fold_right].
    assert (b * n + i + 1 <= bt * n) by nia. nia.
Qed.

(** C3.  The offsets [PatchEncoder.call] adds are computed from the
    encoder's own state alone.  For two runs on different patch tensors
    (even of different batch sizes) with the same parameters, the value
    added to the projection at patch index [i], component [j], is in both
    runs entry [(i, j)] of the one tensor [self.position_embedding(positions)],
    that is row [i] of the embedding table. *)
Theorem position_offsets_same_for_all_inputs (self : PatchEncoder A)
    (patch1 patch2 : Tensor A) (b1 b2 n d din : nat) :
  PatchEncoder_built self n d din ->
  shape patch1 = [b1; n; din] ->
  shape patch2 = [b2; n; din] ->
  exists offsets projected1 projected2 encoded1 encoded2,
    positional_offsets self = Some offsets /\
    Dense_call zero add mul (projection self) patch1 = Some projected1 /\
    Dense_call zero add mul (projection self) patch2 = Some projected2 /\
    PatchEncoder_call zero add mul self patch1 = Some encoded1 /\
    PatchEncoder_call zero add mul self patch2 = Some encoded2 /\
    forall i j, i < n -> j < d ->
      get2 zero offsets i j = get2 zero (position_embedding self) i j /\
      (forall b, b < b1 ->
         get3 zero encoded1 b i j
           = add (get3 zero projected1 b i j) (get2 zero offsets i j)) /\
      (forall b, b < b2 ->
         get3 zero encoded2 b i j
           = add (get3 zero projected2 b i j) (get2 zero offsets i j)).
Proof.
  intros Hbuilt E1 E2.
  pose proof (positional_offsets_table self n d din Hbuilt) as Hoff.
  destruct (PatchEncoder_call_entries self patch1 b1 n d din Hbuilt E1)
    as (p1 & e1 & Hp1 & He1 & _ & _ & H1).
  destruct (PatchEncoder_call_entries self patch2 b2 n d din Hbuilt E2)
    as (p2 & e2 & Hp2 & He2 & _ & _ & H2).
  exists (mkTensor [n; d] (data (position_embedding self))), p1, p2, e1, e2.
  repeat split; try assumption.
  - destruct Hbuilt as (_ & _ & _ & Et & _).
    unfold get2. cbn [shape]. rewrite Et. reflexivity.
  - intros b Hb. rewrite H1 by assumption. f_equal.
    destruct Hbuilt as (_ & _ & _ & Et & _).
    unfold get2. cbn [shape]. rewrite Et. reflexivity.
  - intros b Hb. rewrite H2 by assumption. f_equal.
    destruct Hbuilt as (_ & _ & _ & Et & _).
    unfold get2. cbn [shape]. rewrite Et. reflexivity.
Qed.

End PatchEncoderFacts.

(** ** The model graph: what a successful construction has built *)

Lemma bind_inv {S U V : Type} (m : StateErr S U) (k : U -> StateErr S V)
    (s : S) (r : V * S) :
  bind m k s = Some r ->
  exists x s', m s = Some (x, s') /\ k x s' = Some r.
Proof.
  unfold bind. destruct (m s) as [[x s']|]; [|discriminate].
  intros H. exists x, s'. split; [reflexivity|exact H].
Qed.

Lemma call_inv (l : layer) (inputs : list KerasTensor) (g g' : graph)
    (y : KerasTensor) :
  call l inputs g = Some (y, g') ->
  g' = g ++ [{| node_layer := l; node_inputs := map tensor_id inputs |}] /\
  tensor_id y = length g /\
  compute_output_shape l (map tensor_shape inputs) = Some (tensor_shape y).
Proof.
  unfold call.
  destruct (compute_output_shape l (map tensor_shape inputs)) as [s|];
    [|discriminate].
  cbn [obind]. intros H. injection H as <- <-. auto.
Qed.

(** Peel one [call] off a successful monadic computation. *)
Ltac step_call H :=
  let x := fresh "x" in
  let g := fresh "g" in
  let Hc := fresh "Hc" in
  let Hg := fresh "Hg" in
  let Hi := fresh "Hi" in
  let Hs := fresh "Hs" in
  apply bind_inv in H; destruct H as (x & g & Hc & H);
  apply call_inv in Hc; destruct Hc as (Hg & Hi & Hs).

(** Equal node lists up to arithmetic on the identities. *)
Ltac same_nodes := repeat first [reflexivity | lia | f_equal].

Lemma mlp_inv (units : list nat) (rate : Q) :
  forall (x y : KerasTensor) (g g' : graph),
    mlp x units rate g = Some (y, g') ->
    g' = g ++ expected_mlp_nodes (tensor_id x) (length g) units rate /\
    tensor_id y = expected_mlp_output (tensor_id x) (length g) units.
Proof.
  induction units as [|u rest IH]; intros x y g g' H.
  - cbn in H. injection H as <- <-. cbn. rewrite app_nil_r. auto.
  - cbn [mlp] in H.
    step_call H. step_call H.
    apply IH in H. destruct H as (Hg' & Hy).
    subst g0. rewrite length_app in Hi0. cbn [length] in Hi0.
    subst g1. rewrite !length_app in Hg', Hy. cbn [length map] in *.
    rewrite Hi0 in Hg', Hy. rewrite Hi in Hg'.
    cbn [expected_mlp_nodes]. split.
    + rewrite Hg', <- !app_assoc. cbn [app].
      replace (length g + 1 + 1) with (length g + 2) by lia. reflexivity.
    + rewrite Hy. unfold expected_mlp_output.
      destruct rest; cbn [length]; lia.
Qed.

Lemma transformer_block_inv (cfg : hyperparameters) (x y : KerasTensor)
    (g g' : graph) :
  transformer_block cfg x g = Some (y, g') ->
  g' = g ++ prenorm_block_nodes cfg (tensor_id x) (length g) /\
  tensor_id y = length g + 8.
Proof.
  unfold transformer_block. intros H.
  step_call H. step_call H. step_call H. step_call H.
  apply bind_inv in H. destruct H as (x4 & g4 & Hm & H).
  apply mlp_inv in Hm. destruct Hm as (Hg4 & Hi4).
  apply call_inv in H. destruct H as (Hg' & Hy & _).
  subst. cbn [map] in *. rewrite ?length_app in *. cbn [length] in *.
  unfold transformer_units, expected_mlp_output in *.
  cbn [expected_mlp_nodes length] in *.
  split; [|lia].
  rewrite <- !app_assoc. cbn [app]. unfold prenorm_block_nodes.
  rewrite Hi, Hi0, Hi1, Hi2, Hi4.
  same_nodes.
Qed.

Lemma transformer_stack_inv (cfg : hyperparameters) (n : nat) :
  forall (x y : KerasTensor) (g g' : graph),
    transformer_stack cfg n x g = Some (y, g') ->
    g' = g ++ prenorm_stack_nodes cfg n (tensor_id x) (length g) /\
    tensor_id y = match n with O => tensor_id x | S _ => length g + 9 * n - 1 end.
Proof.
  induction n as [|n IH]; intros x y g g' H.
  - cbn in H. injection H as <- <-. cbn. rewrite app_nil_r. auto.
  - cbn [transformer_stack] in H.
    apply bind_inv in H. destruct H as (x1 & g1 & Hb & H).
    apply transformer_block_inv in Hb. destruct Hb as (Hg1 & Hx1).
    apply IH in H. destruct H as (Hg' & Hy).
    subst g1. rewrite length_app in *.
    change (length (prenorm_block_nodes cfg (tensor_id x) (length g)))
      with 9 in *.
    cbn [prenorm_stack_nodes]. split.
    + rewrite Hg', Hx1, <- app_assoc. reflexivity.
    + rewrite Hy. destruct n; lia.
Qed.

Lemma classification_head_inv (cfg : hyperparameters) (x y : KerasTensor)
    (g g' : graph) :
  classification_head cfg x g = Some (y, g') ->
  g' = g ++ head_nodes cfg (tensor_id x) (length g) /\
  tensor_id y = length g + 3 + 2 * length (mlp_head_units cfg) /\
  exists lead, tensor_shape y = lead ++ [num_classes cfg].
Proof.
  unfold classification_head. intros H.
  step_call H. step_call H. step_call H.
  apply bind_inv in H. destruct H as (x3 & g3 & Hm & H).
  apply mlp_inv in Hm. destruct Hm as (Hg3 & Hi3).
  apply call_inv in H. destruct H as (Hg' & Hy & Hsy).
  subst. cbn [map] in *. rewrite ?length_app in *. cbn [length] in *.
  split; [|split].
  - unfold head_nodes. rewrite <- !app_assoc. cbn [app].
    rewrite Hi, Hi0, Hi1, Hi3.
    replace (length g + 1 + 1) with (length g + 2) by lia.
    replace (length g + 2 + 1) with (length g + 3) by lia.
    same_nodes.
  - assert (Hl : forall i f us r,
               length (expected_mlp_nodes i f us r) = 2 * length us).
    { intros i f us r. revert i f.
      induction us as [|u us IHus]; intros i f; cbn [expected_mlp_nodes length].
      - reflexivity.
      - rewrite IHus. lia. }
    rewrite Hy, Hl. lia.
  - cbn [compute_output_shape] in Hsy.
    destruct (rev (tensor_shape x3)) as [|d [|l lead]]; try discriminate.
    injection Hsy as <-. eexists. reflexivity.
Qed.

(** ** The model graph: shapes *)

Lemma bind_some {S U V : Type} (m : StateErr S U) (k : U -> StateErr S V)
    (s s' : S) (x : U) :
  m s = Some (x, s') -> bind m k s = k x s'.
Proof. unfold bind. intros ->. reflexivity. Qed.

Lemma call_some (l : layer) (inputs : list KerasTensor) (g : graph)
    (s : list nat) :
  compute_output_shape l (map tensor_shape inputs) = Some s ->
  call l inputs g
    = Some ({| tensor_id := length g; tensor_shape := s |},
            g ++ [{| node_layer := l; node_inputs := map tensor_id inputs |}]).
Proof. unfold call. intros ->. reflexivity. Qed.

Lemma broadcast_rev_same (r : list nat) : broadcast_rev r r = Some r.
Proof.
  induction r as [|a r IH]; cbn [broadcast_rev].
  - reflexivity.
  - rewrite broadcast_dim_same, IH. reflexivity.
Qed.

Lemma broadcast_shape_same (s : list nat) : broadcast_shape s s = Some s.
Proof.
  unfold broadcast_shape. rewrite broadcast_rev_same. cbn [option_map].
  rewrite rev_involutive. reflexivity.
Qed.

(** A residual [Add] of two tensors of one shape gives that shape. *)
Lemma Add_same_shape (s : list nat) :
  compute_output_shape Add [s; s] = Some s.
Proof.
  cbn [compute_output_shape merge_shapes].
  rewrite broadcast_shape_same. reflexivity.
Qed.

Lemma Dense_shape (units : nat) (a : option activation) (lead : list nat)
    (d : nat) :
  lead <> [] ->
  compute_output_shape (Dense units a) [lead ++ [d]] = Some (lead ++ [units]).
Proof.
  intros Hlead. cbn [compute_output_shape].
  rewrite rev_app_distr. cbn [rev app].
  destruct (rev lead) as [|l lead'] eqn:E.
  - apply (f_equal (@rev nat)) in E. rewrite rev_involutive in E.
    cbn in E. contradiction.
  - change (rev lead' ++ [l]) with (rev (l :: lead')).
    rewrite <- E, rev_involutive. reflexivity.
Qed.

Lemma last_cons_default {V : Type} (l : list V) :
  forall u d, last (u :: l) d = last l u.
Proof.
  induction l as [|v l IH]; intros u d.
  - reflexivity.
  - change (last (u :: v :: l) d) with (last (v :: l) d).
    rewrite (IH v d), (IH v u). reflexivity.
Qed.

(** [mlp] keeps the leading axes and ends with the last entry of
    [hidden_units] as the last extent. *)
Lemma mlp_shape (units : list nat) (rate : Q) (lead : list nat) :
  lead <> [] ->
  forall (d : nat) (x : KerasTensor) (g : graph),
    tensor_shape x = lead ++ [d] ->
    exists y g',
      mlp x units rate g = Some (y, g') /\
      tensor_shape y = lead ++ [last units d].
Proof.
  intros Hlead.
  induction units as [|u rest IH]; intros d x g Hx.
  - exists x, g. split; [reflexivity|exact Hx].
  - cbn [mlp].
    erewrite bind_some
      by (apply call_some; cbn [map]; rewrite Hx; apply Dense_shape, Hlead).
    erewrite bind_some by (apply call_some; reflexivity).
    cbn [tensor_shape].
    match goal with
    | |- context [mlp ?x0 rest rate ?g0] =>
        destruct (IH u x0 g0 eq_refl) as (y & g' & Hm & Hy)
    end.
    exists y, g'. split; [exact Hm|].
    rewrite Hy, last_cons_default. reflexivity.
Qed.

Lemma transformer_block_shape (cfg : hyperparameters) (x : KerasTensor)
    (g : graph) (b n : nat) :
  tensor_shape x = [b; n; projection_dims cfg] ->
  exists y g',
    transformer_block cfg x g = Some (y, g') /\
    tensor_shape y = [b; n; projection_dims cfg].
Proof.
  intros Hx. unfold transformer_block.
  erewrite bind_some by (apply call_some; reflexivity).
  erewrite bind_some
    by (apply call_some; cbn [map tensor_shape compute_output_shape];
        rewrite Hx, Nat.eqb_refl; reflexivity).
  erewrite bind_some
    by (apply call_some; cbn [map tensor_shape]; rewrite Hx;
        apply Add_same_shape).
  erewrite bind_some by (apply call_some; reflexivity).
  match goal with
  | |- context [bind (mlp ?x0 (transformer_units cfg) ?r) _ ?g0] =>
      destruct (mlp_shape (transformer_units cfg) r [b; n]
                  ltac:(discriminate) (projection_dims cfg) x0 g0 eq_refl)
        as (y & g' & Hm & Hy)
  end.
  erewrite bind_some by exact Hm.
  cbn [transformer_units last] in Hy. cbn [app] in Hy.
  erewrite call_some
    by (cbn [map tensor_shape]; rewrite Hy; apply Add_same_shape).
  eexists. eexists. split; reflexivity.
Qed.

Lemma transformer_stack_shape (cfg : hyperparameters) (k : nat) (b n : nat) :
  forall (x : KerasTensor) (g : graph),
    tensor_shape x = [b; n; projection_dims cfg] ->
    exists y g',
      transformer_stack cfg k x g = Some (y, g') /\
      tensor_shape y = [b; n; projection_dims cfg].
Proof.
  induction k as [|k IH]; intros x g Hx.
  - exists x, g. split; [reflexivity|exact Hx].
  - cbn [transformer_stack].
    destruct (transformer_block_shape cfg x g b n Hx) as (y & g' & Hb & Hy).
    erewrite bind_some by exact Hb.
    apply IH. exact Hy.
Qed.

Lemma classification_head_shape (cfg : hyperparameters) (x : KerasTensor)
    (g : graph) (b n d : nat) :
  tensor_shape x = [b; n; d] ->
  exists y g',
    classification_head cfg x g = Some (y, g') /\
    tensor_shape y = [b; num_classes cfg].
Proof.
  intros Hx. unfold classification_head.
  erewrite bind_some by (apply call_some; reflexivity).
  erewrite bind_some
    by (apply call_some; cbn [map tensor_shape compute_output_shape];
        rewrite Hx; reflexivity).
  erewrite bind_some by (apply call_some; reflexivity).
  match goal with
  | |- context [bind (mlp ?x0 (mlp_head_units cfg) ?r) _ ?g0] =>
      destruct (mlp_shape (mlp_head_units cfg) r [b]
                  ltac:(discriminate) (numel [n; d]) x0 g0 eq_refl)
        as (y & g' & Hm & Hy)
  end.
  erewrite bind_some by exact Hm.
  erewrite call_some
    by (cbn [map]; rewrite Hy; apply Dense_shape; discriminate).
  eexists. eexists. split; reflexivity.
Qed.

(** *** The two layers of the script, symbolically *)

Lemma Patches_shape_value (p b h w c : nat) :
  0 < p -> 0 < b -> 0 < c ->
  Patches_shape p [b; h; w; c] = Some [b; (h / p) * (w / p); p * p * c].
Proof.
  intros Hp Hb Hc. unfold Patches_shape.
  destruct (Patches_call_shape unit p b h w c (symbolic [b; h; w; c])
              Hp Hb Hc eq_refl) as (t & Ht & Hs & _).
  rewrite Ht. cbn [obind]. rewrite Hs. reflexivity.
Qed.

Lemma Patches_shape_inv (p b : nat) (rest s' : list nat) :
  Patches_shape p (b :: rest) = Some s' ->
  exists k d, s' = [b; k; d].
Proof.
  unfold Patches_shape, Patches_call. cbn [symbolic shape hd_error obind].
  destruct (extract_patches _ _ _ _ VALID) as [t|]; [|discriminate].
  cbn [obind]. unfold reshape.
  cbn [count_unknown filter length known_product fold_right].
  destruct (_ =? 0); [discriminate|].
  destruct (_ mod _ =? 0); [|discriminate].
  cbn [obind shape resolve map]. intros H. injection H as <-.
  eexists. eexists. reflexivity.
Qed.

Lemma PatchEncoder_shape_value (n pd b d : nat) :
  PatchEncoder_shape n pd [b; n; d] = Some [b; n; pd].
Proof.
  unfold PatchEncoder_shape, PatchEncoder_call, PatchEncoder_init_symbolic,
    Dense_call, Embedding_call, tf_add.
  cbn [symbolic shape kernel bias projection position_embedding
       self_num_patches rev app last].
  rewrite !Nat.eqb_refl, tf_range_from_zero. cbn [andb obind shape].
  rewrite forallb_seq_below, length_seq. cbn [obind shape].
  rewrite broadcast_shape_batch. reflexivity.
Qed.

Lemma PatchEncoder_shape_inv (n pd b k d : nat) (s' : list nat) :
  PatchEncoder_shape n pd [b; k; d] = Some s' ->
  exists k', s' = [b; k'; pd].
Proof.
  unfold PatchEncoder_shape, PatchEncoder_call, PatchEncoder_init_symbolic,
    Dense_call, Embedding_call, tf_add.
  cbn [symbolic shape kernel bias projection position_embedding
       self_num_patches rev app last].
  rewrite !Nat.eqb_refl, tf_range_from_zero. cbn [andb obind shape].
  rewrite forallb_seq_below, length_seq. cbn [obind shape].
  unfold broadcast_shape. cbn [rev app broadcast_rev].
  rewrite broadcast_dim_same. cbn [obind].
  destruct (broadcast_dim k n) as [k'|]; [|discriminate].
  cbn [obind option_map rev app]. intros H. injection H as <-.
  exists k'. reflexivity.
Qed.

Lemma data_augmentation_shape (s : list nat) :
  compute_output_shape data_augmentation [s] = Some s.
Proof. reflexivity. Qed.

(** *** The whole classifier *)

(** Whatever the hyperparameters, a classifier that could be built consists
    of the four stem nodes, [transfomer_layers] pre-normalization blocks and
    the head, and maps a batch to one vector of [num_classes] scores per
    image. *)
Lemma create_vit_classifier_inv (cfg : hyperparameters) (batch : nat)
    (m : Model) :
  create_vit_classifier cfg batch = Some m ->
  model_layers m
    = stem_nodes cfg ++
      prenorm_stack_nodes cfg (transfomer_layers cfg) 3 4 ++
      head_nodes cfg (3 + 9 * transfomer_layers cfg)
                     (4 + 9 * transfomer_layers cfg) /\
  model_inputs m
    = {| tensor_id := 0; tensor_shape := batch :: input_shape cfg |} /\
  tensor_id (model_outputs m)
    = 7 + 9 * transfomer_layers cfg + 2 * length (mlp_head_units cfg) /\
  tensor_shape (model_outputs m) = [batch; num_classes cfg].
Proof.
  unfold create_vit_classifier.
  match goal with
  | |- match ?b with _ => _ end = _ -> _ => destruct b as [[[i o] g]|] eqn:H
  end; [|discriminate].
  intros Hm. injection Hm as <-. cbn [model_layers model_inputs model_outputs].
  apply bind_inv in H. destruct H as (x0 & g0 & H0 & H).
  unfold Input in H0. injection H0 as <- <-. cbn [app length] in H.
  step_call H. step_call H. step_call H.
  apply bind_inv in H. destruct H as (xs & gs & Hstack & H).
  apply bind_inv in H. destruct H as (xh & gh & Hhead & H).
  unfold ret in H. injection H as <- <- <-.
  subst. cbn [map tensor_id tensor_shape app length] in *.
  (* shapes along the stem *)
  rewrite data_augmentation_shape in Hs. injection Hs as Hs.
  rewrite <- Hs in Hs0.
  destruct (Patches_shape_inv _ _ _ _ Hs0) as (k & d & Ek).
  rewrite Ek in Hs1.
  destruct (PatchEncoder_shape_inv _ _ _ _ _ _ Hs1) as (k' & Ek').
  (* the stack *)
  match type of Hstack with
  | transformer_stack _ _ _ ?g0 = _ =>
      destruct (transformer_stack_shape cfg (transfomer_layers cfg) batch k'
                  x1 g0 Ek') as (ys & gs' & Hstack' & Hys)
  end.
  rewrite Hstack in Hstack'. injection Hstack' as <- <-.
  apply transformer_stack_inv in Hstack. destruct Hstack as (Hgs & Hxs).
  (* the head *)
  destruct (classification_head_shape cfg xs gs batch k' _ Hys)
    as (yh & gh' & Hhead' & Hyh).
  rewrite Hhead in Hhead'. injection Hhead' as <- <-.
  apply classification_head_inv in Hhead. destruct Hhead as (Hgh & Hxh & _).
  assert (Hlen : length gs = 4 + 9 * transfomer_layers cfg).
  { rewrite Hgs, length_app. cbn [length].
    assert (Hl : forall n i f, length (prenorm_stack_nodes cfg n i f) = 9 * n).
    { induction n as [|n IHn]; intros i f; cbn [prenorm_stack_nodes].
      - reflexivity.
      - rewrite length_app, IHn. cbn [prenorm_block_nodes length]. lia. }
    rewrite Hl. lia. }
  assert (Hin : tensor_id xs = 3 + 9 * transfomer_layers cfg).
  { rewrite Hxs. cbn [length]. rewrite Hi1.
    destruct (transfomer_layers cfg); lia. }
  repeat split.
  - rewrite Hgh, Hin, Hlen, Hgs, Hi, Hi0, Hi1. cbn [length].
    unfold stem_nodes. rewrite <- !app_assoc. reflexivity.
  - rewrite Hxh, Hlen. lia.
  - exact Hyh.
Qed.

(** For square images, a positive patch size and a non-empty batch the
    construction succeeds. *)
Lemma create_vit_classifier_builds (cfg : hyperparameters) (batch s c : nat) :
  input_shape cfg = [s; s; c] ->
  0 < patch_size cfg -> 0 < c -> 0 < batch ->
  exists m, create_vit_classifier cfg batch = Some m.
Proof.
  intros Hin Hp Hc Hb. unfold create_vit_classifier.
  unfold Input at 1.
  erewrite bind_some by reflexivity.
  erewrite bind_some by (apply call_some; apply data_augmentation_shape).
  erewrite bind_some
    by (apply call_some; cbn [map tensor_shape]; rewrite Hin;
        apply Patches_shape_value; assumption).
  assert (Hn : s / patch_size cfg * (s / patch_size cfg) = num_patches cfg).
  { unfold num_patches, image_size. rewrite Hin. cbn [nth Nat.pow]. lia. }
  erewrite bind_some
    by (apply call_some; cbn [map tensor_shape]; rewrite Hn;
        apply PatchEncoder_shape_value).
  match goal with
  | |- context [bind (transformer_stack cfg ?n ?x0) _ ?g0] =>
      destruct (transformer_stack_shape cfg n batch (num_patches cfg) x0 g0
                  eq_refl) as (ys & gs & Hstack & Hys)
  end.
  erewrite bind_some by exact Hstack.
  destruct (classification_head_shape cfg ys gs batch _ _ Hys)
    as (yh & gh & Hhead & Hyh).
  erewrite bind_some by exact Hhead.
  unfold ret. eexists. reflexivity.
Qed.

(** ** Claims about the architecture *)

Lemma prenorm_stack_block_at (cfg : hyperparameters) (tail : list node)
    (n : nat) :
  forall k input first,
    k < n ->
    firstn 9 (skipn (9 * k) (prenorm_stack_nodes cfg n input first ++ tail))
      = prenorm_block_nodes cfg
          (match k with O => input | S _ => first + 9 * k - 1 end)
          (first + 9 * k).
Proof.
  induction n as [|n IH]; intros k input first Hk; [lia|].
  cbn [prenorm_stack_nodes]. rewrite <- app_assoc.
  destruct k as [|k].
  - replace (first + 9 * 0) with first by lia. reflexivity.
  - replace (9 * S k) with (9 + 9 * k) by lia.
    unfold prenorm_block_nodes at 1. cbn [Nat.add skipn app].
    rewrite (IH k (first + 8) (first + 9)) by lia.
    f_equal; destruct k; lia.
Qed.

(** C5.  In a classifier built by [create_vit_classifier], block number [k]
    (for every [k] below [transfomer_layers]) consists of the nine nodes
    created from position [4 + 9 * k] on, in this order and with this wiring:
    layer normalization of the block input; self-attention on the normalized
    tensor (as query and as value); [Add] of the attention output and the
    block input; layer normalization of that sum; [Dense] with GELU,
    [Dropout], [Dense] with GELU, [Dropout]; [Add] of the MLP output and the
    first sum.  The block input is the node just before the block.  Between
    the four stem nodes and the head there is nothing but these blocks. *)
Theorem every_block_is_prenorm (cfg : hyperparameters) (batch : nat)
    (m : Model) (k : nat) :
  create_vit_classifier cfg batch = Some m ->
  k < transfomer_layers cfg ->
  let first := 4 + 9 * k in
  let input := first - 1 in
  firstn 9 (skipn first (model_layers m))
    = [ {| node_layer := LayerNormalization (1 # 1000000);
           node_inputs := [input] |};
        {| node_layer := MultiHeadAttention (num_heads cfg)
                           (projection_dims cfg) (1 # 10);
           node_inputs := [first; first] |};
        {| node_layer := Add; node_inputs := [first + 1; input] |};
        {| node_layer := LayerNormalization (1 # 1000000);
           node_inputs := [first + 2] |};
        {| node_layer := Dense (projection_dims cfg * 2) (Some gelu);
           node_inputs := [first + 3] |};
        {| node_layer := Dropout (1 # 10); node_inputs := [first + 4] |};
        {| node_layer := Dense (projection_dims cfg) (Some gelu);
           node_inputs := [first + 5] |};
        {| node_layer := Dropout (1 # 10); node_inputs := [first + 6] |};
        {| node_layer := Add; node_inputs := [first + 7; first + 2] |} ] /\
  firstn 4 (model_layers m) = stem_nodes cfg /\
  skipn (4 + 9 * transfomer_layers cfg) (model_layers m)
    = head_nodes cfg (3 + 9 * transfomer_layers cfg)
                     (4 + 9 * transfomer_layers cfg).
Proof.
  intros Hm Hk first input.
  destruct (create_vit_classifier_inv cfg batch m Hm) as (Hl & _).
  rewrite Hl. split; [|split].
  - subst first input.
    change (skipn (4 + 9 * k) (stem_nodes cfg ++ ?r)) with (skipn (9 * k) r).
    rewrite prenorm_stack_block_at by exact Hk.
    unfold prenorm_block_nodes.
    replace (match k with O => 3 | S _ => 4 + 9 * k - 1 end)
      with (4 + 9 * k - 1) by (destruct k; lia).
    reflexivity.
  - reflexivity.
  - change (skipn (4 + ?j) (stem_nodes cfg ++ ?r)) with (skipn j r).
    assert (Hlen : forall n i f,
               length (prenorm_stack_nodes cfg n i f) = 9 * n).
    { induction n as [|n IHn]; intros i f; cbn [prenorm_stack_nodes].
      - reflexivity.
      - rewrite length_app, IHn. cbn [prenorm_block_nodes length]. lia. }
    rewrite skipn_app, Hlen, Nat.sub_diag. cbn [skipn].
    rewrite skipn_all2 by (rewrite Hlen; lia). reflexivity.
Qed.

(** C7.  A transformer block applied to a tensor of shape
    [batch, n, projection_dims] can be built and returns a tensor of that
    same shape, and so does any number of blocks in a row. *)
Theorem transformer_blocks_preserve_shape (cfg : hyperparameters)
    (x : KerasTensor) (g : graph) (b n : nat) :
  tensor_shape x = [b; n; projection_dims cfg] ->
  (exists y g',
     transformer_block cfg x g = Some (y, g') /\
     tensor_shape y = [b; n; projection_dims cfg]) /\
  (forall k, exists y g',
     transformer_stack cfg k x g = Some (y, g') /\
     tensor_shape y = [b; n; projection_dims cfg]).
Proof.
  intros Hx. split.
  - apply transformer_block_shape. exact Hx.
  - intros k. apply transformer_stack_shape. exact Hx.
Qed.

(** C8.  With the script's constants the number of patches is 64, and the
    classifier built for a batch of [B] images returns a tensor of shape
    [B, num_classes], that is [B, 100]. *)
Theorem script_classifier_output_shape (B : nat) :
  0 < B ->
  image_size script_config = 32 /\
  patch_size script_config = 4 /\
  num_patches script_config = 64 /\
  exists m,
    create_vit_classifier script_config B = Some m /\
    tensor_shape (model_inputs m) = [B; 32; 32; 3] /\
    tensor_shape (model_outputs m) = [B; num_classes script_config] /\
    num_classes script_config = 100.
Proof.
  intros HB. repeat split.
  destruct (create_vit_classifier_builds script_config B 32 3 eq_refl)
    as (m & Hm); [cbn; lia | lia | exact HB |].
  exists m. split; [exact Hm|].
  destruct (create_vit_classifier_inv script_config B m Hm)
    as (_ & Hi & _ & Ho).
  rewrite Hi, Ho. repeat split.
Qed.

(** C10.  [transformer_units] is [projection_dims * 2, projection_dims], so
    its last entry is [projection_dims]; the block's MLP therefore maps a
    tensor of shape [batch, n, projection_dims] to one of the same shape, and
    both residual [Add]s of a block, the one after attention and the one
    after the MLP, receive two tensors of one shape. *)
Theorem transformer_units_end_in_projection_dims (cfg : hyperparameters)
    (x : KerasTensor) (g : graph) (b n : nat) :
  tensor_shape x = [b; n; projection_dims cfg] ->
  transformer_units cfg = [projection_dims cfg * 2; projection_dims cfg] /\
  last (transformer_units cfg) 0 = projection_dims cfg /\
  (exists y g',
     mlp x (transformer_units cfg) (1 # 10) g = Some (y, g') /\
     tensor_shape y = tensor_shape x /\
     compute_output_shape Add [tensor_shape y; tensor_shape x]
       = Some [b; n; projection_dims cfg]) /\
  (exists a,
     compute_output_shape
       (MultiHeadAttention (num_heads cfg) (projection_dims cfg) (1 # 10))
       [tensor_shape x; tensor_shape x] = Some a /\
     compute_output_shape Add [a; tensor_shape x]
       = Some [b; n; projection_dims cfg]).
Proof.
  intros Hx. split; [reflexivity|]. split; [reflexivity|]. split.
  - destruct (mlp_shape (transformer_units cfg) (1 # 10) [b; n]
                ltac:(discriminate) (projection_dims cfg) x g Hx)
      as (y & g' & Hm & Hy).
    cbn [transformer_units last app] in Hy.
    exists y, g'. split; [exact Hm|]. rewrite Hy, Hx.
    split; [reflexivity|]. apply Add_same_shape.
  - exists [b; n; projection_dims cfg]. rewrite Hx. split.
    + cbn [compute_output_shape]. rewrite Nat.eqb_refl. reflexivity.
    + apply Add_same_shape.
Qed.

(** ** The training run *)

Lemma Qltb_lt (x y : Q) : Qltb x y = true <-> (x < y)%Q.
Proof.
  unfold Qltb. rewrite negb_true_iff. split.
  - intros H. apply Qnot_le_lt. intros Hle.
    apply Qle_bool_iff in Hle. congruence.
  - intros H. destruct (Qle_bool y x) eqn:E; [|reflexivity].
    apply Qle_bool_iff in E. exfalso. exact (Qlt_not_le _ _ H E).
Qed.

Lemma Qltb_ge (x y : Q) : Qltb x y = false <-> (y <= x)%Q.
Proof.
  unfold Qltb. rewrite negb_false_iff. apply Qle_bool_iff.
Qed.

Lemma split_at_15_percent (n : nat) :
  split_at n (15 # 100) = n * 85 / 100.
Proof.
  unfold split_at.
  change (Qfloor (inject_Z (Z.of_nat n) * (1 - (15 # 100))))
    with ((Z.of_nat n * 85) / 100)%Z.
  rewrite <- (Nat2Z.id (n * 85 / 100)). f_equal.
  rewrite Nat2Z.inj_div, Nat2Z.inj_mul. reflexivity.
Qed.

Lemma val_accuracy_at_snoc_old (history : list logs) (lg : logs) (e : nat) :
  e < length history ->
  val_accuracy_at (history ++ [lg]) e = val_accuracy_at history e.
Proof.
  intros He. unfold val_accuracy_at. rewrite app_nth1 by exact He. reflexivity.
Qed.

Lemma val_accuracy_at_snoc_new (history : list logs) (lg : logs) :
  val_accuracy_at (history ++ [lg]) (length history)
    = logs_get lg "val_accuracy".
Proof.
  unfold val_accuracy_at. rewrite app_nth2, Nat.sub_diag by lia. reflexivity.
Qed.

(** A quantity called "val_accuracy" is one to maximise. *)
Lemma monitor_op_val_accuracy (cb : ModelCheckpoint) (current b : Q) :
  monitor cb = "val_accuracy" ->
  monitor_op cb current b = Qltb b current.
Proof. intros H. unfold monitor_op. rewrite H. reflexivity. Qed.

(** The callback's [best] stays the largest validation accuracy so far. *)
Lemma best_tracks_step (cb : ModelCheckpoint) (history : list logs)
    (lg : logs) (v : Q) :
  monitor cb = "val_accuracy" ->
  best_tracks cb history ->
  logs_get lg "val_accuracy" = Some v ->
  best_tracks
    (if improves cb v
     then {| filepath := filepath cb; monitor := monitor cb;
             save_best_only := save_best_only cb; best := Some v |}
     else cb)
    (history ++ [lg]) /\
  (improves cb v = true <->
   forall e v', e < length history -> val_accuracy_at history e = Some v' ->
                (v' < v)%Q).
Proof.
  intros Hmon Hbest Hv. unfold best_tracks, improves in *.
  destruct (best cb) as [b|] eqn:Eb.
  - destruct Hbest as ((e0 & He0 & Hv0) & Hall).
    rewrite (monitor_op_val_accuracy cb v b Hmon).
    destruct (Qltb b v) eqn:E.
    + apply Qltb_lt in E. cbn [best]. split.
      * split.
        -- exists (length history). rewrite length_app. cbn [length].
           split; [lia|]. rewrite val_accuracy_at_snoc_new. exact Hv.
        -- intros e v' He Hv'. rewrite length_app in He. cbn [length] in He.
           destruct (Nat.eq_dec e (length history)) as [->|Hne].
           ++ rewrite val_accuracy_at_snoc_new, Hv in Hv'.
              injection Hv' as <-. apply Qle_refl.
           ++ rewrite val_accuracy_at_snoc_old in Hv' by lia.
              apply Qlt_le_weak. apply Qle_lt_trans with b; [|exact E].
              apply (Hall e); [lia|exact Hv'].
      * split; [|reflexivity]. intros _ e v' He Hv'.
        apply Qle_lt_trans with b; [|exact E]. apply (Hall e); assumption.
    + apply Qltb_ge in E. cbv beta iota. rewrite Eb. split.
      * split.
        -- exists e0. rewrite length_app. split; [lia|].
           rewrite val_accuracy_at_snoc_old by exact He0. exact Hv0.
        -- intros e v' He Hv'. rewrite length_app in He. cbn [length] in He.
           destruct (Nat.eq_dec e (length history)) as [->|Hne].
           ++ rewrite val_accuracy_at_snoc_new, Hv in Hv'.
              injection Hv' as <-. exact E.
           ++ rewrite val_accuracy_at_snoc_old in Hv' by lia.
              apply (Hall e); [lia|exact Hv'].
      * split; [discriminate|]. intros H. exfalso.
        exact (Qlt_not_le _ _ (H e0 b He0 Hv0) E).
  - subst history. cbn [best]. split.
    + split.
      * exists 0. split; [cbn; lia|]. exact Hv.
      * intros e v' He Hv'. cbn [app length] in He.
        replace e with 0 in Hv' by lia.
        change (val_accuracy_at ([] ++ [lg]) 0) with (logs_get lg "val_accuracy")
          in Hv'.
        rewrite Hv in Hv'. injection Hv' as <-. apply Qle_refl.
    + split; [|reflexivity]. intros _ e v' He. cbn in He. lia.
Qed.

Section TrainingFacts.

Variables X Y Params : Type.
Variable train_epoch :
  compile_args -> nat -> nat -> Params -> list X -> list Y ->
  Params * (option metric -> Q).
Variable measure :
  compile_args -> option metric -> Params -> list X -> list Y -> Q.

(** One epoch of the script's run: the parameters are trained on the
    training part, the accuracy on the validation part is logged as
    "val_accuracy", and the model is saved exactly if that value beats the
    callback's [best]. *)
Lemma run_epoch_checkpoint (cfg : hyperparameters) (bs epoch : nat)
    (tx : list X) (ty : list Y) (vx : list X) (vy : list Y)
    (cb : ModelCheckpoint) (st : state X Y Params) :
  save_best_only cb = true ->
  monitor cb = "val_accuracy" ->
  let c := script_compile_args cfg in
  let p := fst (train_epoch c bs epoch (weights st) tx ty) in
  let v := measure c (Some (SparseCategoricalAccuracy "accuracy")) p vx vy in
  exists lg,
    logs_get lg "val_accuracy" = Some v /\
    run_epoch train_epoch measure c bs epoch (tx, ty) (Some (vx, vy)) [cb] st
    = Some ((lg, [updated_callback cb v]),
            {| weights := p;
               files := if improves cb v
                        then fun q => if String.eqb q (filepath cb)
                                      then Some p else files st q
                        else files st;
               trace := trace st ++
                        [EvTrain epoch tx ty; EvValidate epoch vx vy] ++
                        (if improves cb v
                         then [EvSave X Y epoch (filepath cb)] else []) |}).
Proof.
  intros Hsave Hmon c p v. subst p v.
  unfold run_epoch, bind. cbn [fst snd].
  destruct (train_epoch c bs epoch (weights st) tx ty) as [p running].
  cbn [fst weights files trace].
  eexists. split; [|].
  2:{ cbn [callbacks_on_epoch_end].
      unfold on_epoch_end, bind, updated_callback.
      rewrite !Hsave, !Hmon.
      match goal with
      | |- context [logs_get ?l "val_accuracy"] =>
          change (logs_get l "val_accuracy")
            with (Some (measure c (Some (SparseCategoricalAccuracy "accuracy"))
                                p vx vy))
      end.
      cbv beta iota.
      destruct (improves cb _); cbn [save ret bind weights files trace];
        rewrite <- ?app_assoc; reflexivity. }
  reflexivity.
Qed.

Lemma updated_callback_fields (cb : ModelCheckpoint) (v : Q) :
  save_best_only (updated_callback cb v) = save_best_only cb /\
  monitor (updated_callback cb v) = monitor cb /\
  filepath (updated_callback cb v) = filepath cb.
Proof.
  unfold updated_callback. destruct (improves cb v); repeat split.
Qed.

(** The training loop of the script's run, from any epoch on: what it
    logs, which events it produces and when it saves. *)
Lemma fit_loop_checkpoint (cfg : hyperparameters) (bs : nat)
    (tx : list X) (ty : list Y) (vx : list X) (vy : list Y)
    (path : String.string) (remaining : nat) :
  forall (epoch : nat) (cb : ModelCheckpoint) (history : list logs)
         (st : state X Y Params),
    save_best_only cb = true ->
    monitor cb = "val_accuracy" ->
    filepath cb = path ->
    length history = epoch ->
    best_tracks cb history ->
    validated_on measure (script_compile_args cfg) vx vy history ->
    exists history' events st',
      fit_loop train_epoch measure (script_compile_args cfg) bs (tx, ty)
               (Some (vx, vy)) remaining epoch [cb] history st
        = Some (history', st') /\
      trace st' = trace st ++ events /\
      length history' = epoch + remaining /\
      (forall e, e < epoch -> nth e history' [] = nth e history []) /\
      validated_on measure (script_compile_args cfg) vx vy history' /\
      Forall (@fit_event X Y) events /\
      (forall e x y, In (EvTrain e x y) events -> x = tx /\ y = ty) /\
      (forall e x y, In (EvValidate e x y) events -> x = vx /\ y = vy) /\
      (forall e q, In (EvSave X Y e q) events <->
                   q = path /\ epoch <= e < epoch + remaining /\
                   new_best history' e) /\
      (forall q, q <> path -> files st' q = files st q) /\
      (files st path <> None \/ (best cb = None /\ 0 < remaining) ->
       files st' path <> None).
Proof.
  induction remaining as [|r IH];
    intros epoch cb history st Hsave Hmon Hpath Hlen Hbest Hval.
  - exists history, [], st. cbn [fit_loop ret In].
    split; [reflexivity|].
    split; [rewrite app_nil_r; reflexivity|].
    split; [lia|].
    split; [reflexivity|].
    split; [exact Hval|].
    split; [constructor|].
    split; [intros e x y []|].
    split; [intros e x y []|].
    split; [intros e q; split; [intros []|intros (_ & H & _); lia]|].
    split; [reflexivity|].
    intros [H|(_ & H)]; [exact H|lia].
  - cbn [fit_loop]. unfold bind.
    destruct (run_epoch_checkpoint cfg bs epoch tx ty vx vy cb st Hsave Hmon)
      as (lg & Hlg & Hrun).
    rewrite Hrun. cbn [fst snd]. clear Hrun.
    set (p := fst (train_epoch (script_compile_args cfg) bs epoch
                               (weights st) tx ty)) in *.
    set (v := measure (script_compile_args cfg)
                      (Some (SparseCategoricalAccuracy "accuracy")) p vx vy)
      in *.
    destruct (updated_callback_fields cb v) as (Hs' & Hm' & Hp').
    destruct (best_tracks_step cb history lg v Hmon Hbest Hlg)
      as (Hbest' & Himp).
    fold (updated_callback cb v) in Hbest'.
    assert (Hval' : validated_on measure (script_compile_args cfg) vx vy
                      (history ++ [lg])).
    { intros e He. rewrite length_app in He. cbn [length] in He.
      destruct (Nat.eq_dec e (length history)) as [->|Hne].
      - exists p. rewrite val_accuracy_at_snoc_new. exact Hlg.
      - rewrite val_accuracy_at_snoc_old by lia. apply Hval. lia. }
    match goal with
    | |- context [fit_loop _ _ _ _ _ _ _ _ _ _ ?s1] => set (st1 := s1)
    end.
    assert (Hlen1 : length (history ++ [lg]) = S epoch).
    { rewrite length_app. cbn [length]. lia. }
    destruct (IH (S epoch) (updated_callback cb v) (history ++ [lg]) st1
                (eq_trans Hs' Hsave) (eq_trans Hm' Hmon)
                (eq_trans Hp' Hpath) Hlen1 Hbest' Hval')
      as (history' & events' & st' & Hfit & Htr & Hlen' & Hpre & Hall
          & Hev & Htrain & Hvalid & Hsaves & Hfiles & Hfile).
    (* facts about the epoch just run, read off the final history *)
    assert (Hnow : val_accuracy_at history' epoch = Some v).
    { unfold val_accuracy_at. rewrite Hpre by lia.
      rewrite <- Hlen, app_nth2, Nat.sub_diag by lia. exact Hlg. }
    assert (Hold : forall e, e < epoch ->
               val_accuracy_at history' e = val_accuracy_at history e).
    { intros e He. unfold val_accuracy_at. rewrite Hpre by lia.
      rewrite app_nth1 by lia. reflexivity. }
    assert (Hnb : improves cb v = true <-> new_best history' epoch).
    { rewrite Himp. unfold new_best. rewrite Hnow, Hlen. split.
      - intros H. exists v. split; [reflexivity|].
        intros e' v' He' Hv'. rewrite Hold in Hv' by exact He'.
        apply (H e'); assumption.
      - intros (v0 & Hv0 & H) e v' He Hv'. injection Hv0 as <-.
        apply (H e); [exact He|]. rewrite Hold by exact He. exact Hv'. }
    exists history',
      ([EvTrain epoch tx ty; EvValidate epoch vx vy] ++
       (if improves cb v then [EvSave X Y epoch (filepath cb)] else []) ++
       events'),
      st'.
    split; [exact Hfit|].
    split.
    { rewrite Htr. subst st1. cbn [trace]. rewrite <- !app_assoc.
      reflexivity. }
    split; [lia|].
    split.
    { intros e He. rewrite Hpre by lia. apply app_nth1. lia. }
    split; [exact Hall|].
    split.
    { repeat constructor.
      destruct (improves cb v); [constructor; [exact I|exact Hev]|exact Hev]. }
    split.
    { intros e x y Hin. cbn [app In] in Hin.
      destruct Hin as [H|[H|Hin]]; try discriminate.
      - injection H as _ <- <-. auto.
      - destruct (improves cb v); cbn [app In] in Hin.
        + destruct Hin as [H|Hin]; [discriminate|].
          apply (Htrain e); exact Hin.
        + apply (Htrain e); exact Hin. }
    split.
    { intros e x y Hin. cbn [app In] in Hin.
      destruct Hin as [H|[H|Hin]]; try discriminate.
      - injection H as _ <- <-. auto.
      - destruct (improves cb v); cbn [app In] in Hin.
        + destruct Hin as [H|Hin]; [discriminate|].
          apply (Hvalid e); exact Hin.
        + apply (Hvalid e); exact Hin. }
    split.
    { intros e q. cbn [app In]. split.
      - intros [H|[H|Hin]]; try discriminate.
        destruct (improves cb v) eqn:Ei; cbn [app In] in Hin.
        + destruct Hin as [H|Hin].
          * injection H as <- <-. split; [exact Hpath|].
            split; [lia|]. apply Hnb. reflexivity.
          * apply Hsaves in Hin. destruct Hin as (Hq & He & Hn).
            split; [exact Hq|]. split; [lia|exact Hn].
        + apply Hsaves in Hin. destruct Hin as (Hq & He & Hn).
          split; [exact Hq|]. split; [lia|exact Hn].
      - intros (Hq & He & Hn). right. right.
        destruct (Nat.eq_dec e epoch) as [->|Hne].
        + apply Hnb in Hn. rewrite Hn. left. rewrite Hpath, Hq. reflexivity.
        + apply in_or_app. right. apply Hsaves.
          split; [exact Hq|]. split; [lia|exact Hn]. }
    split.
    { intros q Hq. rewrite (Hfiles q Hq). subst st1. cbn [files].
      destruct (improves cb v); [|reflexivity].
      rewrite Hpath. destruct (String.eqb_spec q path); [contradiction|].
      reflexivity. }
    intros Hsome. apply Hfile. left. subst st1. cbn [files].
    destruct Hsome as [Hex|(Hnone & _)].
    + destruct (improves cb v); [|exact Hex].
      rewrite Hpath, String.eqb_refl. discriminate.
    + unfold improves. rewrite Hnone, Hpath, String.eqb_refl. discriminate.
Qed.


Lemma split_85_inside (n : nat) :
  2 <= n -> 0 < n * 85 / 100 < n.
Proof.
  intros Hn. split.
  - apply Nat.div_str_pos. lia.
  - apply Nat.Div0.div_lt_upper_bound. lia.
Qed.

(** The whole run.  Everything up to and including the reload of the
    checkpoint is fixed before the test data comes into play. *)
Lemma run_experiment_spec (cfg : hyperparameters)
    (x_train : list X) (y_train : list Y) (st : state X Y Params) :
  0 < num_epochs cfg ->
  2 <= length x_train ->
  let k := length x_train * 85 / 100 in
  let c := script_compile_args cfg in
  exists history fit_events p_best files',
    length history = num_epochs cfg /\
    validated_on measure c (skipn k x_train) (skipn k y_train) history /\
    Forall (@fit_event X Y) fit_events /\
    (forall e x y, In (EvTrain e x y) fit_events ->
                   x = firstn k x_train /\ y = firstn k y_train) /\
    (forall e x y, In (EvValidate e x y) fit_events ->
                   x = skipn k x_train /\ y = skipn k y_train) /\
    (forall e q, In (EvSave X Y e q) fit_events <->
                 q = "/tmp/checkpoint" /\ e < num_epochs cfg /\
                 new_best history e) /\
    files' "/tmp/checkpoint" = Some p_best /\
    (forall q, q <> "/tmp/checkpoint" -> files' q = files st q) /\
    forall (x_test : list X) (y_test : list Y),
      run_experiment train_epoch measure cfg x_train y_train x_test y_test st
      = Some (history,
              {| weights := p_best;
                 files := files';
                 trace :=
                   trace st ++ [EvCompile X Y c] ++ fit_events ++
                   [ EvLoad X Y "/tmp/checkpoint";
                     EvEvaluate x_test y_test;
                     EvPrint X Y "Test accuracy: "
                       (measure c (Some (SparseCategoricalAccuracy "accuracy"))
                                p_best x_test y_test * 100);
                     EvPrint X Y "Test top 5 accuracy: "
                       (measure c
                          (Some (SparseTopKCategoricalAccuracy 5
                                   "top-5-accuracy"))
                          p_best x_test y_test * 100) ] |}).
Proof.
  intros Hep Hn k c.
  destruct (split_85_inside (length x_train) Hn) as (Hk0 & Hkn).
  set (st0 := {| weights := weights st; files := files st;
                 trace := trace st ++ [EvCompile X Y c] |}).
  set (cb0 := {| filepath := "/tmp/checkpoint"; monitor := "val_accuracy";
                 save_best_only := true; best := None |}).
  destruct (fit_loop_checkpoint cfg (batch_size cfg)
              (firstn k x_train) (firstn k y_train)
              (skipn k x_train) (skipn k y_train)
              "/tmp/checkpoint" (num_epochs cfg) 0 cb0 [] st0
              eq_refl eq_refl eq_refl eq_refl eq_refl)
    as (history & events & st' & Hfit & Htr & Hlen & _ & Hall & Hev
        & Htrain & Hvalid & Hsaves & Hfiles & Hfile).
  { intros e He. cbn in He. lia. }
  destruct (files st' "/tmp/checkpoint") as [p_best|] eqn:Ef.
  2:{ exfalso. apply Hfile; [|reflexivity]. right. split; [reflexivity|exact Hep]. }
  exists history, events, p_best, (files st').
  split; [exact Hlen|]. split; [exact Hall|]. split; [exact Hev|].
  split; [exact Htrain|]. split; [exact Hvalid|].
  split.
  { intros e q. rewrite Hsaves. cbn [Nat.add].
    split; intros (H1 & H2 & H3); repeat split; try assumption; lia. }
  split; [exact Ef|]. split; [exact Hfiles|].
  intros x_test y_test.
  unfold run_experiment, compile, emit, bind, ret, fit.
  change (Qeq_bool (15 # 100) 0) with false. cbv iota.
  unfold train_validation_split. rewrite split_at_15_percent.
  fold k.
  destruct (Nat.eqb_spec k 0) as [E|_]; [lia|].
  destruct (Nat.eqb_spec k (length x_train)) as [E|_]; [lia|].
  cbn [orb].
  match goal with
  | |- context [fit_loop ?a ?b ?c0 ?d ?e ?f ?g ?h ?i ?j ?s] =>
      change (fit_loop a b c0 d e f g h i j s)
        with (fit_loop train_epoch measure (script_compile_args cfg)
                (batch_size cfg) (firstn k x_train, firstn k y_train)
                (Some (skipn k x_train, skipn k y_train))
                (num_epochs cfg) 0 [cb0] [] st0)
  end.
  rewrite Hfit.
  unfold load_weights. rewrite Ef. unfold evaluate.
  cbn [weights files trace named_values compile_metrics c
       script_compile_args map snd metric_name].
  unfold print_percent, emit. cbn [weights files trace].
  rewrite Htr. subst st0. cbn [trace].
  rewrite <- !app_assoc. reflexivity.
Qed.

Lemma count_events_app (f : event X Y -> bool) (a b : list (event X Y)) :
  count_events f (a ++ b) = count_events f a + count_events f b.
Proof. unfold count_events. rewrite filter_app, length_app. reflexivity. Qed.

Lemma fit_events_have_no_load_or_evaluate (events : list (event X Y)) :
  Forall (@fit_event X Y) events ->
  count_events (@is_load X Y) events = 0 /\
  count_events (@is_evaluate X Y) events = 0.
Proof.
  unfold count_events.
  induction 1 as [|ev events Hev _ IH]; [split; reflexivity|].
  destruct ev; try contradiction; cbn [filter is_load is_evaluate]; exact IH.
Qed.


(** C6.  The nodes after the last block are, in this order: a layer
    normalization of the last block's output, a [Flatten] of it, a
    [Dropout], the MLP over [mlp_head_units], and a [Dense] layer with
    [num_classes] units and no activation, whose result is the model's
    output, of shape [batch, num_classes]; and [run_experiment] compiles
    the model with a sparse categorical cross-entropy that takes logits. *)
Theorem head_produces_logits_for_from_logits_loss
    (cfg : hyperparameters) (batch : nat) (m : Model)
    (x_train : list X) (y_train : list Y) (x_test : list X)
    (y_test : list Y) (st : state X Y Params) :
  create_vit_classifier cfg batch = Some m ->
  0 < num_epochs cfg ->
  2 <= length x_train ->
  let first := 4 + 9 * transfomer_layers cfg in
  skipn first (model_layers m)
    = [ {| node_layer := LayerNormalization (1 # 1000000);
           node_inputs := [first - 1] |};
        {| node_layer := Flatten; node_inputs := [first] |};
        {| node_layer := Dropout (1 # 2); node_inputs := [first + 1] |} ] ++
      expected_mlp_nodes (first + 2) (first + 3) (mlp_head_units cfg) (1 # 2) ++
      [ {| node_layer := Dense (num_classes cfg) None;
           node_inputs := [expected_mlp_output (first + 2) (first + 3)
                                               (mlp_head_units cfg)] |} ] /\
  model_outputs m
    = {| tensor_id := length (model_layers m) - 1;
         tensor_shape := [batch; num_classes cfg] |} /\
  (exists history st' rest,
     run_experiment train_epoch measure cfg x_train y_train x_test y_test st
       = Some (history, st') /\
     trace st' = trace st ++ EvCompile X Y (script_compile_args cfg) :: rest) /\
  compile_loss (script_compile_args cfg) = SparseCategoricalCrossentropy true.
Proof.
  intros Hm Hep Hn first.
  destruct (create_vit_classifier_inv cfg batch m Hm) as (Hl & _ & Hid & Hsh).
  assert (Hlen : forall n i f,
             length (prenorm_stack_nodes cfg n i f) = 9 * n).
  { induction n as [|n IHn]; intros i f; cbn [prenorm_stack_nodes].
    - reflexivity.
    - rewrite length_app, IHn. cbn [prenorm_block_nodes length]. lia. }
  assert (Hml : forall us i f r,
             length (expected_mlp_nodes i f us r) = 2 * length us).
  { induction us as [|u us IHus]; intros i f r;
      cbn [expected_mlp_nodes length].
    - reflexivity.
    - rewrite IHus. lia. }
  split; [|split; [|split; [|reflexivity]]].
  - rewrite Hl. subst first.
    change (skipn (4 + ?j) (stem_nodes cfg ++ ?r)) with (skipn j r).
    rewrite skipn_app, Hlen, Nat.sub_diag. cbn [skipn].
    rewrite skipn_all2 by (rewrite Hlen; lia). cbn [app].
    unfold head_nodes. cbn [app].
    replace (4 + 9 * transfomer_layers cfg - 1)
      with (3 + 9 * transfomer_layers cfg) by lia.
    reflexivity.
  - destruct (model_outputs m) as [i s]. cbn [tensor_id tensor_shape] in *.
    subst i s. f_equal. rewrite Hl.
    rewrite !length_app, Hlen. unfold head_nodes.
    rewrite !length_app, Hml. cbn [length stem_nodes]. lia.
  - destruct (run_experiment_spec cfg x_train y_train st Hep Hn)
      as (history & events & p_best & files' & _ & _ & _ & _ & _ & _ & _ & _
          & Hrun).
    eexists history, _, _. split; [apply Hrun|]. reflexivity.
Qed.

End TrainingFacts.

(** ** The statements at concrete inputs *)

Lemma position_offsets_same_for_all_inputs_witness :
  exists offsets projected1 projected2 encoded1 encoded2,
    positional_offsets example_encoder = Some offsets /\
    Dense_call 0 Nat.add Nat.mul (projection example_encoder) example_patches_a
      = Some projected1 /\
    Dense_call 0 Nat.add Nat.mul (projection example_encoder) example_patches_b
      = Some projected2 /\
    PatchEncoder_call 0 Nat.add Nat.mul example_encoder example_patches_a
      = Some encoded1 /\
    PatchEncoder_call 0 Nat.add Nat.mul example_encoder example_patches_b
      = Some encoded2 /\
    forall i j, i < 2 -> j < 2 ->
      get2 0 offsets i j = get2 0 (position_embedding example_encoder) i j /\
      (forall b, b < 2 ->
         get3 0 encoded1 b i j
           = get3 0 projected1 b i j + get2 0 offsets i j) /\
      (forall b, b < 1 ->
         get3 0 encoded2 b i j
           = get3 0 projected2 b i j + get2 0 offsets i j).
Proof.
  apply (position_offsets_same_for_all_inputs nat 0 Nat.add Nat.mul
           example_encoder example_patches_a example_patches_b 2 1 2 2 3);
    [repeat split | reflexivity | reflexivity].
Defined.

Lemma every_block_is_prenorm_witness :
  exists m,
    create_vit_classifier script_config 1 = Some m /\
    firstn 9 (skipn 67 (model_layers m))
      = [ {| node_layer := LayerNormalization (1 # 1000000);
             node_inputs := [66] |};
          {| node_layer := MultiHeadAttention 4 64 (1 # 10);
             node_inputs := [67; 67] |};
          {| node_layer := Add; node_inputs := [68; 66] |};
          {| node_layer := LayerNormalization (1 # 1000000);
             node_inputs := [69] |};
          {| node_layer := Dense 128 (Some gelu); node_inputs := [70] |};
          {| node_layer := Dropout (1 # 10); node_inputs := [71] |};
          {| node_layer := Dense 64 (Some gelu); node_inputs := [72] |};
          {| node_layer := Dropout (1 # 10); node_inputs := [73] |};
          {| node_layer := Add; node_inputs := [74; 69] |} ].
Proof.
  destruct (create_vit_classifier script_config 1) as [m|] eqn:E.
  - exists m. split; [reflexivity|].
    apply (every_block_is_prenorm script_config 1 m 7 E). cbn. lia.
  - vm_compute in E. discriminate.
Defined.

Lemma transformer_blocks_preserve_shape_witness :
  (exists y g',
     transformer_block script_config
       {| tensor_id := 3; tensor_shape := [2; 64; 64] |} [] = Some (y, g') /\
     tensor_shape y = [2; 64; 64]) /\
  (forall k, exists y g',
     transformer_stack script_config k
       {| tensor_id := 3; tensor_shape := [2; 64; 64] |} [] = Some (y, g') /\
     tensor_shape y = [2; 64; 64]).
Proof.
  apply (transformer_blocks_preserve_shape script_config
           {| tensor_id := 3; tensor_shape := [2; 64; 64] |} [] 2 64).
  reflexivity.
Defined.

Lemma script_classifier_output_shape_witness :
  image_size script_config = 32 /\
  patch_size script_config = 4 /\
  num_patches script_config = 64 /\
  exists m,
    create_vit_classifier script_config 5 = Some m /\
    tensor_shape (model_inputs m) = [5; 32; 32; 3] /\
    tensor_shape (model_outputs m) = [5; num_classes script_config] /\
    num_classes script_config = 100.
Proof.
  apply (script_classifier_output_shape 5). lia.
Defined.

Lemma transformer_units_end_in_projection_dims_witness :
  transformer_units script_config = [64 * 2; 64] /\
  last (transformer_units script_config) 0 = 64 /\
  (exists y g',
     mlp {| tensor_id := 7; tensor_shape := [2; 64; 64] |}
         (transformer_units script_config) (1 # 10) [] = Some (y, g') /\
     tensor_shape y = [2; 64; 64] /\
     compute_output_shape Add [tensor_shape y; [2; 64; 64]]
       = Some [2; 64; 64]) /\
  (exists a,
     compute_output_shape (MultiHeadAttention 4 64 (1 # 10))
       [[2; 64; 64]; [2; 64; 64]] = Some a /\
     compute_output_shape Add [a; [2; 64; 64]] = Some [2; 64; 64]).
Proof.
  apply (transformer_units_end_in_projection_dims script_config
           {| tensor_id := 7; tensor_shape := [2; 64; 64] |} [] 2 64).
  reflexivity.
Defined.


Lemma head_produces_logits_for_from_logits_loss_witness :
  exists m,
    create_vit_classifier script_config 1 = Some m /\
    skipn 76 (model_layers m)
      = [ {| node_layer := LayerNormalization (1 # 1000000);
             node_inputs := [75] |};
          {| node_layer := Flatten; node_inputs := [76] |};
          {| node_layer := Dropout (1 # 2); node_inputs := [77] |};
          {| node_layer := Dense 2048 (Some gelu); node_inputs := [78] |};
          {| node_layer := Dropout (1 # 2); node_inputs := [79] |};
          {| node_layer := Dense 1024 (Some gelu); node_inputs := [80] |};
          {| node_layer := Dropout (1 # 2); node_inputs := [81] |};
          {| node_layer := Dense 100 None; node_inputs := [82] |} ] /\
    model_outputs m
      = {| tensor_id := length (model_layers m) - 1;
           tensor_shape := [1; 100] |} /\
    (exists history st' rest,
       run_experiment example_train_epoch example_measure script_config
                      (seq 0 20) (seq 0 20) [100; 101] [1; 2] example_state
         = Some (history, st') /\
       trace st'
         = trace example_state ++
           EvCompile nat nat (script_compile_args script_config) :: rest) /\
    compile_loss (script_compile_args script_config)
      = SparseCategoricalCrossentropy true.
Proof.
  destruct (create_vit_classifier script_config 1) as [m|] eqn:E.
  - exists m. split; [reflexivity|].
    apply (head_produces_logits_for_from_logits_loss nat nat nat
             example_train_epoch example_measure script_config 1 m
             (seq 0 20) (seq 0 20) [100; 101] [1; 2] example_state E);
      [cbn; lia | cbn; lia].
  - vm_compute in E. discriminate.
Defined.

(** * Further properties of the script *)

(** ** What the patches contain *)

Lemma block_index_lt (m len q r : nat) :
  q < m -> r < len -> q * len + r < m * len.
Proof. intros Hq Hr. nia. Qed.

(** In a concatenation of [m] blocks of one length, position [q * len + r]
    is position [r] of block [q]. *)
Lemma nth_flat_map_blocks {U : Type} (f : nat -> list U) (m len q r : nat)
    (d : U) :
  (forall x, x < m -> length (f x) = len) ->
  q < m -> r < len ->
  nth (q * len + r) (flat_map f (seq 0 m)) d = nth r (f q) d.
Proof.
  induction m as [|m IH]; intros Hlen Hq Hr; [lia|].
  rewrite seq_S, flat_map_app. cbn [flat_map Nat.add]. rewrite app_nil_r.
  assert (Hl : length (flat_map f (seq 0 m)) = m * len).
  { rewrite (length_flat_map_const f (seq 0 m) len), length_seq; [reflexivity|].
    intros x Hx. apply in_seq in Hx. apply Hlen. lia. }
  destruct (Nat.eq_dec q m) as [->|Hne].
  - rewrite app_nth2 by lia. rewrite Hl. f_equal. lia.
  - rewrite app_nth1 by (rewrite Hl; apply block_index_lt; lia).
    apply IH; [|lia|exact Hr]. intros x Hx. apply Hlen. lia.
Qed.

Lemma nth_slice {U : Type} (off len r : nat) (l : list U) (d : U) :
  r < len -> nth r (slice off len l) d = nth (off + r) l d.
Proof.
  intros Hr. unfold slice. rewrite nth_firstn.
  destruct (Nat.ltb_spec r len) as [_|H]; [|lia].
  apply nth_skipn.
Qed.

Section PatchContent.

Variable A : Type.
Variable zero : A.

(** Entry [(n, i, j, di, dj, ch)] of the windows tensor is the image scalar
    at row [i * sr + di], column [j * sc + dj], channel [ch] of image [n]. *)
Lemma extract_patches_entry (images t : Tensor A)
    (b h w c kr kc sr sc oh ow : nat) :
  shape images = [b; h; w; c] ->
  wf_tensor images ->
  valid_output_size h kr sr = Some oh ->
  valid_output_size w kc sc = Some ow ->
  extract_patches images [1; kr; kc; 1] [1; sr; sc; 1] [1; 1; 1; 1] VALID
    = Some t ->
  forall n i j di dj ch,
    n < b -> i < oh -> j < ow -> di < kr -> dj < kc -> ch < c ->
    get zero t (((((n * oh + i) * ow + j) * kr + di) * kc + dj) * c + ch)
      = get zero images (((n * h + (i * sr + di)) * w + (j * sc + dj)) * c + ch).
Proof.
  intros Es Hwf Eh Ew Ht n i j di dj ch Hn Hi Hj Hdi Hdj Hch.
  unfold extract_patches in Ht. rewrite Es, Eh, Ew in Ht.
  cbn [obind] in Ht. injection Ht as <-. unfold get. cbn [data].
  set (px := fun n i j di dj =>
               slice (((n * h + (i * sr + di)) * w + (j * sc + dj)) * c) c
                     (data images)).
  assert (Lpx : forall n i j di dj,
             n < b -> i < oh -> j < ow -> di < kr -> dj < kc ->
             length (px n i j di dj) = c).
  { intros n0 i0 j0 di0 dj0 H1 H2 H3 H4 H5. unfold px.
    apply slice_length. unfold wf_tensor in Hwf. rewrite Hwf, Es.
    cbn [numel fold_right]. apply offset_in_buffer; [exact H1| |].
    - apply (valid_window_inside h kr sr oh i0 di0 Eh); assumption.
    - apply (valid_window_inside w kc sc ow j0 dj0 Ew); assumption. }
  set (f4 := fun n i j di => flat_map (px n i j di) (seq 0 kc)).
  set (f3 := fun n i j => flat_map (f4 n i j) (seq 0 kr)).
  set (f2 := fun n i => flat_map (f3 n i) (seq 0 ow)).
  set (f1 := fun n => flat_map (f2 n) (seq 0 oh)).
  assert (L4 : forall n i j di, n < b -> i < oh -> j < ow -> di < kr ->
             length (f4 n i j di) = kc * c).
  { intros. unfold f4.
    rewrite (length_flat_map_const _ _ c), length_seq; [reflexivity|].
    intros x Hx. apply in_seq in Hx. apply Lpx; lia. }
  assert (L3 : forall n i j, n < b -> i < oh -> j < ow ->
             length (f3 n i j) = kr * (kc * c)).
  { intros. unfold f3.
    rewrite (length_flat_map_const _ _ (kc * c)), length_seq; [reflexivity|].
    intros x Hx. apply in_seq in Hx. apply L4; lia. }
  assert (L2 : forall n i, n < b -> i < oh ->
             length (f2 n i) = ow * (kr * (kc * c))).
  { intros. unfold f2.
    rewrite (length_flat_map_const _ _ (kr * (kc * c))), length_seq;
      [reflexivity|].
    intros x Hx. apply in_seq in Hx. apply L3; lia. }
  assert (L1 : forall n, n < b -> length (f1 n) = oh * (ow * (kr * (kc * c)))).
  { intros. unfold f1.
    rewrite (length_flat_map_const _ _ (ow * (kr * (kc * c)))), length_seq;
      [reflexivity|].
    intros x Hx. apply in_seq in Hx. apply L2; lia. }
  change (flat_map _ (seq 0 b)) with (flat_map f1 (seq 0 b)).
  replace (((((n * oh + i) * ow + j) * kr + di) * kc + dj) * c + ch)
    with (n * (oh * (ow * (kr * (kc * c)))) +
          (i * (ow * (kr * (kc * c))) +
           (j * (kr * (kc * c)) + (di * (kc * c) + (dj * c + ch)))))
    by ring.
  assert (B5 : dj * c + ch < kc * c) by (apply block_index_lt; assumption).
  assert (B4 : di * (kc * c) + (dj * c + ch) < kr * (kc * c))
    by (apply block_index_lt; assumption).
  assert (B3 : j * (kr * (kc * c)) + (di * (kc * c) + (dj * c + ch))
               < ow * (kr * (kc * c)))
    by (apply block_index_lt; assumption).
  assert (B2 : i * (ow * (kr * (kc * c))) +
               (j * (kr * (kc * c)) + (di * (kc * c) + (dj * c + ch)))
               < oh * (ow * (kr * (kc * c))))
    by (apply block_index_lt; assumption).
  rewrite (nth_flat_map_blocks f1 b _ n _ zero L1 Hn B2). unfold f1.
  rewrite (nth_flat_map_blocks (f2 n) oh _ i _ zero
             (fun x Hx => L2 n x Hn Hx) Hi B3). unfold f2.
  rewrite (nth_flat_map_blocks (f3 n i) ow _ j _ zero
             (fun x Hx => L3 n i x Hn Hi Hx) Hj B4). unfold f3.
  rewrite (nth_flat_map_blocks (f4 n i j) kr _ di _ zero
             (fun x Hx => L4 n i j x Hn Hi Hj Hx) Hdi B5). unfold f4.
  rewrite (nth_flat_map_blocks (px n i j di) kc c dj ch zero
             (fun x Hx => Lpx n i j di x Hn Hi Hj Hdi Hx) Hdj Hch).
  unfold px. apply nth_slice. exact Hch.
Qed.

(** The entries of the patches, read off the windows tensor. *)
Lemma Patches_call_tile_entry (p bt h w c : nat)
    (images patches : Tensor A) :
  0 < p -> 0 < bt -> 0 < c ->
  shape images = [bt; h; w; c] ->
  wf_tensor images ->
  Patches_call p images = Some patches ->
  forall b i j di dj ch,
    b < bt -> i < h / p -> j < w / p -> di < p -> dj < p -> ch < c ->
    get3 zero patches b (i * (w / p) + j) ((di * p + dj) * c + ch)
      = get4 zero images b (i * p + di) (j * p + dj) ch.
Proof.
  intros Hp Hb Hc Es Hwf Hcall b i j di dj ch Hb' Hi Hj Hdi Hdj Hch.
  destruct (Patches_call_shape A p bt h w c images Hp Hb Hc Es)
    as (patches' & Hcall' & Hs & Hex).
  rewrite Hcall in Hcall'. injection Hcall' as <-.
  unfold get3, get4. rewrite Hs, Es.
  pose proof (extract_patches_entry images _ bt h w c p p p p (h / p) (w / p)
                Es Hwf (valid_output_size_same h p Hp)
                (valid_output_size_same w p Hp) Hex
                b i j di dj ch Hb' Hi Hj Hdi Hdj Hch) as H.
  unfold get in *. cbn [data] in H. rewrite <- H. f_equal. ring.
Qed.

(** C1, as the code has it.  When [P] does not divide [S] nothing is
    raised: [Patches.call] returns the [(S / P)^2] patches that fit, of
    [P^2 * C] scalars each, and the configured [num_patches] is that same
    rounded-down count.  The patches are cut from the first
    [(S / P) * P = S - S mod P] rows and columns of every image: scalar [o]
    of patch [k] is the image scalar at row
    [(k / (S / P)) * P + (o / C) / P], column
    [(k mod (S / P)) * P + (o / C) mod P], channel [o mod C], both below
    [S - S mod P]; every scalar of those rows and columns is in a patch; and
    the trailing [S mod P] rows and columns are in none, so the patches hold
    fewer scalars than the images do. *)
Theorem Patches_call_rounds_down (cfg : hyperparameters) (P S C B : nat)
    (images : Tensor A) :
  0 < P -> 0 < B -> 0 < C ->
  S mod P <> 0 ->
  input_shape cfg = [S; S; C] -> patch_size cfg = P ->
  shape images = [B; S; S; C] ->
  wf_tensor images ->
  exists patches,
    Patches_call P images = Some patches /\
    shape patches = [B; num_patches cfg; P ^ 2 * C] /\
    num_patches cfg = (S / P) ^ 2 /\
    wf_tensor patches /\
    length (data patches) < length (data images) /\
    (S / P) * P = S - S mod P /\
    (S / P) * P < S /\
    (forall b k o,
        b < B -> k < (S / P) ^ 2 -> o < P ^ 2 * C ->
        (k / (S / P)) * P + (o / C) / P < (S / P) * P /\
        (k mod (S / P)) * P + (o / C) mod P < (S / P) * P /\
        get3 zero patches b k o
          = get4 zero images b
              ((k / (S / P)) * P + (o / C) / P)
              ((k mod (S / P)) * P + (o / C) mod P)
              (o mod C)) /\
    (forall b r col ch,
        b < B -> r < (S / P) * P -> col < (S / P) * P -> ch < C ->
        get4 zero images b r col ch
          = get3 zero patches b ((r / P) * (S / P) + col / P)
                 (((r mod P) * P + col mod P) * C + ch)).
Proof.
  intros HP HB HC Hdiv Hin Hps Es Hwf.
  destruct (Patches_call_shape A P B S S C images HP HB HC Es)
    as (patches & Hcall & Hshape & _).
  pose proof (Patches_call_wf A P images patches Hwf Hcall) as Hwf'.
  pose proof (Patches_call_tile_entry P B S S C images patches HP HB HC Es Hwf
                Hcall) as Hentry.
  assert (Hn : num_patches cfg = (S / P) ^ 2).
  { unfold num_patches, image_size. rewrite Hin, Hps. reflexivity. }
  assert (Hs : shape patches = [B; (S / P) ^ 2; P ^ 2 * C]).
  { rewrite Hshape. cbn [Nat.pow]. rewrite !Nat.mul_1_r. reflexivity. }
  pose proof (Nat.div_mod_eq S P) as Hdm.
  exists patches. rewrite Hn.
  split; [exact Hcall|]. split; [exact Hs|]. split; [reflexivity|].
  split; [exact Hwf'|]. split.
  { unfold wf_tensor in *. rewrite Hwf', Hwf, Hs, Es.
    cbn [numel fold_right Nat.pow].
    set (q := S / P) in *. set (r := S mod P) in *.
    assert (Hlt : P * q < S) by lia.
    assert (Hsq : (P * q) * (P * q) < S * S) by nia.
    replace (B * (q * (q * 1) * (P * (P * 1) * C * 1)))
      with (B * C * (P * q * (P * q))) by lia.
    replace (B * (S * (S * (C * 1)))) with (B * C * (S * S)) by lia.
    apply Nat.mul_lt_mono_pos_l; [nia|exact Hsq]. }
  split; [lia|]. split; [lia|]. split.
  - intros b k o Hb Hk Ho.
    set (q := S / P) in *.
    assert (Hq : 0 < q).
    { destruct q; [cbn in Hk; lia | lia]. }
    assert (Hi : k / q < q).
    { apply Nat.Div0.div_lt_upper_bound. cbn [Nat.pow] in Hk. lia. }
    assert (Hj : k mod q < q) by (apply Nat.mod_upper_bound; lia).
    assert (Ht : o / C < P * P).
    { apply Nat.Div0.div_lt_upper_bound. cbn [Nat.pow] in Ho. lia. }
    assert (Hch : o mod C < C) by (apply Nat.mod_upper_bound; lia).
    assert (Hdi : (o / C) / P < P).
    { apply Nat.Div0.div_lt_upper_bound. exact Ht. }
    assert (Hdj : (o / C) mod P < P) by (apply Nat.mod_upper_bound; lia).
    split; [nia|]. split; [nia|].
    rewrite <- (Hentry b (k / q) (k mod q) ((o / C) / P) ((o / C) mod P)
                  (o mod C) Hb Hi Hj Hdi Hdj Hch).
    f_equal.
    + rewrite (Nat.div_mod_eq k q) at 1. lia.
    + rewrite (Nat.div_mod_eq o C) at 1.
      rewrite (Nat.div_mod_eq (o / C) P) at 1. lia.
  - intros b r col ch Hb Hr Hcol Hch.
    assert (Hi : r / P < S / P).
    { apply Nat.Div0.div_lt_upper_bound. lia. }
    assert (Hj : col / P < S / P).
    { apply Nat.Div0.div_lt_upper_bound. lia. }
    assert (Hdi : r mod P < P) by (apply Nat.mod_upper_bound; lia).
    assert (Hdj : col mod P < P) by (apply Nat.mod_upper_bound; lia).
    rewrite (Hentry b (r / P) (col / P) (r mod P) (col mod P) ch
               Hb Hi Hj Hdi Hdj Hch).
    f_equal.
    + rewrite (Nat.div_mod_eq r P) at 1. lia.
    + rewrite (Nat.div_mod_eq col P) at 1. lia.
Qed.

(** X1.  Patch [i * (w / p) + j] of image [b] is the tile of that image
    whose top-left corner is at row [i * p], column [j * p]: its entry
    [(di * p + dj) * c + ch] is the image scalar at row [i * p + di], column
    [j * p + dj], channel [ch]. *)
Theorem Patches_call_entry_is_tile_pixel (p bt h w c : nat)
    (images patches : Tensor A) :
  0 < p -> 0 < bt -> 0 < c ->
  shape images = [bt; h; w; c] ->
  wf_tensor images ->
  Patches_call p images = Some patches ->
  forall b i j di dj ch,
    b < bt -> i < h / p -> j < w / p -> di < p -> dj < p -> ch < c ->
    get3 zero patches b (i * (w / p) + j) ((di * p + dj) * c + ch)
      = get4 zero images b (i * p + di) (j * p + dj) ch.
Proof. exact (Patches_call_tile_entry p bt h w c images patches). Qed.

(** X2.  Conversely, every scalar of an image that lies in the part the
    patch grid covers (rows below [(h / p) * p], columns below
    [(w / p) * p]) is found in the patch of its tile, at its place in the
    tile. *)
Theorem Patches_call_covers_pixel (p bt h w c : nat)
    (images patches : Tensor A) :
  0 < p -> 0 < bt -> 0 < c ->
  shape images = [bt; h; w; c] ->
  wf_tensor images ->
  Patches_call p images = Some patches ->
  forall b r col ch,
    b < bt -> r < (h / p) * p -> col < (w / p) * p -> ch < c ->
    get4 zero images b r col ch
      = get3 zero patches b ((r / p) * (w / p) + col / p)
             (((r mod p) * p + col mod p) * c + ch).
Proof.
  intros Hp Hb Hc Es Hwf Hcall b r col ch Hb' Hr Hcol Hch.
  assert (Hi : r / p < h / p).
  { apply Nat.Div0.div_lt_upper_bound. lia. }
  assert (Hj : col / p < w / p).
  { apply Nat.Div0.div_lt_upper_bound. lia. }
  assert (Hdi : r mod p < p) by (apply Nat.mod_upper_bound; lia).
  assert (Hdj : col mod p < p) by (apply Nat.mod_upper_bound; lia).
  rewrite (Patches_call_tile_entry p bt h w c images patches Hp Hb Hc Es Hwf
             Hcall b (r / p) (col / p) (r mod p) (col mod p) ch
             Hb' Hi Hj Hdi Hdj Hch).
  f_equal.
  - rewrite (Nat.div_mod_eq r p) at 1. lia.
  - rewrite (Nat.div_mod_eq col p) at 1. lia.
Qed.

(** X3.  Images with fewer rows than the patch size are not an error: the
    result is an empty sequence of patches for every image. *)
Theorem Patches_call_image_smaller_than_patch (p bt h w c : nat)
    (images : Tensor A) :
  0 < bt -> 0 < c ->
  h < p ->
  shape images = [bt; h; w; c] ->
  Patches_call p images = Some (mkTensor [bt; 0; p * p * c] []).
Proof.
  intros Hb Hc Hh Es.
  assert (Hp : 0 < p) by lia.
  destruct (Patches_call_shape A p bt h w c images Hp Hb Hc Es)
    as (patches & Hcall & Hs & Hex).
  rewrite Hcall. f_equal. destruct patches as [s d]. cbn [shape data] in *.
  rewrite Hs, (Nat.div_small h p Hh). f_equal.
  unfold extract_patches in Hex. rewrite Es in Hex.
  rewrite !valid_output_size_same in Hex by exact Hp. cbn [obind] in Hex.
  injection Hex as Hd. rewrite <- Hd.
  rewrite (Nat.div_small h p Hh). cbn [seq flat_map].
  clear. induction (seq 0 bt) as [|x l IH]; [reflexivity|exact IH].
Qed.

End PatchContent.

Lemma Patches_call_rounds_down_witness :
  exists patches,
    Patches_call 4 (mkTensor [1; 30; 30; 3] (seq 0 2700)) = Some patches /\
    shape patches = [1; num_patches config_30; 4 ^ 2 * 3] /\
    num_patches config_30 = (30 / 4) ^ 2 /\
    wf_tensor patches /\
    length (data patches) < length (seq 0 2700) /\
    (30 / 4) * 4 = 30 - 30 mod 4 /\
    (30 / 4) * 4 < 30 /\
    (forall b k o,
        b < 1 -> k < (30 / 4) ^ 2 -> o < 4 ^ 2 * 3 ->
        (k / (30 / 4)) * 4 + (o / 3) / 4 < (30 / 4) * 4 /\
        (k mod (30 / 4)) * 4 + (o / 3) mod 4 < (30 / 4) * 4 /\
        get3 0 patches b k o
          = get4 0 (mkTensor [1; 30; 30; 3] (seq 0 2700)) b
              ((k / (30 / 4)) * 4 + (o / 3) / 4)
              ((k mod (30 / 4)) * 4 + (o / 3) mod 4)
              (o mod 3)) /\
    (forall b r col ch,
        b < 1 -> r < (30 / 4) * 4 -> col < (30 / 4) * 4 -> ch < 3 ->
        get4 0 (mkTensor [1; 30; 30; 3] (seq 0 2700)) b r col ch
          = get3 0 patches b ((r / 4) * (30 / 4) + col / 4)
                 (((r mod 4) * 4 + col mod 4) * 3 + ch)).
Proof.
  apply (Patches_call_rounds_down nat 0 config_30 4 30 3 1
           (mkTensor [1; 30; 30; 3] (seq 0 2700)));
    [lia | lia | lia | discriminate | reflexivity | reflexivity
    | reflexivity | reflexivity].
Defined.

(** ** What the patch encoder computes *)

Lemma broadcast_dim_one_l (n : nat) : broadcast_dim 1 n = Some n.
Proof.
  unfold broadcast_dim.
  destruct (Nat.eqb_spec 1 n) as [<-|_]; reflexivity.
Qed.

Lemma broadcast_dim_mismatch (a b : nat) :
  a <> b -> a <> 1 -> b <> 1 -> broadcast_dim a b = None.
Proof.
  intros Hab Ha Hb. unfold broadcast_dim.
  destruct (Nat.eqb_spec a b); [contradiction|].
  destruct (Nat.eqb_spec a 1); [contradiction|].
  destruct (Nat.eqb_spec b 1); [contradiction|].
  reflexivity.
Qed.

Section PatchEncoderMore.

Variable A : Type.
Variable zero : A.
Variable add mul : A -> A -> A.

(** The projection is computed patch by patch. *)
Lemma Dense_call_entry (w : DenseWeights A) (x y : Tensor A)
    (bt n din units : nat) :
  shape x = [bt; n; din] ->
  shape (kernel w) = [din; units] ->
  shape (bias w) = [units] ->
  Dense_call zero add mul w x = Some y ->
  forall b i j, b < bt -> i < n -> j < units ->
    get3 zero y b i j
      = add (dot zero add mul (patch_at x b i)
                 (kernel_column zero w din units j))
            (get zero (bias w) j).
Proof.
  intros Ex Ek Eb Hy b i j Hb Hi Hj.
  unfold Dense_call in Hy. rewrite Ex, Ek, Eb in Hy.
  cbn [rev app] in Hy. rewrite !Nat.eqb_refl in Hy. cbn [andb] in Hy.
  injection Hy as <-.
  unfold get3, patch_at. rewrite Ex. cbn [shape rev app].
  unfold get at 1. cbn [data numel fold_right].
  rewrite (nth_flat_map_blocks _ (n * (bt * 1)) units (b * n + i) j zero).
  - rewrite nth_map_seq by exact Hj. reflexivity.
  - intros r _. rewrite length_map, length_seq. reflexivity.
  - nia.
  - exact Hj.
Qed.

Lemma Embedding_call_all_rows (table : Tensor A) (n d : nat) :
  shape table = [n; d] ->
  wf_tensor table ->
  Embedding_call table (seq 0 n) = Some (mkTensor [n; d] (data table)).
Proof.
  intros Et Hwf. unfold Embedding_call.
  rewrite Et, forallb_seq_below, length_seq, flat_map_rows.
  unfold wf_tensor in Hwf. rewrite Et in Hwf. cbn [numel fold_right] in Hwf.
  rewrite firstn_all2 by lia. reflexivity.
Qed.

(** X4.  The encoding of a patch is its own projection plus the embedding of
    its position: entry [(b, i, j)] of the result is the dot product of patch
    [i] of image [b] with column [j] of the kernel, plus the bias, plus entry
    [(i, j)] of the embedding table.  So two inputs that hold the same patch
    at the same position are encoded alike there, whatever the other patches
    and the batch sizes are. *)
Theorem PatchEncoder_call_encodes_patch_by_patch (self : PatchEncoder A)
    (patch1 patch2 encoded1 encoded2 : Tensor A) (b1 b2 n d din : nat) :
  PatchEncoder_built self n d din ->
  shape patch1 = [b1; n; din] ->
  shape patch2 = [b2; n; din] ->
  PatchEncoder_call zero add mul self patch1 = Some encoded1 ->
  PatchEncoder_call zero add mul self patch2 = Some encoded2 ->
  (forall b i j, b < b1 -> i < n -> j < d ->
     get3 zero encoded1 b i j
       = add (add (dot zero add mul (patch_at patch1 b i)
                       (kernel_column zero (projection self) din d j))
                  (get zero (bias (projection self)) j))
             (get2 zero (position_embedding self) i j)) /\
  (forall b b' i j, b < b1 -> b' < b2 -> i < n -> j < d ->
     patch_at patch1 b i = patch_at patch2 b' i ->
     get3 zero encoded1 b i j = get3 zero encoded2 b' i j).
Proof.
  intros Hbuilt E1 E2 H1 H2.
  assert (Hform : forall patch encoded bt,
             shape patch = [bt; n; din] ->
             PatchEncoder_call zero add mul self patch = Some encoded ->
             forall b i j, b < bt -> i < n -> j < d ->
               get3 zero encoded b i j
                 = add (add (dot zero add mul (patch_at patch b i)
                                 (kernel_column zero (projection self) din d j))
                            (get zero (bias (projection self)) j))
                       (get2 zero (position_embedding self) i j)).
  { intros patch encoded bt Ep Hc b i j Hb Hi Hj.
    destruct (PatchEncoder_call_entries A zero add mul self patch bt n d din
                Hbuilt Ep) as (pr & en & Hpr & Hen & _ & _ & Hent).
    rewrite Hc in Hen. injection Hen as <-.
    rewrite (Hent b i j Hb Hi Hj). f_equal.
    destruct Hbuilt as (_ & Ek & Eb & _).
    apply (Dense_call_entry (projection self) patch pr bt n din d Ep Ek Eb Hpr);
      assumption. }
  split.
  - apply (Hform patch1 encoded1 b1 E1 H1).
  - intros b b' i j Hb Hb' Hi Hj Heq.
    rewrite (Hform patch1 encoded1 b1 E1 H1 b i j Hb Hi Hj).
    rewrite (Hform patch2 encoded2 b2 E2 H2 b' i j Hb' Hi Hj).
    rewrite Heq. reflexivity.
Qed.

(** X5.  An input with a number of patches other than [num_patches] is an
    error, unless one of the two numbers is 1. *)
Theorem PatchEncoder_call_wrong_patch_count (self : PatchEncoder A)
    (patch : Tensor A) (bt n' n d din : nat) :
  PatchEncoder_built self n d din ->
  shape patch = [bt; n'; din] ->
  n' <> n -> n' <> 1 -> n <> 1 ->
  PatchEncoder_call zero add mul self patch = None.
Proof.
  intros (Hn & Ek & Eb & Et & Hwf) Ep Hnn Hn1 H1.
  destruct (Dense_call_rank3 A zero add mul (projection self) patch bt n' din d
              Ep Ek Eb) as (y & Hy & Hs).
  unfold PatchEncoder_call.
  rewrite Hn, tf_range_from_zero. cbn [obind]. rewrite Hy. cbn [obind].
  rewrite (Embedding_call_all_rows _ n d Et Hwf). cbn [obind].
  unfold tf_add, broadcast_shape. rewrite Hs. cbn [shape rev app broadcast_rev].
  rewrite broadcast_dim_same, (broadcast_dim_mismatch n' n Hnn Hn1 H1).
  reflexivity.
Qed.

(** X6.  An input with a single patch per image is not an error: the one
    projected patch is paired with every position, so the result has
    [num_patches] entries per image. *)
Theorem PatchEncoder_call_single_patch_is_broadcast (self : PatchEncoder A)
    (patch : Tensor A) (bt n d din : nat) :
  PatchEncoder_built self n d din ->
  shape patch = [bt; 1; din] ->
  exists projected encoded,
    Dense_call zero add mul (projection self) patch = Some projected /\
    PatchEncoder_call zero add mul self patch = Some encoded /\
    shape encoded = [bt; n; d] /\
    forall b i j, b < bt -> i < n -> j < d ->
      get3 zero encoded b i j
        = add (get3 zero projected b 0 j)
              (get2 zero (position_embedding self) i j).
Proof.
  intros (Hn & Ek & Eb & Et & Hwf) Ep.
  destruct (Dense_call_rank3 A zero add mul (projection self) patch bt 1 din d
              Ep Ek Eb) as (y & Hy & Hs).
  exists y. unfold PatchEncoder_call.
  rewrite Hn, tf_range_from_zero. cbn [obind]. rewrite Hy. cbn [obind].
  rewrite (Embedding_call_all_rows _ n d Et Hwf). cbn [obind].
  unfold tf_add, broadcast_shape. rewrite Hs. cbn [shape rev app broadcast_rev].
  rewrite broadcast_dim_same, broadcast_dim_one_l. cbn [obind option_map rev app].
  eexists. split; [reflexivity|]. split; [reflexivity|]. split; [reflexivity|].
  intros b i j Hb Hi Hj.
  unfold get3, get2. cbn [shape]. rewrite Hs, Et.
  unfold get at 1. cbn [data].
  rewrite nth_map_seq.
  - unfold source_index. cbn [rev app source_index_rev Nat.eqb].
    rewrite !axis_index.
    destruct (unravel3 n d b i j Hi Hj) as (E1 & E2 & E3 & E4).
    rewrite E1, E2, E3, E4, (Nat.mod_small b bt) by exact Hb.
    f_equal; unfold get; f_equal; lia.
  - cbn [numel fold_right].
    assert (b * n + i + 1 <= bt * n) by nia. nia.
Qed.

End PatchEncoderMore.

(** ** The layers [mlp] adds *)

Lemma expected_mlp_layers (rate : Q) (units : list nat) :
  forall input first,
    map node_layer (expected_mlp_nodes input first units rate)
      = flat_map (fun u => [Dense u (Some gelu); Dropout rate]) units.
Proof.
  induction units as [|u rest IH]; intros input first.
  - reflexivity.
  - cbn [expected_mlp_nodes map flat_map app node_layer].
    rewrite IH. reflexivity.
Qed.

Lemma expected_mlp_inputs (rate : Q) (units : list nat) :
  forall input first k nd,
    nth_error (expected_mlp_nodes input first units rate) k = Some nd ->
    node_inputs nd = [match k with O => input | S k' => first + k' end].
Proof.
  induction units as [|u rest IH]; intros input first k nd H.
  - destruct k; discriminate.
  - cbn [expected_mlp_nodes] in H.
    destruct k as [|[|k]]; cbn [nth_error] in H.
    + injection H as <-. reflexivity.
    + injection H as <-. cbn [node_inputs]. f_equal. lia.
    + apply IH in H. rewrite H. f_equal. destruct k; lia.
Qed.

Lemma expected_mlp_length (rate : Q) (units : list nat) :
  forall input first,
    length (expected_mlp_nodes input first units rate) = 2 * length units.
Proof.
  induction units as [|u rest IH]; intros input first;
    cbn [expected_mlp_nodes length].
  - reflexivity.
  - rewrite IH. lia.
Qed.

(** X7.  On a tensor of rank at least 2, [mlp] succeeds for every list of
    hidden units.  It adds one [Dense] layer with GELU followed by one
    [Dropout] of the given rate per unit count, in the order of the list,
    wired as a chain that starts at the input; the result keeps the leading
    axes of the input and has the last unit count as its last extent.  With
    an empty list nothing is added and the input is returned. *)
Theorem mlp_builds_dense_dropout_chain (units : list nat) (rate : Q)
    (lead : list nat) (d : nat) (x : KerasTensor) (g : graph) :
  lead <> [] ->
  tensor_shape x = lead ++ [d] ->
  exists y added,
    mlp x units rate g = Some (y, g ++ added) /\
    map node_layer added
      = flat_map (fun u => [Dense u (Some gelu); Dropout rate]) units /\
    (forall k nd, nth_error added k = Some nd ->
       node_inputs nd
         = [match k with O => tensor_id x | S k' => length g + k' end]) /\
    tensor_shape y = lead ++ [last units d] /\
    tensor_id y = match units with
                  | [] => tensor_id x
                  | _ :: _ => length g + length added - 1
                  end /\
    (units = [] -> y = x /\ added = []).
Proof.
  intros Hlead Hx.
  destruct (mlp_shape units rate lead Hlead d x g Hx) as (y & g' & Hm & Hy).
  destruct (mlp_inv units rate x y g g' Hm) as (Hg & Hid).
  exists y, (expected_mlp_nodes (tensor_id x) (length g) units rate).
  rewrite <- Hg. split; [exact Hm|].
  split; [apply expected_mlp_layers|].
  split; [apply expected_mlp_inputs|].
  split; [exact Hy|]. split.
  - rewrite Hid, expected_mlp_length. unfold expected_mlp_output.
    destruct units; cbn [length]; lia.
  - intros ->. cbn in Hm. injection Hm as <- _. split; reflexivity.
Qed.

(** ** The graph of the classifier *)

Lemma reads_back_app (base : nat) (a b : list node) :
  reads_back base a ->
  reads_back (base + length a) b ->
  reads_back base (a ++ b).
Proof.
  intros Ha Hb k nd H.
  destruct (Nat.lt_ge_cases k (length a)) as [Hk|Hk].
  - rewrite nth_error_app1 in H by exact Hk. apply Ha. exact H.
  - rewrite nth_error_app2 in H by exact Hk.
    destruct (Hb _ _ H) as (Hne & Hall). split; [exact Hne|].
    replace (base + k) with (base + length a + (k - length a)) by lia.
    exact Hall.
Qed.

Lemma reads_back_block (cfg : hyperparameters) (input first : nat) :
  input < first ->
  reads_back first (prenorm_block_nodes cfg input first).
Proof.
  intros Hin k nd H. unfold prenorm_block_nodes in H.
  do 9 (destruct k as [|k];
        [cbn [nth_error] in H; injection H as <-; cbn [node_inputs];
         split; [discriminate|repeat constructor; lia]|]).
  destruct k; discriminate.
Qed.

Lemma reads_back_stack (cfg : hyperparameters) (n : nat) :
  forall input first,
    input < first ->
    reads_back first (prenorm_stack_nodes cfg n input first).
Proof.
  induction n as [|n IH]; intros input first Hin.
  - intros k nd H. destruct k; discriminate.
  - cbn [prenorm_stack_nodes]. apply reads_back_app.
    + apply reads_back_block. exact Hin.
    + cbn [prenorm_block_nodes length]. apply IH. lia.
Qed.

Lemma reads_back_mlp (rate : Q) (units : list nat) :
  forall input first,
    input < first ->
    reads_back first (expected_mlp_nodes input first units rate).
Proof.
  induction units as [|u rest IH]; intros input first Hin.
  - intros k nd H. destruct k; discriminate.
  - cbn [expected_mlp_nodes].
    change (?a :: ?b :: ?l) with ([a; b] ++ l).
    apply reads_back_app.
    + intros k nd H.
      destruct k as [|[|k]]; cbn [nth_error] in H;
        [injection H as <-|injection H as <-|destruct k; discriminate];
        cbn [node_inputs]; (split; [discriminate|repeat constructor; lia]).
    + cbn [length]. apply IH. lia.
Qed.

Lemma reads_back_head (cfg : hyperparameters) (input first : nat) :
  input < first ->
  reads_back first (head_nodes cfg input first).
Proof.
  intros Hin. unfold head_nodes.
  apply reads_back_app; [|apply reads_back_app].
  - intros k nd H.
    do 3 (destruct k as [|k];
          [cbn [nth_error] in H; injection H as <-; cbn [node_inputs];
           split; [discriminate|repeat constructor; lia]|]).
    destruct k; discriminate.
  - cbn [length]. apply reads_back_mlp. lia.
  - rewrite expected_mlp_length. cbn [length].
    intros k nd H. destruct k as [|k]; [|destruct k; discriminate].
    cbn [nth_error] in H. injection H as <-. cbn [node_inputs].
    split; [discriminate|]. repeat constructor.
    unfold expected_mlp_output. destruct (mlp_head_units cfg); cbn [length]; lia.
Qed.

Lemma prenorm_stack_length (cfg : hyperparameters) (n : nat) :
  forall input first, length (prenorm_stack_nodes cfg n input first) = 9 * n.
Proof.
  induction n as [|n IH]; intros input first; cbn [prenorm_stack_nodes].
  - reflexivity.
  - rewrite length_app, IH. cbn [prenorm_block_nodes length]. lia.
Qed.

(** X8.  The graph of a classifier that could be built is in creation
    order: every layer reads only from layers created before it, the input
    layer at position 0 is the only one without inputs, the model's output is
    the layer created last, and there are
    [8 + 9 * transfomer_layers + 2 * len(mlp_head_units)] layers in all. *)
Theorem create_vit_classifier_graph_in_creation_order
    (cfg : hyperparameters) (batch : nat) (m : Model) :
  create_vit_classifier cfg batch = Some m ->
  topological (model_layers m) /\
  (forall i nd, nth_error (model_layers m) i = Some nd ->
                (node_inputs nd = [] <-> i = 0)) /\
  length (model_layers m)
    = 8 + 9 * transfomer_layers cfg + 2 * length (mlp_head_units cfg) /\
  tensor_id (model_outputs m) = length (model_layers m) - 1.
Proof.
  intros Hm.
  destruct (create_vit_classifier_inv cfg batch m Hm) as (Hl & _ & Hid & _).
  assert (Hlen : length (model_layers m)
                 = 8 + 9 * transfomer_layers cfg
                   + 2 * length (mlp_head_units cfg)).
  { rewrite Hl, !length_app, prenorm_stack_length. unfold head_nodes.
    rewrite !length_app, expected_mlp_length. cbn [length stem_nodes]. lia. }
  assert (Hrest : reads_back 4
                    (prenorm_stack_nodes cfg (transfomer_layers cfg) 3 4 ++
                     head_nodes cfg (3 + 9 * transfomer_layers cfg)
                                    (4 + 9 * transfomer_layers cfg))).
  { apply reads_back_app.
    - apply reads_back_stack. lia.
    - rewrite prenorm_stack_length. apply reads_back_head. lia. }
  assert (Hall : forall i nd, nth_error (model_layers m) i = Some nd ->
             Forall (fun j => j < i) (node_inputs nd) /\
             (node_inputs nd = [] <-> i = 0)).
  { intros i nd H. rewrite Hl in H.
    destruct (Nat.lt_ge_cases i 4) as [Hi|Hi].
    - rewrite nth_error_app1 in H by exact Hi. unfold stem_nodes in H.
      do 4 (destruct i as [|i];
            [cbn [nth_error] in H; injection H as <-; cbn [node_inputs];
             split; [repeat constructor; lia|split; [try discriminate; auto|
                                                      try discriminate; auto]]|]).
      lia.
    - rewrite nth_error_app2 in H by exact Hi. cbn [stem_nodes length] in H.
      destruct (Hrest _ _ H) as (Hne & Hf). split.
      + replace (4 + (i - 4)) with i in Hf by lia. exact Hf.
      + split; [intros E; contradiction|intros ->; lia]. }
  split; [intros i nd H; apply (Hall i nd H)|].
  split; [intros i nd H; apply (Hall i nd H)|].
  split; [exact Hlen|]. rewrite Hid, Hlen. lia.
Qed.

(** X9.  The number of patches is computed from the first extent of
    [input_shape] alone, so for images that are not square the encoder's
    position embedding has another number of rows than [Patches.call] cuts
    patches.  On a batch of such images the patches are cut without error,
    and [PatchEncoder.call] on them fails at the addition (unless one of the
    two counts is 1). *)
Theorem PatchEncoder_call_fails_on_patches_of_non_square_images
    (A : Type) (zero : A) (add mul : A -> A -> A)
    (cfg : hyperparameters) (self : PatchEncoder A) (images : Tensor A)
    (bt h w c : nat) :
  input_shape cfg = [h; w; c] ->
  0 < patch_size cfg -> 0 < c -> 0 < bt ->
  PatchEncoder_built self (num_patches cfg) (projection_dims cfg)
                     (patch_size cfg * patch_size cfg * c) ->
  shape images = [bt; h; w; c] ->
  (h / patch_size cfg) * (w / patch_size cfg) <> num_patches cfg ->
  (h / patch_size cfg) * (w / patch_size cfg) <> 1 ->
  num_patches cfg <> 1 ->
  exists patches,
    Patches_call (patch_size cfg) images = Some patches /\
    shape patches
      = [bt; (h / patch_size cfg) * (w / patch_size cfg);
         patch_size cfg * patch_size cfg * c] /\
    PatchEncoder_call zero add mul self patches = None.
Proof.
  intros Hin Hp Hc Hb (Hn & Ek & Eb & Et & Hwf) Es Hne H1 H2.
  destruct (Patches_call_shape A (patch_size cfg) bt h w c images Hp Hb Hc Es)
    as (patches & Hcall & Hs & _).
  exists patches. split; [exact Hcall|]. split; [exact Hs|].
  destruct (Dense_call_rank3 A zero add mul (projection self) patches bt
              ((h / patch_size cfg) * (w / patch_size cfg))
              (patch_size cfg * patch_size cfg * c) (projection_dims cfg)
              Hs Ek Eb) as (y & Hy & Hsy).
  unfold PatchEncoder_call.
  rewrite Hn, tf_range_from_zero. cbn [obind]. rewrite Hy. cbn [obind].
  rewrite (Embedding_call_all_rows A _ (num_patches cfg) (projection_dims cfg)
             Et Hwf).
  cbn [obind].
  unfold tf_add, broadcast_shape. rewrite Hsy.
  cbn [shape rev app broadcast_rev].
  rewrite broadcast_dim_same, (broadcast_dim_mismatch _ _ Hne H1 H2).
  reflexivity.
Qed.

(** ** The course of a training run *)

(** [running_best] is the value of the first epoch that reaches the maximum
    so far, and [last_save] is that epoch. *)
Lemma last_save_first_maximum (v : nat -> Q) (n : nat) :
  match last_save v n with
  | None => n = 0 /\ running_best v n = None
  | Some eb =>
      eb < n /\ running_best v n = Some (v eb) /\
      (forall e, e < n -> (v e <= v eb)%Q) /\
      (forall e, e < eb -> (v e < v eb)%Q)
  end.
Proof.
  induction n as [|n IH].
  - cbn. auto.
  - cbn [last_save running_best]. unfold saves_at.
    destruct (last_save v n) as [eb|].
    + destruct IH as (Hlt & Hrb & Hmax & Hfirst). rewrite Hrb.
      destruct (Qltb (v eb) (v n)) eqn:E.
      * apply Qltb_lt in E. split; [lia|]. split; [reflexivity|]. split.
        -- intros e He. destruct (Nat.eq_dec e n) as [->|Hne];
             [apply Qle_refl|].
           apply Qlt_le_weak, Qle_lt_trans with (v eb); [|exact E].
           apply Hmax. lia.
        -- intros e He. apply Qle_lt_trans with (v eb); [|exact E].
           apply Hmax. exact He.
      * apply Qltb_ge in E. split; [lia|]. split; [reflexivity|]. split.
        -- intros e He. destruct (Nat.eq_dec e n) as [->|Hne]; [exact E|].
           apply Hmax. lia.
        -- exact Hfirst.
    + destruct IH as (-> & Hrb). rewrite Hrb.
      split; [lia|]. split; [reflexivity|]. split.
      * intros e He. replace e with 0 by lia. apply Qle_refl.
      * intros e He. lia.
Qed.

(** An epoch saves exactly if it beats all earlier epochs. *)
Lemma saves_at_iff (v : nat -> Q) (e : nat) :
  saves_at v e = true <-> forall e', e' < e -> (v e' < v e)%Q.
Proof.
  unfold saves_at. pose proof (last_save_first_maximum v e) as H.
  destruct (last_save v e) as [eb|].
  - destruct H as (Hlt & Hrb & Hmax & _). rewrite Hrb, Qltb_lt. split.
    + intros Hb e' He'. apply Qle_lt_trans with (v eb); [|exact Hb].
      apply Hmax. exact He'.
    + intros Hall. apply Hall. exact Hlt.
  - destruct H as (-> & Hrb). rewrite Hrb. split; [|reflexivity].
    intros _ e' He'. lia.
Qed.

Section TrainingCourseFacts.

Variables X Y Params : Type.
Variable train_epoch :
  compile_args -> nat -> nat -> Params -> list X -> list Y ->
  Params * (option metric -> Q).
Variable measure :
  compile_args -> option metric -> Params -> list X -> list Y -> Q.

(** One epoch, with the logs spelled out. *)
Lemma run_epoch_logs (cfg : hyperparameters) (bs epoch : nat)
    (tx : list X) (ty : list Y) (vx : list X) (vy : list Y)
    (cb : ModelCheckpoint) (st : state X Y Params) :
  save_best_only cb = true ->
  monitor cb = "val_accuracy" ->
  let c := script_compile_args cfg in
  let p := fst (train_epoch c bs epoch (weights st) tx ty) in
  let v := measure c (Some (SparseCategoricalAccuracy "accuracy")) p vx vy in
  exists lg,
    map fst lg = epoch_keys /\
    logs_get lg "val_accuracy" = Some v /\
    run_epoch train_epoch measure c bs epoch (tx, ty) (Some (vx, vy)) [cb] st
    = Some ((lg, [updated_callback cb v]),
            {| weights := p;
               files := if improves cb v
                        then fun q => if String.eqb q (filepath cb)
                                      then Some p else files st q
                        else files st;
               trace := trace st ++
                        [EvTrain epoch tx ty; EvValidate epoch vx vy] ++
                        (if improves cb v
                         then [EvSave X Y epoch (filepath cb)] else []) |}).
Proof.
  intros Hsave Hmon c p v. subst p v.
  unfold run_epoch, bind. cbn [fst snd].
  destruct (train_epoch c bs epoch (weights st) tx ty) as [p running].
  cbn [fst weights files trace].
  eexists. split; [|split].
  3:{ cbn [callbacks_on_epoch_end].
      unfold on_epoch_end, bind, updated_callback.
      rewrite !Hsave, !Hmon.
      match goal with
      | |- context [logs_get ?l "val_accuracy"] =>
          change (logs_get l "val_accuracy")
            with (Some (measure c (Some (SparseCategoricalAccuracy "accuracy"))
                                p vx vy))
      end.
      cbv beta iota.
      destruct (improves cb _); cbn [save ret bind weights files trace];
        rewrite <- ?app_assoc; reflexivity. }
  - reflexivity.
  - reflexivity.
Qed.


(** The training loop of the script's run from epoch [epoch] on, when the
    callback and the checkpoint file are as [epoch] epochs of the same run
    leave them. *)
Lemma fit_loop_course (cfg : hyperparameters) (bs : nat)
    (tx : list X) (ty : list Y) (vx : list X) (vy : list Y)
    (path : String.string) (p0 : Params) (remaining : nat) :
  forall (epoch : nat) (cb : ModelCheckpoint) (history : list logs)
         (st : state X Y Params),
    save_best_only cb = true ->
    monitor cb = "val_accuracy" ->
    filepath cb = path ->
    weights st
      = weights_after train_epoch (script_compile_args cfg) bs tx ty p0 epoch ->
    length history = epoch ->
    best cb
      = running_best
          (val_accuracy_after train_epoch measure (script_compile_args cfg)
                              bs tx ty vx vy p0) epoch ->
    (forall e, e < epoch ->
       map fst (nth e history []) = epoch_keys /\
       val_accuracy_at history e
         = Some (val_accuracy_after train_epoch measure
                   (script_compile_args cfg) bs tx ty vx vy p0 e)) ->
    (forall eb,
       last_save (val_accuracy_after train_epoch measure
                    (script_compile_args cfg) bs tx ty vx vy p0) epoch
         = Some eb ->
       files st path
         = Some (weights_after train_epoch (script_compile_args cfg) bs tx ty
                               p0 (S eb))) ->
    exists history' st',
      fit_loop train_epoch measure (script_compile_args cfg) bs (tx, ty)
               (Some (vx, vy)) remaining epoch [cb] history st
        = Some (history', st') /\
      weights st'
        = weights_after train_epoch (script_compile_args cfg) bs tx ty p0
                        (epoch + remaining) /\
      trace st'
        = trace st ++
          flat_map (epoch_events path tx ty vx vy
                      (val_accuracy_after train_epoch measure
                         (script_compile_args cfg) bs tx ty vx vy p0))
                   (seq epoch remaining) /\
      length history' = epoch + remaining /\
      (forall e, e < epoch + remaining ->
         map fst (nth e history' []) = epoch_keys /\
         val_accuracy_at history' e
           = Some (val_accuracy_after train_epoch measure
                     (script_compile_args cfg) bs tx ty vx vy p0 e)) /\
      (forall eb,
         last_save (val_accuracy_after train_epoch measure
                      (script_compile_args cfg) bs tx ty vx vy p0)
                   (epoch + remaining) = Some eb ->
         files st' path
           = Some (weights_after train_epoch (script_compile_args cfg) bs tx
                                 ty p0 (S eb))) /\
      (forall q, q <> path -> files st' q = files st q).
Proof.
  set (c := script_compile_args cfg).
  set (W := weights_after train_epoch c bs tx ty p0).
  set (v := val_accuracy_after train_epoch measure c bs tx ty vx vy p0).
  induction remaining as [|r IH];
    intros epoch cb history st Hsave Hmon Hpath Hw Hlen Hbest Hhist Hfile.
  - exists history, st. cbn [fit_loop ret seq flat_map].
    rewrite app_nil_r, Nat.add_0_r. repeat split; auto; apply Hhist; assumption.
  - cbn [fit_loop]. unfold bind.
    destruct (run_epoch_logs cfg bs epoch tx ty vx vy cb st Hsave Hmon)
      as (lg & Hkeys & Hlg & Hrun).
    fold c in Hrun, Hlg. rewrite Hrun. cbn [fst snd]. clear Hrun.
    rewrite Hw in *.
    change (fst (train_epoch c bs epoch (W epoch) tx ty)) with (W (S epoch)) in *.
    change (measure c (Some (SparseCategoricalAccuracy "accuracy"))
                    (W (S epoch)) vx vy) with (v epoch) in *.
    assert (Himp : improves cb (v epoch) = saves_at v epoch).
    { unfold improves, saves_at. rewrite Hbest.
      destruct (running_best v epoch) as [b|]; [|reflexivity].
      apply monitor_op_val_accuracy. exact Hmon. }
    destruct (updated_callback_fields cb (v epoch)) as (Hs' & Hm' & Hp').
    assert (Hbest' : best (updated_callback cb (v epoch))
                     = running_best v (S epoch)).
    { unfold updated_callback. rewrite Himp. cbn [running_best].
      unfold saves_at. rewrite <- Hbest.
      destruct (best cb) as [b|] eqn:Eb.
      - destruct (Qltb b (v epoch)); [reflexivity|exact Eb].
      - reflexivity. }
    match goal with
    | |- context [fit_loop _ _ _ _ _ _ _ _ _ _ ?s1] => set (st1 := s1)
    end.
    assert (Hlen1 : length (history ++ [lg]) = S epoch).
    { rewrite length_app. cbn [length]. lia. }
    assert (Hhist1 : forall e, e < S epoch ->
               map fst (nth e (history ++ [lg]) []) = epoch_keys /\
               val_accuracy_at (history ++ [lg]) e = Some (v e)).
    { intros e He. destruct (Nat.eq_dec e epoch) as [->|Hne].
      - unfold val_accuracy_at. rewrite app_nth2 by lia.
        rewrite Hlen, Nat.sub_diag. cbn [nth].
        split; [exact Hkeys|exact Hlg].
      - rewrite val_accuracy_at_snoc_old, app_nth1 by lia.
        apply Hhist. lia. }
    assert (Hfile1 : forall eb, last_save v (S epoch) = Some eb ->
               files st1 path = Some (W (S eb))).
    { intros eb Heb. cbn [last_save] in Heb. subst st1. cbn [files].
      rewrite Himp. destruct (saves_at v epoch).
      - injection Heb as <-. rewrite Hpath, String.eqb_refl. reflexivity.
      - apply Hfile. exact Heb. }
    destruct (IH (S epoch) (updated_callback cb (v epoch)) (history ++ [lg])
                st1 (eq_trans Hs' Hsave) (eq_trans Hm' Hmon)
                (eq_trans Hp' Hpath) eq_refl Hlen1 Hbest' Hhist1 Hfile1)
      as (history' & st' & Hfit & Hw' & Htr & Hlen' & Hhist' & Hfile' & Hq).
    exists history', st'.
    replace (epoch + S r) with (S epoch + r) by lia.
    split; [exact Hfit|]. split; [exact Hw'|]. split.
    { rewrite Htr. subst st1. cbn [trace seq flat_map].
      unfold epoch_events at 2. rewrite Himp, Hpath, <- !app_assoc.
      reflexivity. }
    split; [exact Hlen'|]. split; [exact Hhist'|]. split; [exact Hfile'|].
    intros q Hne. rewrite (Hq q Hne). subst st1. cbn [files].
    destruct (improves cb (v epoch)); [|reflexivity].
    rewrite Hpath. destruct (String.eqb_spec q path); [contradiction|].
    reflexivity.
Qed.

(** What [run_experiment] does once [fit] has returned. *)
Lemma run_experiment_after_fit (cfg : hyperparameters)
    (x_train : list X) (y_train : list Y) (x_test : list X) (y_test : list Y)
    (st : state X Y Params) (r : option (list logs * state X Y Params)) :
  let c := script_compile_args cfg in
  fit train_epoch measure c x_train y_train (batch_size cfg) (num_epochs cfg)
      (15 # 100)
      [{| filepath := "/tmp/checkpoint"; monitor := "val_accuracy";
          save_best_only := true; best := None |}]
      {| weights := weights st; files := files st;
         trace := trace st ++ [EvCompile X Y c] |} = r ->
  run_experiment train_epoch measure cfg x_train y_train x_test y_test st
  = match r with
    | None => None
    | Some (history, st_fit) =>
        match files st_fit "/tmp/checkpoint" with
        | None => None
        | Some p =>
            Some (history,
                  {| weights := p;
                     files := files st_fit;
                     trace :=
                       trace st_fit ++
                       [ EvLoad X Y "/tmp/checkpoint";
                         EvEvaluate x_test y_test;
                         EvPrint X Y "Test accuracy: "
                           (measure c
                              (Some (SparseCategoricalAccuracy "accuracy"))
                              p x_test y_test * 100);
                         EvPrint X Y "Test top 5 accuracy: "
                           (measure c
                              (Some (SparseTopKCategoricalAccuracy 5
                                       "top-5-accuracy"))
                              p x_test y_test * 100) ] |})
        end
    end.
Proof.
  intros c Hfit. subst r.
  unfold run_experiment, compile, emit, bind, ret, c, script_compile_args.
  cbv beta iota.
  match goal with
  | |- context [fit ?a ?b ?c0 ?x ?y ?bs ?ep ?vs ?cbs ?s0] =>
      destruct (fit a b c0 x y bs ep vs cbs s0) as [[history st_fit]|]
  end; [|reflexivity].
  unfold load_weights.
  destruct (files st_fit "/tmp/checkpoint") as [p|]; [|reflexivity].
  unfold evaluate, print_percent, emit.
  cbn [weights files trace named_values compile_metrics map snd metric_name].
  rewrite <- !app_assoc. reflexivity.
Qed.

(** [fit] with the script's split on at least two samples is the training
    loop on the first 85% with validation on the rest. *)
Lemma fit_with_split (c : compile_args) (x : list X) (y : list Y)
    (bs epochs : nat) (cbs : list ModelCheckpoint) (st : state X Y Params) :
  2 <= length x ->
  let k := length x * 85 / 100 in
  fit train_epoch measure c x y bs epochs (15 # 100) cbs st
  = fit_loop train_epoch measure c bs (firstn k x, firstn k y)
             (Some (skipn k x, skipn k y)) epochs 0 cbs [] st.
Proof.
  intros Hn k. destruct (split_85_inside (length x) Hn) as (Hk0 & Hkn).
  unfold fit. change (Qeq_bool (15 # 100) 0) with false. cbv iota.
  unfold train_validation_split. rewrite split_at_15_percent. fold k.
  destruct (Nat.eqb_spec k 0) as [E|_]; [lia|].
  destruct (Nat.eqb_spec k (length x)) as [E|_]; [lia|].
  reflexivity.
Qed.

(** [fit] in the script's run, in terms of the parameters and validation
    accuracies of the successive epochs. *)
Lemma fit_course (cfg : hyperparameters) (x_train : list X) (y_train : list Y)
    (st : state X Y Params) :
  2 <= length x_train ->
  let k := length x_train * 85 / 100 in
  let c := script_compile_args cfg in
  let tx := firstn k x_train in
  let ty := firstn k y_train in
  let vx := skipn k x_train in
  let vy := skipn k y_train in
  let W := weights_after train_epoch c (batch_size cfg) tx ty (weights st) in
  let v := val_accuracy_after train_epoch measure c (batch_size cfg)
                              tx ty vx vy (weights st) in
  exists history st_fit,
    fit train_epoch measure c x_train y_train (batch_size cfg) (num_epochs cfg)
        (15 # 100)
        [{| filepath := "/tmp/checkpoint"; monitor := "val_accuracy";
            save_best_only := true; best := None |}]
        {| weights := weights st; files := files st;
           trace := trace st ++ [EvCompile X Y c] |}
      = Some (history, st_fit) /\
    weights st_fit = W (num_epochs cfg) /\
    trace st_fit
      = trace st ++ [EvCompile X Y c] ++
        flat_map (epoch_events "/tmp/checkpoint" tx ty vx vy v)
                 (seq 0 (num_epochs cfg)) /\
    length history = num_epochs cfg /\
    (forall e, e < num_epochs cfg ->
       map fst (nth e history []) = epoch_keys /\
       val_accuracy_at history e = Some (v e)) /\
    (forall eb, last_save v (num_epochs cfg) = Some eb ->
                files st_fit "/tmp/checkpoint" = Some (W (S eb))) /\
    (forall q, q <> "/tmp/checkpoint" -> files st_fit q = files st q).
Proof.
  intros Hn k c tx ty vx vy W v.
  rewrite (fit_with_split c x_train y_train _ _ _ _ Hn). fold k tx ty vx vy.
  destruct (fit_loop_course cfg (batch_size cfg) tx ty vx vy "/tmp/checkpoint"
              (weights st) (num_epochs cfg) 0
              {| filepath := "/tmp/checkpoint"; monitor := "val_accuracy";
                 save_best_only := true; best := None |}
              []
              {| weights := weights st; files := files st;
                 trace := trace st ++ [EvCompile X Y c] |}
              eq_refl eq_refl eq_refl eq_refl eq_refl eq_refl)
    as (history & st_fit & Hfit & Hw & Htr & Hlen & Hhist & Hfile & Hq).
  { intros e He. lia. }
  { intros eb Heb. discriminate. }
  exists history, st_fit.
  split; [exact Hfit|]. split; [exact Hw|]. split.
  { rewrite Htr. cbn [trace]. rewrite <- app_assoc. reflexivity. }
  split; [exact Hlen|]. split; [exact Hhist|]. split; [exact Hfile|exact Hq].
Qed.

(** C4.  In a run of [run_experiment] the events are: the compilation, the
    events of the training loop, then one read of the checkpoint, one
    evaluation on the test data and the two printed lines.  The loop itself
    never reads the checkpoint and never evaluates on the test data; it
    writes the checkpoint at the end of epoch [e] exactly if the validation
    accuracy of epoch [e] is greater than that of every earlier epoch, and
    always to the one path.  Every write replaces what the file held, be it
    an earlier snapshot of this run or a file from before the run: after the
    run the file holds the parameters the model had at the end of the last
    epoch that wrote it, [e_last].  The parameters the evaluation uses are
    the ones in the file. *)
Theorem checkpoint_saved_on_improvement_and_loaded_once
    (cfg : hyperparameters) (x_train : list X) (y_train : list Y)
    (x_test : list X) (y_test : list Y) (st : state X Y Params) :
  0 < num_epochs cfg ->
  2 <= length x_train ->
  exists history st' fit_events accuracy top_5_accuracy,
    run_experiment train_epoch measure cfg x_train y_train x_test y_test st
      = Some (history, st') /\
    trace st'
      = trace st ++ [EvCompile X Y (script_compile_args cfg)] ++
        fit_events ++
        [ EvLoad X Y "/tmp/checkpoint";
          EvEvaluate x_test y_test;
          EvPrint X Y "Test accuracy: " accuracy;
          EvPrint X Y "Test top 5 accuracy: " top_5_accuracy ] /\
    Forall (@fit_event X Y) fit_events /\
    (forall e q, In (EvSave X Y e q) fit_events <->
                 q = "/tmp/checkpoint" /\ e < num_epochs cfg /\
                 new_best history e) /\
    count_events (@is_load X Y) (trace st')
      = count_events (@is_load X Y) (trace st) + 1 /\
    count_events (@is_evaluate X Y) (trace st')
      = count_events (@is_evaluate X Y) (trace st) + 1 /\
    files st' "/tmp/checkpoint" = Some (weights st') /\
    (forall q, q <> "/tmp/checkpoint" -> files st' q = files st q) /\
    exists e_last,
      In (EvSave X Y e_last "/tmp/checkpoint") fit_events /\
      (forall e q, In (EvSave X Y e q) fit_events -> e <= e_last) /\
      files st' "/tmp/checkpoint"
        = Some (weights_after train_epoch (script_compile_args cfg)
                  (batch_size cfg)
                  (firstn (length x_train * 85 / 100) x_train)
                  (firstn (length x_train * 85 / 100) y_train)
                  (weights st) (S e_last)).
Proof.
  intros Hep Hn.
  destruct (run_experiment_spec X Y Params train_epoch measure cfg
              x_train y_train st Hep Hn)
    as (history & events & p_best & files' & _ & _ & Hev & _ & _ & Hsaves
        & Hfile & Hfiles & Hrun).
  specialize (Hrun x_test y_test).
  destruct (fit_events_have_no_load_or_evaluate X Y events Hev) as (Hl & He).
  destruct (fit_course cfg x_train y_train st Hn)
    as (history2 & st_fit & Hfit & _ & _ & _ & Hhist & Hfile2 & _).
  set (k := length x_train * 85 / 100) in *.
  set (c := script_compile_args cfg) in *.
  set (W := weights_after train_epoch c (batch_size cfg)
              (firstn k x_train) (firstn k y_train) (weights st)) in *.
  set (v := val_accuracy_after train_epoch measure c (batch_size cfg)
              (firstn k x_train) (firstn k y_train)
              (skipn k x_train) (skipn k y_train) (weights st)) in *.
  pose proof (last_save_first_maximum v (num_epochs cfg)) as Hls.
  destruct (last_save v (num_epochs cfg)) as [eb|]; [|lia].
  destruct Hls as (Hlt & _ & Hmax & Hfirst).
  pose proof (run_experiment_after_fit cfg x_train y_train x_test y_test st _
                Hfit) as Hrun2.
  cbv beta iota in Hrun2. rewrite (Hfile2 eb eq_refl) in Hrun2.
  rewrite Hrun in Hrun2.
  assert (Hh : history = history2) by congruence.
  assert (Hp : p_best = W (S eb)) by congruence.
  clear Hrun2. subst history2.
  eexists history, _, events, _, _.
  split; [exact Hrun|]. cbn [trace weights files].
  split; [reflexivity|]. split; [exact Hev|]. split; [exact Hsaves|].
  split; [rewrite !count_events_app, Hl; reflexivity|].
  split; [rewrite !count_events_app, He; reflexivity|].
  split; [exact Hfile|]. split; [exact Hfiles|].
  exists eb. split; [|split].
  - apply Hsaves. split; [reflexivity|]. split; [exact Hlt|].
    exists (v eb). split; [apply Hhist; exact Hlt|].
    intros e' v' He' Hv'.
    rewrite (proj2 (Hhist e' (Nat.lt_trans _ _ _ He' Hlt))) in Hv'.
    injection Hv' as <-. apply Hfirst. exact He'.
  - intros e q Hin. apply Hsaves in Hin.
    destruct Hin as (_ & He_lt & v0 & Hv0 & Hall).
    destruct (Nat.le_gt_cases e eb) as [Hle|Hgt]; [exact Hle|].
    exfalso.
    rewrite (proj2 (Hhist e He_lt)) in Hv0. injection Hv0 as <-.
    specialize (Hall eb (v eb) Hgt (proj2 (Hhist eb Hlt))).
    apply (Qlt_not_le _ _ Hall). apply Hmax. exact He_lt.
  - rewrite Hfile, Hp. reflexivity.
Qed.

(** X10.  The events of a run with at least one epoch, in full: the
    compilation; for every epoch in turn the training on the first 85% of the
    training data, the validation on the rest and, if the validation accuracy
    beats that of all earlier epochs, the save; then the reload, the
    evaluation on the test data and the two printed lines.  The first epoch
    always saves, and an epoch that only equals an earlier accuracy does
    not. *)
Theorem run_experiment_event_sequence (cfg : hyperparameters)
    (x_train : list X) (y_train : list Y) (x_test : list X) (y_test : list Y)
    (st : state X Y Params) :
  0 < num_epochs cfg ->
  2 <= length x_train ->
  let k := length x_train * 85 / 100 in
  let c := script_compile_args cfg in
  let v := val_accuracy_after train_epoch measure c (batch_size cfg)
             (firstn k x_train) (firstn k y_train)
             (skipn k x_train) (skipn k y_train) (weights st) in
  exists history st' accuracy top_5_accuracy,
    run_experiment train_epoch measure cfg x_train y_train x_test y_test st
      = Some (history, st') /\
    trace st'
      = trace st ++ [EvCompile X Y c] ++
        flat_map (epoch_events "/tmp/checkpoint"
                    (firstn k x_train) (firstn k y_train)
                    (skipn k x_train) (skipn k y_train) v)
                 (seq 0 (num_epochs cfg)) ++
        [ EvLoad X Y "/tmp/checkpoint";
          EvEvaluate x_test y_test;
          EvPrint X Y "Test accuracy: " accuracy;
          EvPrint X Y "Test top 5 accuracy: " top_5_accuracy ] /\
    saves_at v 0 = true /\
    (forall e, saves_at v e = true <-> forall e', e' < e -> (v e' < v e)%Q).
Proof.
  intros Hep Hn k c v.
  destruct (fit_course cfg x_train y_train st Hn)
    as (history & st_fit & Hfit & Hw & Htr & Hlen & Hhist & Hfile & Hq).
  fold k c v in Hfit, Hw, Htr, Hhist, Hfile.
  pose proof (last_save_first_maximum v (num_epochs cfg)) as Hls.
  destruct (last_save v (num_epochs cfg)) as [eb|]; [|lia].
  rewrite (run_experiment_after_fit cfg x_train y_train x_test y_test st _ Hfit).
  rewrite (Hfile eb eq_refl).
  eexists history, _, _, _. split; [reflexivity|]. cbn [trace].
  split; [rewrite Htr, <- !app_assoc; reflexivity|].
  split; [reflexivity|]. apply saves_at_iff.
Qed.

(** X11.  With at least one epoch, the parameters the model has after the
    run, the ones the test metrics are computed and printed from, are those
    reached at the end of the first epoch whose validation accuracy is the
    highest of the run: the checkpoint, not the parameters of the last
    epoch. *)
Theorem run_experiment_evaluates_best_validation_weights
    (cfg : hyperparameters)
    (x_train : list X) (y_train : list Y) (x_test : list X) (y_test : list Y)
    (st : state X Y Params) :
  0 < num_epochs cfg ->
  2 <= length x_train ->
  let k := length x_train * 85 / 100 in
  let c := script_compile_args cfg in
  let W := weights_after train_epoch c (batch_size cfg)
             (firstn k x_train) (firstn k y_train) (weights st) in
  let v := val_accuracy_after train_epoch measure c (batch_size cfg)
             (firstn k x_train) (firstn k y_train)
             (skipn k x_train) (skipn k y_train) (weights st) in
  exists e_best history st',
    e_best < num_epochs cfg /\
    run_experiment train_epoch measure cfg x_train y_train x_test y_test st
      = Some (history, st') /\
    weights st' = W (S e_best) /\
    files st' "/tmp/checkpoint" = Some (W (S e_best)) /\
    (forall e, e < num_epochs cfg -> (v e <= v e_best)%Q) /\
    (forall e, e < e_best -> (v e < v e_best)%Q) /\
    In (EvPrint X Y "Test accuracy: "
          (measure c (Some (SparseCategoricalAccuracy "accuracy"))
                   (W (S e_best)) x_test y_test * 100))
       (trace st') /\
    In (EvPrint X Y "Test top 5 accuracy: "
          (measure c (Some (SparseTopKCategoricalAccuracy 5 "top-5-accuracy"))
                   (W (S e_best)) x_test y_test * 100))
       (trace st').
Proof.
  intros Hep Hn k c W v.
  destruct (fit_course cfg x_train y_train st Hn)
    as (history & st_fit & Hfit & Hw & Htr & Hlen & Hhist & Hfile & Hq).
  fold k c v W in Hfit, Hw, Htr, Hhist, Hfile.
  pose proof (last_save_first_maximum v (num_epochs cfg)) as Hls.
  destruct (last_save v (num_epochs cfg)) as [eb|]; [|lia].
  destruct Hls as (Hlt & _ & Hmax & Hfirst).
  rewrite (run_experiment_after_fit cfg x_train y_train x_test y_test st _ Hfit).
  rewrite (Hfile eb eq_refl).
  eexists eb, history, _. split; [exact Hlt|]. split; [reflexivity|].
  cbn [weights files trace].
  split; [reflexivity|]. split; [apply Hfile; reflexivity|].
  split; [exact Hmax|]. split; [exact Hfirst|].
  split; apply in_or_app; right; cbn [In]; auto.
Qed.

(** X12.  The history returned has one entry per epoch; each entry holds, in
    this order, the training loss and the two training metrics and then the
    same three on the validation data under the prefix "val_", and its
    "val_accuracy" is the accuracy, on the validation part, of the parameters
    reached at the end of that epoch. *)
Theorem run_experiment_history (cfg : hyperparameters)
    (x_train : list X) (y_train : list Y) (x_test : list X) (y_test : list Y)
    (st : state X Y Params) :
  0 < num_epochs cfg ->
  2 <= length x_train ->
  let k := length x_train * 85 / 100 in
  let c := script_compile_args cfg in
  let v := val_accuracy_after train_epoch measure c (batch_size cfg)
             (firstn k x_train) (firstn k y_train)
             (skipn k x_train) (skipn k y_train) (weights st) in
  exists history st',
    run_experiment train_epoch measure cfg x_train y_train x_test y_test st
      = Some (history, st') /\
    length history = num_epochs cfg /\
    forall e, e < num_epochs cfg ->
      map fst (nth e history [])
        = [ "loss"; "accuracy"; "top-5-accuracy";
            "val_loss"; "val_accuracy"; "val_top-5-accuracy" ] /\
      logs_get (nth e history []) "val_accuracy" = Some (v e).
Proof.
  intros Hep Hn k c v.
  destruct (fit_course cfg x_train y_train st Hn)
    as (history & st_fit & Hfit & Hw & Htr & Hlen & Hhist & Hfile & Hq).
  fold k c v in Hfit, Hw, Htr, Hhist, Hfile.
  pose proof (last_save_first_maximum v (num_epochs cfg)) as Hls.
  destruct (last_save v (num_epochs cfg)) as [eb|]; [|lia].
  rewrite (run_experiment_after_fit cfg x_train y_train x_test y_test st _ Hfit).
  rewrite (Hfile eb eq_refl).
  eexists history, _. split; [reflexivity|]. split; [exact Hlen|].
  exact Hhist.
Qed.

(** X13.  With zero epochs nothing is trained and nothing is saved, but the
    reload still happens: the run fails if no file is at the checkpoint path,
    and otherwise evaluates whatever parameters an earlier run left there. *)
Theorem run_experiment_zero_epochs (cfg : hyperparameters)
    (x_train : list X) (y_train : list Y) (x_test : list X) (y_test : list Y)
    (st : state X Y Params) :
  num_epochs cfg = 0 ->
  2 <= length x_train ->
  let c := script_compile_args cfg in
  run_experiment train_epoch measure cfg x_train y_train x_test y_test st
  = match files st "/tmp/checkpoint" with
    | None => None
    | Some p =>
        Some ([],
              {| weights := p;
                 files := files st;
                 trace :=
                   trace st ++
                   [ EvCompile X Y c;
                     EvLoad X Y "/tmp/checkpoint";
                     EvEvaluate x_test y_test;
                     EvPrint X Y "Test accuracy: "
                       (measure c (Some (SparseCategoricalAccuracy "accuracy"))
                                p x_test y_test * 100);
                     EvPrint X Y "Test top 5 accuracy: "
                       (measure c
                          (Some (SparseTopKCategoricalAccuracy 5
                                   "top-5-accuracy"))
                          p x_test y_test * 100) ] |})
    end.
Proof.
  intros Hep Hn c.
  rewrite (run_experiment_after_fit cfg x_train y_train x_test y_test st _
             eq_refl).
  rewrite (fit_with_split _ x_train y_train _ _ _ _ Hn), Hep.
  cbn [fit_loop ret files trace].
  destruct (files st "/tmp/checkpoint"); [|reflexivity].
  rewrite <- app_assoc. reflexivity.
Qed.

(** X14.  With fewer than two training samples one side of the validation
    split is empty and the run fails in [fit], before any training. *)
Theorem run_experiment_needs_two_samples (cfg : hyperparameters)
    (x_train : list X) (y_train : list Y) (x_test : list X) (y_test : list Y)
    (st : state X Y Params) :
  length x_train < 2 ->
  run_experiment train_epoch measure cfg x_train y_train x_test y_test st
  = None.
Proof.
  intros Hn.
  rewrite (run_experiment_after_fit cfg x_train y_train x_test y_test st _
             eq_refl).
  unfold fit. change (Qeq_bool (15 # 100) 0) with false. cbv iota.
  unfold train_validation_split. rewrite split_at_15_percent.
  rewrite (Nat.div_small (length x_train * 85) 100) by lia.
  reflexivity.
Qed.

End TrainingCourseFacts.

Lemma checkpoint_saved_on_improvement_and_loaded_once_witness :
  exists history st' fit_events accuracy top_5_accuracy,
    run_experiment example_train_epoch example_measure config_3_epochs
                   (seq 0 20) (seq 0 20) [100; 101] [1; 2]
                   example_state_with_checkpoint
      = Some (history, st') /\
    trace st'
      = trace example_state_with_checkpoint ++
        [EvCompile nat nat (script_compile_args config_3_epochs)] ++
        fit_events ++
        [ EvLoad nat nat "/tmp/checkpoint";
          EvEvaluate [100; 101] [1; 2];
          EvPrint nat nat "Test accuracy: " accuracy;
          EvPrint nat nat "Test top 5 accuracy: " top_5_accuracy ] /\
    Forall (@fit_event nat nat) fit_events /\
    (forall e q, In (EvSave nat nat e q) fit_events <->
                 q = "/tmp/checkpoint" /\ e < 3 /\ new_best history e) /\
    count_events (@is_load nat nat) (trace st')
      = count_events (@is_load nat nat) (trace example_state_with_checkpoint)
        + 1 /\
    count_events (@is_evaluate nat nat) (trace st')
      = count_events (@is_evaluate nat nat)
          (trace example_state_with_checkpoint) + 1 /\
    files st' "/tmp/checkpoint" = Some (weights st') /\
    (forall q, q <> "/tmp/checkpoint" ->
               files st' q = files example_state_with_checkpoint q) /\
    exists e_last,
      In (EvSave nat nat e_last "/tmp/checkpoint") fit_events /\
      (forall e q, In (EvSave nat nat e q) fit_events -> e <= e_last) /\
      files st' "/tmp/checkpoint"
        = Some (weights_after example_train_epoch
                  (script_compile_args config_3_epochs)
                  (batch_size config_3_epochs)
                  (seq 0 17) (seq 0 17)
                  (weights example_state_with_checkpoint) (S e_last)).
Proof.
  apply (checkpoint_saved_on_improvement_and_loaded_once nat nat nat
           example_train_epoch example_measure config_3_epochs
           (seq 0 20) (seq 0 20) [100; 101] [1; 2]
           example_state_with_checkpoint);
    [cbn; lia | cbn; lia].
Defined.

(** ** The display of the patches *)

Lemma for_each_map {U V : Type} (f : U -> option V) (g : U -> V) (l : list U) :
  (forall u, In u l -> f u = Some (g u)) ->
  for_each f l = Some (map g l).
Proof.
  induction l as [|u l IH]; intros H.
  - reflexivity.
  - cbn [for_each map]. rewrite (H u) by (left; reflexivity). cbn [obind].
    rewrite IH by (intros u' Hu'; apply H; right; exact Hu').
    reflexivity.
Qed.

Lemma combine_seq_map {V : Type} (h : nat -> V) (n : nat) :
  forall start,
    combine (seq start n) (map h (seq start n))
      = map (fun k => (k, h k)) (seq start n).
Proof.
  induction n as [|n IH]; intros start.
  - reflexivity.
  - cbn [seq map combine]. rewrite IH. reflexivity.
Qed.

Lemma nth_error_map_seq {V : Type} (F : nat -> V) (n k : nat) :
  k < n -> nth_error (map F (seq 0 n)) k = Some (F k).
Proof.
  intros Hk. rewrite nth_error_map.
  rewrite (nth_error_nth' (seq 0 n) 0) by (rewrite length_seq; exact Hk).
  rewrite seq_nth by exact Hk. reflexivity.
Qed.

Section DisplayFacts.

Variable A : Type.
Variable zero : A.

(** X15.  For a square image with three channels the display succeeds.  It
    draws one cell per patch, patch number [i * n + j] in cell
    [i * n + j + 1] of a grid of [n] x [n] cells with [n = S / P], and what is
    drawn there is the [P] x [P] tile of the image at row [i * P], column
    [j * P]: reshaping a patch gives back the pixels it was cut from. *)
Theorem display_patches_draws_the_tiles (P S : nat) (image : Tensor A) :
  0 < P ->
  shape image = [S; S; 3] ->
  wf_tensor image ->
  exists drawn,
    display_patches P image = Some drawn /\
    length drawn = (S / P) * (S / P) /\
    forall i j, i < S / P -> j < S / P ->
      exists img,
        nth_error drawn (i * (S / P) + j)
          = Some ((S / P, S / P, i * (S / P) + j + 1), img) /\
        shape img = [P; P; 3] /\
        forall di dj ch, di < P -> dj < P -> ch < 3 ->
          get3 zero img di dj ch
            = get3 zero image (i * P + di) (j * P + dj) ch.
Proof.
  intros HP Es Hwf.
  set (q := S / P).
  set (d := P * P * 3).
  assert (Hd : 0 < d) by (unfold d; nia).
  assert (Esb : shape (batch_of_one image) = [1; S; S; 3]).
  { unfold batch_of_one. cbn [shape]. rewrite Es. reflexivity. }
  assert (Hwfb : wf_tensor (batch_of_one image)).
  { unfold wf_tensor, batch_of_one in *. cbn [shape data numel fold_right].
    rewrite Hwf. unfold numel. lia. }
  destruct (Patches_call_shape A P 1 S S 3 (batch_of_one image) HP
              ltac:(lia) ltac:(lia) Esb) as (patches & Hcall & Hs & _).
  pose proof (Patches_call_wf A P _ _ Hwfb Hcall) as Hwfp.
  fold q d in Hs.
  pose proof (Patches_call_tile_entry A zero P 1 S S 3 (batch_of_one image)
                patches HP ltac:(lia) ltac:(lia) Esb Hwfb Hcall) as Hent.
  fold q in Hent.
  set (h := fun k => mkTensor [d]
                       (slice (k * numel [d]) (numel [d])
                              (slice (0 * numel [q * q; d]) (numel [q * q; d])
                                     (data patches)))).
  set (g := fun ip : nat * Tensor A =>
              ((q, q, fst ip + 1), mkTensor [P; P; 3] (data (snd ip)))).
  exists (map (fun k => g (k, h k)) (seq 0 (q * q))).
  split; [|split].
  - unfold display_patches. rewrite Hcall. cbn [obind]. rewrite Hs.
    cbn [nth_error obind]. unfold unstack at 1. rewrite Hs.
    cbn [seq map nth_error obind]. unfold unstack. cbn [shape obind].
    rewrite length_map, length_seq.
    fold h. rewrite combine_seq_map, Nat.sqrt_square.
    rewrite (for_each_map _ g).
    + rewrite map_map. reflexivity.
    + intros [k t] Hin. apply in_map_iff in Hin.
      destruct Hin as (k' & E & Hk'). injection E as <- <-.
      apply in_seq in Hk'. cbn [fst snd]. unfold subplot.
      destruct (Nat.leb_spec 1 (k' + 1)) as [_|H]; [|lia].
      destruct (Nat.leb_spec (k' + 1) (q * q)) as [_|H]; [|lia].
      cbn [andb obind]. unfold reshape, h.
      cbn [count_unknown filter length known_product fold_right shape numel
           resolve map data].
      fold d. replace (P * (P * (3 * 1))) with (d * 1) by (unfold d; lia).
      rewrite Nat.eqb_refl. reflexivity.
  - rewrite length_map, length_seq. reflexivity.
  - intros i j Hi Hj.
    assert (Hk : i * q + j < q * q) by nia.
    eexists. split; [|split].
    + rewrite nth_error_map_seq by exact Hk. unfold g. cbn [fst snd].
      reflexivity.
    + reflexivity.
    + intros di dj ch Hdi Hdj Hch.
      specialize (Hent 0 i j di dj ch ltac:(lia) Hi Hj Hdi Hdj Hch).
      unfold get3, get4 in *. rewrite Hs in Hent. rewrite Esb in Hent.
      rewrite Es. cbn [shape data h].
      unfold get in *. cbn [data batch_of_one] in *.
      assert (Ho : (di * P + dj) * 3 + ch < d) by (unfold d; nia).
      cbn [numel fold_right].
      rewrite nth_slice by lia. rewrite nth_slice.
      * replace (0 * (q * q * (d * 1)) + ((i * q + j) * (d * 1)
                                          + ((di * P + dj) * 3 + ch)))
          with ((0 * (q * q) + (i * q + j)) * d + ((di * P + dj) * 3 + ch))
          by lia.
        rewrite Hent. reflexivity.
      * assert ((i * q + j) * (d * 1) + d <= q * q * (d * 1)) by nia. lia.
Qed.

(** X16.  For an image whose channel count is not 3 the display fails as
    soon as there is a patch to draw: the loop reshapes every patch to
    [patch_size] x [patch_size] x 3. *)
Theorem display_patches_needs_three_channels (P S C : nat) (image : Tensor A) :
  0 < P -> P <= S -> 0 < C -> C <> 3 ->
  shape image = [S; S; C] ->
  display_patches P image = None.
Proof.
  intros HP HS HC HC3 Es.
  assert (Esb : shape (batch_of_one image) = [1; S; S; C]).
  { unfold batch_of_one. cbn [shape]. rewrite Es. reflexivity. }
  destruct (Patches_call_shape A P 1 S S C (batch_of_one image) HP
              ltac:(lia) HC Esb) as (patches & Hcall & Hs & _).
  assert (Hq : 0 < S / P) by (apply Nat.div_str_pos; lia).
  unfold display_patches. rewrite Hcall. cbn [obind]. rewrite Hs.
  cbn [nth_error obind]. unfold unstack at 1. rewrite Hs.
  cbn [seq map nth_error obind]. unfold unstack. cbn [shape obind].
  rewrite length_map, length_seq, Nat.sqrt_square.
  destruct (S / P * (S / P)) as [|n] eqn:En; [nia|].
  cbn [seq map combine for_each fst snd]. unfold reshape.
  cbn [count_unknown filter length known_product fold_right shape numel].
  destruct (Nat.eqb_spec (P * (P * (3 * 1))) (P * P * C * 1)) as [E|_].
  - exfalso. apply HC3.
    assert (E' : P * P * 3 = P * P * C) by lia.
    apply Nat.mul_cancel_l in E'; [lia|nia].
  - destruct (subplot _ _ _); reflexivity.
Qed.

End DisplayFacts.

(** ** Building the classifier for other configurations *)

(** X17.  For square images at least as large as a patch, with at least one
    channel, a positive projection width, number of heads and number of
    classes and positive head units, the classifier can be built, for any
    number of blocks and any number of head layers, and on a non-empty batch
    its output has one score per class and image.  (The premises on the
    widths and counts are the framework's own demands on these arguments;
    the shape rules above do not look at them.) *)
Theorem create_vit_classifier_builds_for_square_images
    (cfg : hyperparameters) (batch s c : nat) :
  input_shape cfg = [s; s; c] ->
  0 < patch_size cfg -> patch_size cfg <= s ->
  0 < c -> 0 < batch ->
  0 < projection_dims cfg -> 0 < num_heads cfg -> 0 < num_classes cfg ->
  Forall (fun units => 0 < units) (mlp_head_units cfg) ->
  exists m,
    create_vit_classifier cfg batch = Some m /\
    tensor_shape (model_inputs m) = [batch; s; s; c] /\
    tensor_shape (model_outputs m) = [batch; num_classes cfg].
Proof.
  intros Hin Hp _ Hc Hb _ _ _ _.
  destruct (create_vit_classifier_builds cfg batch s c Hin Hp Hc Hb)
    as (m & Hm).
  exists m. split; [exact Hm|].
  destruct (create_vit_classifier_inv cfg batch m Hm) as (_ & Hi & _ & Ho).
  rewrite Hi, Ho, Hin. split; reflexivity.
Qed.

(** X18.  A transformer block cannot be applied to a tensor whose last
    extent differs from [projection_dims] (neither of them being 1): the MLP
    ends in [projection_dims] features, and the second residual [Add] then
    gets two tensors that do not fit. *)
Theorem transformer_block_needs_projection_width
    (cfg : hyperparameters) (x : KerasTensor) (g : graph) (b n d : nat) :
  tensor_shape x = [b; n; d] ->
  d <> projection_dims cfg -> d <> 1 -> projection_dims cfg <> 1 ->
  transformer_block cfg x g = None.
Proof.
  intros Hx Hne Hd1 Hp1. unfold transformer_block.
  erewrite bind_some by (apply call_some; reflexivity).
  erewrite bind_some
    by (apply call_some; cbn [map tensor_shape compute_output_shape];
        rewrite Hx, Nat.eqb_refl; reflexivity).
  erewrite bind_some
    by (apply call_some; cbn [map tensor_shape]; rewrite Hx;
        apply Add_same_shape).
  erewrite bind_some by (apply call_some; reflexivity).
  match goal with
  | |- context [bind (mlp ?x0 (transformer_units cfg) ?r) _ ?g0] =>
      destruct (mlp_shape (transformer_units cfg) r [b; n]
                  ltac:(discriminate) d x0 g0 eq_refl)
        as (y & g' & Hm & Hy)
  end.
  erewrite bind_some by exact Hm.
  cbn [transformer_units last app] in Hy.
  unfold call. cbn [map tensor_shape compute_output_shape merge_shapes].
  rewrite Hy. unfold broadcast_shape. cbn [rev app broadcast_rev].
  rewrite (broadcast_dim_mismatch (projection_dims cfg) d)
    by (auto; intros E; apply Hne; symmetry; exact E).
  reflexivity.
Qed.

(** ** The further statements at concrete inputs *)

Lemma Patches_call_entry_is_tile_pixel_witness :
  get3 0 example_images_patches 0 (1 * (4 / 2) + 0) ((1 * 2 + 1) * 1 + 0)
    = get4 0 example_images 0 (1 * 2 + 1) (0 * 2 + 1) 0.
Proof.
  apply (Patches_call_entry_is_tile_pixel nat 0 2 1 4 4 1
           example_images example_images_patches);
    [lia | lia | lia | reflexivity | reflexivity | reflexivity
    | lia | cbn; lia | cbn; lia | lia | lia | lia].
Defined.

Lemma Patches_call_covers_pixel_witness :
  get4 0 example_images 0 3 1 0
    = get3 0 example_images_patches 0 ((3 / 2) * (4 / 2) + 1 / 2)
           (((3 mod 2) * 2 + 1 mod 2) * 1 + 0).
Proof.
  apply (Patches_call_covers_pixel nat 0 2 1 4 4 1
           example_images example_images_patches);
    [lia | lia | lia | reflexivity | reflexivity | reflexivity
    | lia | cbn; lia | cbn; lia | lia].
Defined.

Lemma Patches_call_image_smaller_than_patch_witness :
  Patches_call 2 (mkTensor [1; 1; 4; 1] [5; 6; 7; 8])
    = Some (mkTensor [1; 0; 2 * 2 * 1] []).
Proof.
  apply (Patches_call_image_smaller_than_patch nat 2 1 1 4 1
           (mkTensor [1; 1; 4; 1] [5; 6; 7; 8]));
    [lia | lia | lia | reflexivity].
Defined.

Lemma PatchEncoder_call_encodes_patch_by_patch_witness :
  (forall b i j, b < 2 -> i < 2 -> j < 2 ->
     get3 0 example_encoded_a b i j
       = dot 0 Nat.add Nat.mul (patch_at example_patches_a b i)
             (kernel_column 0 (projection example_encoder) 3 2 j)
         + get 0 (bias (projection example_encoder)) j
         + get2 0 (position_embedding example_encoder) i j) /\
  (forall b b' i j, b < 2 -> b' < 1 -> i < 2 -> j < 2 ->
     patch_at example_patches_a b i = patch_at example_patches_b b' i ->
     get3 0 example_encoded_a b i j = get3 0 example_encoded_b b' i j).
Proof.
  apply (PatchEncoder_call_encodes_patch_by_patch nat 0 Nat.add Nat.mul
           example_encoder example_patches_a example_patches_b
           example_encoded_a example_encoded_b 2 1 2 2 3);
    [repeat split | reflexivity | reflexivity | reflexivity | reflexivity].
Defined.

Lemma PatchEncoder_call_wrong_patch_count_witness :
  PatchEncoder_call 0 Nat.add Nat.mul example_encoder
                    (mkTensor [1; 3; 3] (seq 0 9)) = None.
Proof.
  apply (PatchEncoder_call_wrong_patch_count nat 0 Nat.add Nat.mul
           example_encoder (mkTensor [1; 3; 3] (seq 0 9)) 1 3 2 2 3);
    [repeat split | reflexivity | lia | lia | lia].
Defined.

Lemma PatchEncoder_call_single_patch_is_broadcast_witness :
  exists projected encoded,
    Dense_call 0 Nat.add Nat.mul (projection example_encoder)
               (mkTensor [2; 1; 3] [1; 2; 3; 4; 5; 6]) = Some projected /\
    PatchEncoder_call 0 Nat.add Nat.mul example_encoder
                      (mkTensor [2; 1; 3] [1; 2; 3; 4; 5; 6]) = Some encoded /\
    shape encoded = [2; 2; 2] /\
    forall b i j, b < 2 -> i < 2 -> j < 2 ->
      get3 0 encoded b i j
        = get3 0 projected b 0 j
          + get2 0 (position_embedding example_encoder) i j.
Proof.
  apply (PatchEncoder_call_single_patch_is_broadcast nat 0 Nat.add Nat.mul
           example_encoder (mkTensor [2; 1; 3] [1; 2; 3; 4; 5; 6]) 2 2 2 3);
    [repeat split | reflexivity].
Defined.

Lemma mlp_builds_dense_dropout_chain_witness :
  exists y added,
    mlp {| tensor_id := 0; tensor_shape := [2; 3; 4] |} [5; 7] (1 # 10) []
      = Some (y, [] ++ added) /\
    map node_layer added
      = flat_map (fun u => [Dense u (Some gelu); Dropout (1 # 10)]) [5; 7] /\
    (forall k nd, nth_error added k = Some nd ->
       node_inputs nd = [match k with O => 0 | S k' => 0 + k' end]) /\
    tensor_shape y = [2; 3] ++ [last [5; 7] 4] /\
    tensor_id y = 0 + length added - 1 /\
    ([5; 7] = [] -> y = {| tensor_id := 0; tensor_shape := [2; 3; 4] |} /\
                    added = []).
Proof.
  apply (mlp_builds_dense_dropout_chain [5; 7] (1 # 10) [2; 3] 4
           {| tensor_id := 0; tensor_shape := [2; 3; 4] |} []);
    [discriminate | reflexivity].
Defined.

Lemma create_vit_classifier_graph_in_creation_order_witness :
  exists m,
    create_vit_classifier script_config 1 = Some m /\
    topological (model_layers m) /\
    (forall i nd, nth_error (model_layers m) i = Some nd ->
                  (node_inputs nd = [] <-> i = 0)) /\
    length (model_layers m) = 8 + 9 * 8 + 2 * 2 /\
    tensor_id (model_outputs m) = length (model_layers m) - 1.
Proof.
  destruct (create_vit_classifier script_config 1) as [m|] eqn:E.
  - exists m. split; [reflexivity|].
    apply (create_vit_classifier_graph_in_creation_order script_config 1 m E).
  - vm_compute in E. discriminate.
Defined.

Lemma PatchEncoder_call_fails_on_patches_of_non_square_images_witness :
  exists patches,
    Patches_call 4 example_images_non_square = Some patches /\
    shape patches = [1; (32 / 4) * (64 / 4); 4 * 4 * 3] /\
    PatchEncoder_call 0 Nat.add Nat.mul example_encoder_non_square patches
      = None.
Proof.
  apply (PatchEncoder_call_fails_on_patches_of_non_square_images
           nat 0 Nat.add Nat.mul config_non_square
           example_encoder_non_square example_images_non_square 1 32 64 3);
    [ reflexivity | cbn; lia | lia | lia
    | repeat split; reflexivity | reflexivity
    | vm_compute; discriminate | vm_compute; discriminate
    | vm_compute; discriminate ].
Defined.

Lemma run_experiment_event_sequence_witness :
  let v := val_accuracy_after example_train_epoch example_measure
             (script_compile_args config_3_epochs) 256
             (firstn 17 (seq 0 20)) (firstn 17 (seq 0 20))
             (skipn 17 (seq 0 20)) (skipn 17 (seq 0 20)) 0 in
  exists history st' accuracy top_5_accuracy,
    run_experiment example_train_epoch example_measure config_3_epochs
                   (seq 0 20) (seq 0 20) [100; 101] [1; 2] example_state
      = Some (history, st') /\
    trace st'
      = [] ++ [EvCompile nat nat (script_compile_args config_3_epochs)] ++
        flat_map (epoch_events "/tmp/checkpoint"
                    (firstn 17 (seq 0 20)) (firstn 17 (seq 0 20))
                    (skipn 17 (seq 0 20)) (skipn 17 (seq 0 20)) v)
                 (seq 0 3) ++
        [ EvLoad nat nat "/tmp/checkpoint";
          EvEvaluate [100; 101] [1; 2];
          EvPrint nat nat "Test accuracy: " accuracy;
          EvPrint nat nat "Test top 5 accuracy: " top_5_accuracy ] /\
    saves_at v 0 = true /\
    (forall e, saves_at v e = true <-> forall e', e' < e -> (v e' < v e)%Q).
Proof.
  apply (run_experiment_event_sequence nat nat nat
           example_train_epoch example_measure config_3_epochs
           (seq 0 20) (seq 0 20) [100; 101] [1; 2] example_state);
    [cbn; lia | cbn; lia].
Defined.

Lemma run_experiment_evaluates_best_validation_weights_witness :
  let c := script_compile_args config_3_epochs in
  let W := weights_after example_train_epoch c 256
             (firstn 17 (seq 0 20)) (firstn 17 (seq 0 20)) 0 in
  let v := val_accuracy_after example_train_epoch example_measure c 256
             (firstn 17 (seq 0 20)) (firstn 17 (seq 0 20))
             (skipn 17 (seq 0 20)) (skipn 17 (seq 0 20)) 0 in
  exists e_best history st',
    e_best < 3 /\
    run_experiment example_train_epoch example_measure config_3_epochs
                   (seq 0 20) (seq 0 20) [100; 101] [1; 2] example_state
      = Some (history, st') /\
    weights st' = W (S e_best) /\
    files st' "/tmp/checkpoint" = Some (W (S e_best)) /\
    (forall e, e < 3 -> (v e <= v e_best)%Q) /\
    (forall e, e < e_best -> (v e < v e_best)%Q) /\
    In (EvPrint nat nat "Test accuracy: "
          (example_measure c (Some (SparseCategoricalAccuracy "accuracy"))
                           (W (S e_best)) [100; 101] [1; 2] * 100))
       (trace st') /\
    In (EvPrint nat nat "Test top 5 accuracy: "
          (example_measure c
             (Some (SparseTopKCategoricalAccuracy 5 "top-5-accuracy"))
             (W (S e_best)) [100; 101] [1; 2] * 100))
       (trace st').
Proof.
  apply (run_experiment_evaluates_best_validation_weights nat nat nat
           example_train_epoch example_measure config_3_epochs
           (seq 0 20) (seq 0 20) [100; 101] [1; 2] example_state);
    [cbn; lia | cbn; lia].
Defined.

Lemma run_experiment_history_witness :
  let v := val_accuracy_after example_train_epoch example_measure
             (script_compile_args config_3_epochs) 256
             (firstn 17 (seq 0 20)) (firstn 17 (seq 0 20))
             (skipn 17 (seq 0 20)) (skipn 17 (seq 0 20)) 0 in
  exists history st',
    run_experiment example_train_epoch example_measure config_3_epochs
                   (seq 0 20) (seq 0 20) [100; 101] [1; 2] example_state
      = Some (history, st') /\
    length history = 3 /\
    forall e, e < 3 ->
      map fst (nth e history [])
        = [ "loss"; "accuracy"; "top-5-accuracy";
            "val_loss"; "val_accuracy"; "val_top-5-accuracy" ] /\
      logs_get (nth e history []) "val_accuracy" = Some (v e).
Proof.
  apply (run_experiment_history nat nat nat
           example_train_epoch example_measure config_3_epochs
           (seq 0 20) (seq 0 20) [100; 101] [1; 2] example_state);
    [cbn; lia | cbn; lia].
Defined.

Lemma run_experiment_zero_epochs_witness :
  let c := script_compile_args config_0_epochs in
  run_experiment example_train_epoch example_measure config_0_epochs
                 (seq 0 20) (seq 0 20) [100; 101] [1; 2]
                 example_state_with_checkpoint
  = match files example_state_with_checkpoint "/tmp/checkpoint" with
    | None => None
    | Some p =>
        Some ([],
              {| weights := p;
                 files := files example_state_with_checkpoint;
                 trace :=
                   trace example_state_with_checkpoint ++
                   [ EvCompile nat nat c;
                     EvLoad nat nat "/tmp/checkpoint";
                     EvEvaluate [100; 101] [1; 2];
                     EvPrint nat nat "Test accuracy: "
                       (example_measure c
                          (Some (SparseCategoricalAccuracy "accuracy"))
                          p [100; 101] [1; 2] * 100);
                     EvPrint nat nat "Test top 5 accuracy: "
                       (example_measure c
                          (Some (SparseTopKCategoricalAccuracy 5
                                   "top-5-accuracy"))
                          p [100; 101] [1; 2] * 100) ] |})
    end.
Proof.
  apply (run_experiment_zero_epochs nat nat nat
           example_train_epoch example_measure config_0_epochs
           (seq 0 20) (seq 0 20) [100; 101] [1; 2]
           example_state_with_checkpoint);
    [reflexivity | cbn; lia].
Defined.

Lemma run_experiment_needs_two_samples_witness :
  run_experiment example_train_epoch example_measure script_config
                 [7] [7] [100; 101] [1; 2] example_state = None.
Proof.
  apply (run_experiment_needs_two_samples nat nat nat
           example_train_epoch example_measure script_config
           [7] [7] [100; 101] [1; 2] example_state).
  cbn. lia.
Defined.

Lemma display_patches_draws_the_tiles_witness :
  exists drawn,
    display_patches 2 example_image_rgb = Some drawn /\
    length drawn = (4 / 2) * (4 / 2) /\
    forall i j, i < 4 / 2 -> j < 4 / 2 ->
      exists img,
        nth_error drawn (i * (4 / 2) + j)
          = Some ((4 / 2, 4 / 2, i * (4 / 2) + j + 1), img) /\
        shape img = [2; 2; 3] /\
        forall di dj ch, di < 2 -> dj < 2 -> ch < 3 ->
          get3 0 img di dj ch
            = get3 0 example_image_rgb (i * 2 + di) (j * 2 + dj) ch.
Proof.
  apply (display_patches_draws_the_tiles nat 0 2 4 example_image_rgb);
    [lia | reflexivity | reflexivity].
Defined.

Lemma display_patches_needs_three_channels_witness :
  display_patches 2 example_image_gray = None.
Proof.
  apply (display_patches_needs_three_channels nat 2 4 1 example_image_gray);
    [lia | lia | lia | lia | reflexivity].
Defined.

Lemma create_vit_classifier_builds_for_square_images_witness :
  exists m,
    create_vit_classifier config_30 2 = Some m /\
    tensor_shape (model_inputs m) = [2; 30; 30; 3] /\
    tensor_shape (model_outputs m) = [2; num_classes config_30].
Proof.
  apply (create_vit_classifier_builds_for_square_images config_30 2 30 3);
    [ reflexivity | cbn; lia | cbn; lia | lia | lia | cbn; lia | cbn; lia
    | cbn; lia | repeat constructor ].
Defined.

Lemma transformer_block_needs_projection_width_witness :
  transformer_block script_config
    {| tensor_id := 3; tensor_shape := [2; 64; 32] |} [] = None.
Proof.
  apply (transformer_block_needs_projection_width script_config
           {| tensor_id := 3; tensor_shape := [2; 64; 32] |} [] 2 64 32);
    [reflexivity | vm_compute; discriminate | lia | vm_compute; discriminate].
Defined.
